(** * CrearPelicula: the record creation handler of api-pelicula

    A shallow embedding of [src/CrearPelicula.py] and the properties of
    its request handler [lambda_handler].

    Layout:
    - [Py]: the Python values the handler manipulates (JSON-shaped data),
      the builtins it calls on them ([in], [[...]], [.get], [str.strip],
      [repr]) and the exceptions it raises and catches;
    - [Json]: [json.loads], and what stops [json.dumps] and [print];
    - [Uuid]: [uuid.uuid4] and [str] of a UUID;
    - [CrearPelicula]: [_parse_event_body] and [lambda_handler], as
      computations in a small error monad that records the prints and the
      store calls;
    - the theorems. *)

From Stdlib Require Import ZArith NArith List String Ascii Bool Lia.
Import ListNotations.

(* ================================================================== *)
(** * Python values *)
(* ================================================================== *)

Module Py.

(** A Python [str] is a sequence of Unicode code points. *)
Definition pystr := list N.

(** A source literal, all of whose characters are ASCII. *)
Definition lit (s : string) : pystr :=
  List.map N_of_ascii (list_ascii_of_string s).

Fixpoint str_eqb (a b : pystr) : bool :=
  match a, b with
  | [], [] => true
  | x :: a', y :: b' => N.eqb x y && str_eqb a' b'
  | _, _ => false
  end.

(** The values that reach the handler are JSON data: the event is decoded
    from JSON by the Lambda runtime, the body by [json.loads].  A [dict]
    keeps its items in insertion order; its keys are [str].  A [float] is
    carried as a numeral text [t] and stands for [float(t)]: the handler
    never computes with floats. *)
#[warnings="-register-all"]
Inductive pyval : Type :=
| PNone
| PBool (b : bool)
| PInt (n : Z)
| PFloat (numeral : pystr)
| PStr (s : pystr)
| PList (items : list pyval)
| PDict (items : list (pystr * pyval)).

(** [d[k]] lookup on the items of a dict: [None] when [k] is not a key. *)
Fixpoint dict_get (d : list (pystr * pyval)) (k : pystr) : option pyval :=
  match d with
  | [] => None
  | (k', v) :: d' => if str_eqb k' k then Some v else dict_get d' k
  end.

(** [dict(pairs)] adds the pairs one by one: a repeated key keeps its
    first position and takes the last value. *)
Fixpoint dict_set (d : list (pystr * pyval)) (k : pystr) (v : pyval)
  : list (pystr * pyval) :=
  match d with
  | [] => [(k, v)]
  | (k', v') :: d' =>
      if str_eqb k' k then (k', v) :: d' else (k', v') :: dict_set d' k v
  end.

(** ** [str] methods *)

(** [c.isspace()] for a one-character string: the Unicode characters of
    bidirectional type WS, B or S, or of category Zs. *)
Definition isspace (c : N) : bool :=
  ((9 <=? c) && (c <=? 13) || (28 <=? c) && (c <=? 32)
   || (c =? 133) || (c =? 160) || (c =? 5760)
   || (8192 <=? c) && (c <=? 8202)
   || (c =? 8232) || (c =? 8233) || (c =? 8239) || (c =? 8287)
   || (c =? 12288))%N.

Fixpoint lstrip (s : pystr) : pystr :=
  match s with
  | c :: s' => if isspace c then lstrip s' else s
  | [] => []
  end.

(** [s.strip()] *)
Definition strip (s : pystr) : pystr := rev (lstrip (rev (lstrip s))).

(** Truth value of a [str]: non-empty. *)
Definition str_bool (s : pystr) : bool :=
  match s with [] => false | _ :: _ => true end.

Fixpoint startswith (p s : pystr) : bool :=
  match p, s with
  | [], _ => true
  | x :: p', y :: s' => N.eqb x y && startswith p' s'
  | _ :: _, [] => false
  end.

(** [sub in s] for two [str]. *)
Fixpoint str_contains (sub s : pystr) : bool :=
  startswith sub s ||
  match s with
  | [] => false
  | _ :: s' => str_contains sub s'
  end.

Definition hexdigit (d : N) : N :=
  (if d <? 10 then 48 + d else 87 + d)%N.

(** [repr(s)] for a [str]: quoted with an apostrophe (39), or with a
    double quote (34) when [s] has an apostrophe and no double quote;
    backslash (92), the quote, tab, newline and carriage return escaped,
    the other ASCII control characters written [\xNN].  Characters from
    U+0080 on are kept as they are, which is [repr] for the printable
    ones. *)
Definition repr_quote (s : pystr) : N :=
  if existsb (N.eqb 39) s && negb (existsb (N.eqb 34) s) then 34%N else 39%N.

Definition repr_char (q c : N) : pystr :=
  (if (c =? q) || (c =? 92) then [92; c]
   else if c =? 9 then [92; 116]
   else if c =? 10 then [92; 110]
   else if c =? 13 then [92; 114]
   else if (c <? 32) || (c =? 127)
        then [92; 120; hexdigit (c / 16); hexdigit (c mod 16)]
   else [c])%N.

Definition repr_str (s : pystr) : pystr :=
  let q := repr_quote s in
  q :: flat_map (repr_char q) s ++ [q].

(** ** Exceptions *)

(** What the handler's [except] clauses ask of an exception: which of
    the classes they name it is an instance of.  [ClientError] is
    botocore's exception for an error response of the store and carries
    the HTTP status of that response (4xx: the request was refused, as for
    a missing table, a denied permission or throttling; 5xx: the store
    itself failed).  [OtherException] is any other subclass of
    [Exception]. *)
Inductive exc_base : Type :=
| ClientError (http_status : Z)
| ValueError
| KeyError
| RuntimeError
| OtherException.

Record pyexc : Type := mkexc {
  exc_name : pystr;      (* e.__class__.__name__ *)
  exc_base_of : exc_base;
  exc_str : pystr        (* str(e) *)
}.

(** [isinstance(e, (ValueError, KeyError, RuntimeError))] *)
Definition is_validation (e : pyexc) : bool :=
  match exc_base_of e with
  | ValueError | KeyError | RuntimeError => true
  | _ => false
  end.

(** [isinstance(e, (ClientError, ValueError, KeyError, RuntimeError))] *)
Definition is_expected (e : pyexc) : bool :=
  match exc_base_of e with
  | OtherException => false
  | _ => true
  end.

(** The exceptions raised by the handler and by the builtins it calls.
    [str] of a [KeyError] with one argument is the [repr] of the
    argument. *)
Definition new_ValueError (msg : pystr) : pyexc :=
  mkexc (lit "ValueError") ValueError msg.
Definition new_RuntimeError (msg : pystr) : pyexc :=
  mkexc (lit "RuntimeError") RuntimeError msg.
Definition new_KeyError (arg : pystr) : pyexc :=
  mkexc (lit "KeyError") KeyError (repr_str arg).
Definition new_TypeError (msg : pystr) : pyexc :=
  mkexc (lit "TypeError") OtherException msg.
Definition new_AttributeError (msg : pystr) : pyexc :=
  mkexc (lit "AttributeError") OtherException msg.

Inductive result (A : Type) : Type :=
| Ok (a : A)
| Raise (e : pyexc).
Arguments Ok {A} a.
Arguments Raise {A} e.

(** ** Builtins on values *)

(** [type(v).__name__] *)
Definition type_name (v : pyval) : pystr :=
  match v with
  | PNone => lit "NoneType"
  | PBool _ => lit "bool"
  | PInt _ => lit "int"
  | PFloat _ => lit "float"
  | PStr _ => lit "str"
  | PList _ => lit "list"
  | PDict _ => lit "dict"
  end.

Definition is_PStr (k : pystr) (v : pyval) : bool :=
  match v with PStr s => str_eqb s k | _ => false end.

(** [k in v] for a [str] key [k]: key membership on a dict, element
    membership on a list, substring on a str; a [TypeError] on the values
    that are no containers.  The texts of the interpreter's own
    exceptions, here and below, are those of CPython 3.11. *)
Definition py_in (k : pystr) (v : pyval) : result bool :=
  match v with
  | PDict d => Ok (match dict_get d k with Some _ => true | None => false end)
  | PList l => Ok (existsb (is_PStr k) l)
  | PStr s => Ok (str_contains k s)
  | _ => Raise (new_TypeError
           (lit "argument of type '" ++ type_name v ++ lit "' is not iterable"))
  end.

(** [v[k]] for a [str] key [k]. *)
Definition py_getitem (v : pyval) (k : pystr) : result pyval :=
  match v with
  | PDict d =>
      match dict_get d k with
      | Some x => Ok x
      | None => Raise (new_KeyError k)
      end
  | PList _ =>
      Raise (new_TypeError (lit "list indices must be integers or slices, not str"))
  | PStr _ =>
      Raise (new_TypeError (lit "string indices must be integers, not 'str'"))
  | _ => Raise (new_TypeError
           (lit "'" ++ type_name v ++ lit "' object is not subscriptable"))
  end.

(** [v.get(k, default)]: only a dict has the method. *)
Definition py_get (v : pyval) (k : pystr) (default : pyval) : result pyval :=
  match v with
  | PDict d =>
      Ok (match dict_get d k with Some x => x | None => default end)
  | _ => Raise (new_AttributeError
           (lit "'" ++ type_name v ++ lit "' object has no attribute 'get'"))
  end.

(** ** Texts that cannot be written out *)

(** A surrogate code point, U+D800 to U+DFFF.  A [str] may hold one on
    its own (the JSON escape [\ud800] decodes to it); UTF-8 has no
    encoding for it. *)
Definition is_surrogate (c : N) : bool :=
  ((55296 <=? c) && (c <=? 57343))%N.

(** [str(n)] for a natural number. *)
Fixpoint uint_str (u : Decimal.uint) : pystr :=
  match u with
  | Decimal.Nil => []
  | Decimal.D0 u' => 48%N :: uint_str u'
  | Decimal.D1 u' => 49%N :: uint_str u'
  | Decimal.D2 u' => 50%N :: uint_str u'
  | Decimal.D3 u' => 51%N :: uint_str u'
  | Decimal.D4 u' => 52%N :: uint_str u'
  | Decimal.D5 u' => 53%N :: uint_str u'
  | Decimal.D6 u' => 54%N :: uint_str u'
  | Decimal.D7 u' => 55%N :: uint_str u'
  | Decimal.D8 u' => 56%N :: uint_str u'
  | Decimal.D9 u' => 57%N :: uint_str u'
  end.

Definition str_of_nat (n : nat) : pystr := uint_str (Nat.to_uint n).

(** The number of decimal digits of an [int], sign apart. *)
Definition decimal_digits (n : Z) : nat :=
  match n with
  | Z0 => 1
  | Zpos p | Zneg p => Decimal.nb_digits (Pos.to_uint p)
  end.

(** The limit on the conversion between [int] and decimal text
    ([sys.get_int_max_str_digits()], 4300 unless configured, 0 for none;
    absent from interpreters older than the limit, which is 0 here too).
    CPython applies it to texts of more than 640 digits only. *)
Definition exceeds (max_digits digits : nat) : bool :=
  ((0 <? max_digits) && (max_digits <? digits) && (640 <? digits))%nat.

(** The exceptions of the interpreter's limits and of the output
    stream.  [UnicodeEncodeError] is a [ValueError], [RecursionError] a
    [RuntimeError]. *)
Definition new_UnicodeEncodeError (msg : pystr) : pyexc :=
  mkexc (lit "UnicodeEncodeError") ValueError msg.
Definition new_RecursionError (msg : pystr) : pyexc :=
  mkexc (lit "RecursionError") RuntimeError msg.

End Py.

(* ================================================================== *)
(** * [json.loads] and [json.dumps] *)
(* ================================================================== *)

(** The decoder of the standard library, for a [str] document and the
    default options: the JSON grammar, plus the constants [NaN],
    [Infinity] and [-Infinity]; whitespace is space, tab, newline and
    carriage return; a string may hold no raw control character; an
    object that repeats a key keeps the last value.

    Two limits of the interpreter bear on it.  An integer literal of
    more digits than [sys.get_int_max_str_digits()] raises a plain
    [ValueError].  Every array and object is entered through
    [Py_EnterRecursiveCall], so a document nested deeper than the
    recursion limit allows raises [RecursionError].  Both are raised
    where the scan meets them, before any error further on in the
    document.  The encoder has the same two limits. *)

Module Json.
Import Py.
Local Open Scope N_scope.
Definition is_ws (c : N) : bool :=
  (c =? 32) || (c =? 9) || (c =? 10) || (c =? 13).

Fixpoint skip_ws (s : pystr) : pystr :=
  match s with
  | c :: s' => if is_ws c then skip_ws s' else s
  | [] => []
  end.

Definition is_digit (c : N) : bool := (48 <=? c) && (c <=? 57).

Fixpoint span_digits (s : pystr) : pystr * pystr :=
  match s with
  | c :: s' =>
      if is_digit c then let (ds, r) := span_digits s' in (c :: ds, r)
      else ([], s)
  | [] => ([], [])
  end.

(** The integer part of a number: an optional minus sign, then a
    single 0 or a digit 1..9 followed by any digits. *)
Definition match_integer (s : pystr) : option (pystr * pystr) :=
  let (sign, s1) :=
    match s with
    | c :: r => if c =? 45 then ([45], r) else ([], s)
    | [] => ([], s)
    end in
  match s1 with
  | c :: r =>
      if c =? 48 then Some (sign ++ [48], r)
      else if is_digit c
           then let (ds, r') := span_digits r in Some (sign ++ c :: ds, r')
           else None
  | [] => None
  end.

(** The optional fraction: a point and at least one digit. *)
Definition match_frac (s : pystr) : pystr * pystr :=
  match s with
  | c :: r =>
      if c =? 46 then
        match span_digits r with
        | ([], _) => ([], s)
        | (ds, r') => (c :: ds, r')
        end
      else ([], s)
  | [] => ([], s)
  end.

(** The optional exponent: e or E, an optional sign, at least one
    digit. *)
Definition match_exp (s : pystr) : pystr * pystr :=
  match s with
  | e :: r =>
      if (e =? 101) || (e =? 69) then
        let (sg, r1) :=
          match r with
          | c :: r' => if (c =? 45) || (c =? 43) then ([c], r') else ([], r)
          | [] => ([], r)
          end in
        match span_digits r1 with
        | ([], _) => ([], s)
        | (ds, r2) => (e :: sg ++ ds, r2)
        end
      else ([], s)
  | [] => ([], s)
  end.

(** [int(text)] for a text matched by [match_integer]. *)
Definition digits_value (ds : pystr) : Z :=
  fold_left (fun acc c => (10 * acc + Z.of_N (c - 48))%Z) ds 0%Z.

Definition int_of_text (t : pystr) : Z :=
  match t with
  | c :: ds => if c =? 45 then Z.opp (digits_value ds) else digits_value t
  | [] => 0%Z
  end.

(** A number: an [int] when the text has neither fraction nor exponent,
    a [float] otherwise.  The digits of an [int] are counted against the
    limit; a [float] has none. *)
Inductive number : Type :=
| Number (v : pyval) (rest : pystr)
| LongInteger (digits : nat)
| NotANumber.

Definition match_number (max_digits : nat) (s : pystr) : number :=
  match match_integer s with
  | None => NotANumber
  | Some (integer, r) =>
      let (frac, r1) := match_frac r in
      let (exp, r2) := match_exp r1 in
      match frac ++ exp with
      | [] =>
          let digits := List.length (filter is_digit integer) in
          if exceeds max_digits digits then LongInteger digits
          else Number (PInt (int_of_text integer)) r2
      | _ => Number (PFloat (integer ++ frac ++ exp)) r2
      end
  end.
Definition hex_value (c : N) : option N :=
  if is_digit c then Some (c - 48)
  else if (97 <=? c) && (c <=? 102) then Some (c - 87)
  else if (65 <=? c) && (c <=? 70) then Some (c - 55)
  else None.

(** The four hexadecimal digits of a [\uXXXX] escape. *)
Definition hex4 (a b c d : N) : option N :=
  match hex_value a, hex_value b, hex_value c, hex_value d with
  | Some x, Some y, Some z, Some w => Some (((x * 16 + y) * 16 + z) * 16 + w)
  | _, _, _, _ => None
  end.

(** The one-character escapes. *)
Definition backslash (e : N) : option N :=
  if (e =? 34) || (e =? 92) || (e =? 47) then Some e
  else if e =? 98 then Some 8
  else if e =? 102 then Some 12
  else if e =? 110 then Some 10
  else if e =? 114 then Some 13
  else if e =? 116 then Some 9
  else None.

(** [scanstring]: the text after the opening quote, up to the closing
    one.  [acc] holds the characters read, last first.  A [\uXXXX] in
    D800..DBFF followed by a [\uXXXX] in DC00..DFFF is one character. *)
Fixpoint scanstring (s : pystr) (acc : pystr) : option (pystr * pystr) :=
  match s with
  | [] => None
  | c :: r =>
    if c =? 34 then Some (rev acc, r)
    else if c =? 92 then
      match r with
      | [] => None
      | e :: r1 =>
        if e =? 117 then
          match r1 with
          | h1 :: h2 :: h3 :: h4 :: r2 =>
            match hex4 h1 h2 h3 h4 with
            | None => None
            | Some uni =>
              if (55296 <=? uni) && (uni <=? 56319) then
                match r2 with
                | b :: u :: r3 =>
                  if (b =? 92) && (u =? 117) then
                    match r3 with
                    | g1 :: g2 :: g3 :: g4 :: r4 =>
                      match hex4 g1 g2 g3 g4 with
                      | None => None
                      | Some uni2 =>
                        if (56320 <=? uni2) && (uni2 <=? 57343)
                        then scanstring r4
                               (65536 + ((uni - 55296) * 1024 + (uni2 - 56320))
                                :: acc)
                        else scanstring r2 (uni :: acc)
                      end
                    | _ => None
                    end
                  else scanstring r2 (uni :: acc)
                | _ => scanstring r2 (uni :: acc)
                end
              else scanstring r2 (uni :: acc)
            end
          | _ => None
          end
        else
          match backslash e with
          | Some ch => scanstring r1 (ch :: acc)
          | None => None
          end
      end
    else if c <? 32 then None
    else scanstring r (c :: acc)
  end.

(** What stops the decoder short of the grammar. *)
Inductive limit_error : Type :=
| IntTooLong (digits : nat)   (* ValueError *)
| ArrayTooDeep                (* RecursionError *)
| ObjectTooDeep.              (* RecursionError *)

Inductive presult : Type :=
| POk (v : pyval) (rest : pystr)
| PErr     (* JSONDecodeError *)
| PLimit (e : limit_error)
| PFuel.

Section Decoder.

Variable max_digits : nat.

(** [scan_once] reads one value at the head of [s]; [JSONArray] reads the
    items of an array from the first item on, [JSONObject] the members of
    an object from just after the opening quote of a key.  [room] is the
    number of arrays and objects that may still be entered, one inside
    the other. *)
Fixpoint scan_once (fuel room : nat) (s : pystr) {struct fuel} : presult :=
  match fuel with
  | O => PFuel
  | S f =>
    match s with
    | [] => PErr
    | c :: r =>
      if c =? 34 then
        match scanstring r [] with
        | Some (str, r') => POk (PStr str) r'
        | None => PErr
        end
      else if c =? 123 then
        match room with
        | O => PLimit ObjectTooDeep
        | S room' =>
          match skip_ws r with
          | c1 :: r1 =>
              if c1 =? 125 then POk (PDict []) r1
              else if c1 =? 34 then JSONObject f room' r1 []
              else PErr
          | [] => PErr
          end
        end
      else if c =? 91 then
        match room with
        | O => PLimit ArrayTooDeep
        | S room' =>
          match skip_ws r with
          | c1 :: r1 =>
              if c1 =? 93 then POk (PList []) r1
              else JSONArray f room' (c1 :: r1) []
          | [] => PErr
          end
        end
      else if startswith (lit "null") s then POk PNone (skipn 4 s)
      else if startswith (lit "true") s then POk (PBool true) (skipn 4 s)
      else if startswith (lit "false") s then POk (PBool false) (skipn 5 s)
      else
        match match_number max_digits s with
        | Number v r' => POk v r'
        | LongInteger digits => PLimit (IntTooLong digits)
        | NotANumber =>
          if startswith (lit "NaN") s
          then POk (PFloat (lit "NaN")) (skipn 3 s)
          else if startswith (lit "Infinity") s
          then POk (PFloat (lit "Infinity")) (skipn 8 s)
          else if startswith (lit "-Infinity") s
          then POk (PFloat (lit "-Infinity")) (skipn 9 s)
          else PErr
        end
    end
  end

with JSONArray (fuel room : nat) (s : pystr) (values : list pyval)
  {struct fuel} : presult :=
  match fuel with
  | O => PFuel
  | S f =>
    match scan_once f room s with
    | POk v r =>
      match skip_ws r with
      | c :: r1 =>
          if c =? 93 then POk (PList (rev (v :: values))) r1
          else if c =? 44 then JSONArray f room (skip_ws r1) (v :: values)
          else PErr
      | [] => PErr
      end
    | PErr => PErr
    | PLimit e => PLimit e
    | PFuel => PFuel
    end
  end

with JSONObject (fuel room : nat) (s : pystr) (pairs : list (pystr * pyval))
  {struct fuel} : presult :=
  match fuel with
  | O => PFuel
  | S f =>
    match scanstring s [] with
    | None => PErr
    | Some (key, r) =>
      match skip_ws r with
      | c :: r1 =>
        if c =? 58 then
          match scan_once f room (skip_ws r1) with
          | POk v r2 =>
            match skip_ws r2 with
            | c2 :: r3 =>
              if c2 =? 125 then POk (PDict (dict_set pairs key v)) r3
              else if c2 =? 44 then
                match skip_ws r3 with
                | q :: r4 =>
                    if q =? 34
                    then JSONObject f room r4 (dict_set pairs key v)
                    else PErr
                | [] => PErr
                end
              else PErr
            | [] => PErr
            end
          | PErr => PErr
          | PLimit e => PLimit e
          | PFuel => PFuel
          end
        else PErr
      | [] => PErr
      end
    end
  end.

End Decoder.

(** The outcome of [json.loads(s)]: a value, a [JSONDecodeError], or
    the exception of a limit. *)
Inductive decoded : Type :=
| Value (v : pyval)
| Malformed
| Limit (e : limit_error).

(** [json.loads(s)].  A document may not start with a byte order mark,
    and nothing but whitespace may follow the value.  [depth] is the
    number of arrays and objects, one inside the other, that the
    recursion limit lets the decoder enter. *)
Definition loads_fuel (s : pystr) : nat := 2 * List.length s + 2.

Definition loads (max_digits depth : nat) (s : pystr) : decoded :=
  if startswith [65279] s then Malformed
  else
    match scan_once max_digits (loads_fuel s) depth (skip_ws s) with
    | POk v r => match skip_ws r with [] => Value v | _ :: _ => Malformed end
    | PErr => Malformed
    | PLimit e => Limit e
    | PFuel => Malformed
    end.

(** ** The limits of [json.dumps] *)

(** What [json.dumps(v, ensure_ascii=False)] raises on a value of
    [pyval], if anything: a [ValueError] on an [int] whose decimal text
    is over the limit, a [RecursionError] on a list or dict nested deeper
    than [room], whichever the encoder meets first.  It enters a list or
    a dict before it looks at the items. *)
Inductive encode_error : Type :=
| IntTooLongOut     (* ValueError *)
| NestedTooDeep.    (* RecursionError *)

Fixpoint dumps_error (max_digits : nat) (v : pyval) (room : nat) {struct v}
  : option encode_error :=
  match v with
  | PInt n =>
      if exceeds max_digits (decimal_digits n) then Some IntTooLongOut
      else None
  | PList l =>
      match room with
      | O => Some NestedTooDeep
      | S room' =>
        (fix items (l : list pyval) : option encode_error :=
           match l with
           | [] => None
           | x :: l' =>
               match dumps_error max_digits x room' with
               | Some e => Some e
               | None => items l'
               end
           end) l
      end
  | PDict d =>
      match room with
      | O => Some NestedTooDeep
      | S room' =>
        (fix members (d : list (pystr * pyval)) : option encode_error :=
           match d with
           | [] => None
           | (_, x) :: d' =>
               match dumps_error max_digits x room' with
               | Some e => Some e
               | None => members d'
               end
           end) d
      end
  | _ => None
  end.

(** The characters of the text of [json.dumps(v, ensure_ascii=False)]
    are ASCII (punctuation, numerals, escapes) but for the characters
    from U+0080 on of the strings in [v], keys included, which the text
    holds as they are.  [text_chars_ok accepts v]: every such character
    satisfies [accepts]. *)
Definition str_chars_ok (accepts : N -> bool) (s : pystr) : bool :=
  forallb (fun c => (c <? 128) || accepts c) s.

Fixpoint text_chars_ok (accepts : N -> bool) (v : pyval) {struct v} : bool :=
  match v with
  | PStr s => str_chars_ok accepts s
  | PList l =>
      (fix items (l : list pyval) : bool :=
         match l with
         | [] => true
         | x :: l' => text_chars_ok accepts x && items l'
         end) l
  | PDict d =>
      (fix members (d : list (pystr * pyval)) : bool :=
         match d with
         | [] => true
         | (k, x) :: d' =>
             str_chars_ok accepts k && text_chars_ok accepts x && members d'
         end) d
  | _ => true
  end.

End Json.

(* ================================================================== *)
(** * [uuid.uuid4] *)
(* ================================================================== *)

Module Uuid.
Import Py.
Local Open Scope Z_scope.

(** [UUID(bytes=b, version=4).int], for [r = int.from_bytes(b)]: the
    variant bits 63..62 are set to 10 and the version bits 79..76 to
    0100.  Python's integers are unbounded and [~] is two's complement,
    as [Z.lnot]. *)
Definition uuid4_int (r : Z) : Z :=
  let int := Z.land r (Z.lnot (Z.shiftl 0xc000 48)) in
  let int := Z.lor int (Z.shiftl 0x8000 48) in
  let int := Z.land int (Z.lnot (Z.shiftl 0xf000 64)) in
  Z.lor int (Z.shiftl 4 76).

(** The last [width] hexadecimal digits of [n], lower case: this is
    ['%032x' % n] for [width = 32] and [0 <= n < 2^128]. *)
Fixpoint hex_digits (width : nat) (n : Z) : pystr :=
  match width with
  | O => []
  | S w => hex_digits w (Z.shiftr n 4) ++ [hexdigit (Z.to_N (Z.land n 15))]
  end.

(** [str(u)] for a UUID of integer value [n]:
    [hex[:8]-hex[8:12]-hex[12:16]-hex[16:20]-hex[20:]]. *)
Definition uuid_str (n : Z) : pystr :=
  let hex := hex_digits 32 n in
  firstn 8 hex ++ [45%N] ++ firstn 4 (skipn 8 hex) ++ [45%N]
  ++ firstn 4 (skipn 12 hex) ++ [45%N] ++ firstn 4 (skipn 16 hex) ++ [45%N]
  ++ skipn 20 hex.

(** [str(uuid.uuid4())] when [os.urandom(16)] returns the bytes of [r]. *)
Definition uuid4_str (r : Z) : pystr := uuid_str (uuid4_int r).

(** The 122 bits of the random bytes that [uuid4] keeps. *)
Definition random_bits (r : Z) : Z :=
  Z.land r 0xffffffffffff0fff3fffffffffffffff.

(** The canonical text of a version 4 UUID: 36 characters, hyphens at
    offsets 8, 13, 18 and 23, lower-case hexadecimal digits elsewhere, the
    digit 4 at offset 14 and one of 8, 9, a, b at offset 19. *)
Definition is_hex (c : N) : bool :=
  ((48 <=? c) && (c <=? 57) || (97 <=? c) && (c <=? 102))%N.

Definition canonical_char (u : pystr) (i : nat) : bool :=
  let c := nth i u 0%N in
  match i with
  | 8%nat | 13%nat | 18%nat | 23%nat => N.eqb c 45
  | 14%nat => N.eqb c 52
  | 19%nat => (N.eqb c 56 || N.eqb c 57 || N.eqb c 97 || N.eqb c 98)%bool
  | _ => is_hex c
  end.

Definition canonical_v4 (u : pystr) : bool :=
  Nat.eqb (List.length u) 36 && forallb (canonical_char u) (seq 0 36).

End Uuid.

(* ================================================================== *)
(** * The handler *)
(* ================================================================== *)

Module CrearPelicula.
Import Py.

(** ** What the handler sees of its environment *)

(** The text [json.dumps(v, ensure_ascii=False)].  It is a function of
    [v]; the handler only builds, prints and returns such texts, so they
    are kept as the value they encode. *)
Inductive jsontext : Type :=
| json_dumps (v : pyval).

Record response : Type := mkresponse {
  statusCode : Z;
  body : jsontext
}.

(** One invocation runs against:
    - [environ_get]: [os.environ.get];
    - [urandom16]: the integer [int.from_bytes(os.urandom(16))] drawn by
      [uuid.uuid4()], between 0 and 2^128 - 1;
    - [dynamodb_Table]: [boto3.resource(...).Table(name)], which returns
      a table handle or raises;
    - [put_item]: what the store answers to [table.put_item(Item=item)]:
      a response, or an exception;
    - [format_exc]: the text of [traceback.format_exc(limit)] while [e]
      is being handled;
    - [decode_error_str]: [str] of the [JSONDecodeError] that
      [json.loads] raises on a document (its wording depends on the
      interpreter);
    - [int_max_str_digits]: [sys.get_int_max_str_digits()];
    - [loads_depth], [log_depth], [body_depth]: what the recursion limit
      of the interpreter leaves to the JSON library where the module
      calls it, each counted from the least the module needs.
      [json.loads] in [_parse_event_body] may enter [1 + loads_depth]
      arrays and objects, one inside the other; [json.dumps] may enter
      [3 + log_depth] lists and dicts in [_log_info] and [_log_error],
      whose lines take three for the fields of a log entry, and
      [2 + body_depth] in the [return] statements of the handler, whose
      bodies take two;
    - [stdout_accepts]: the characters from U+0080 on that the encoding
      and error handler of [sys.stdout] can write (ASCII is always
      written).  For UTF-8 with the [strict] handler, Python's default,
      these are all the characters but the surrogates;
    - [encode_error_str]: [str] of the [UnicodeEncodeError] that [print]
      raises on a text (its wording names the codec and the position of
      the character). *)
Record world : Type := mkworld {
  environ_get : pystr -> option pystr;
  urandom16 : Z;
  dynamodb_Table : pystr -> result unit;
  put_item : pystr -> pyval -> result pyval;
  format_exc : pyexc -> Z -> pystr;
  decode_error_str : pystr -> pystr;
  int_max_str_digits : nat;
  loads_depth : nat;
  log_depth : nat;
  body_depth : nat;
  stdout_accepts : N -> bool;
  encode_error_str : jsontext -> pystr
}.

(** The observable effects of an invocation, in order. *)
Inductive effect : Type :=
| Printed (line : jsontext)
| PutItem (table : pystr) (item : pyval) (outcome : result pyval).

(** ** Computations: a trace of effects and a result or an exception *)

Definition M (A : Type) : Type := list effect -> list effect * result A.

Definition ret {A} (a : A) : M A := fun tr => (tr, Ok a).

Definition raise {A} (e : pyexc) : M A := fun tr => (tr, Raise e).

Definition lift {A} (r : result A) : M A := fun tr => (tr, r).

Definition bind {A B} (m : M A) (k : A -> M B) : M B :=
  fun tr =>
    match m tr with
    | (tr', Ok a) => k a tr'
    | (tr', Raise e) => (tr', Raise e)
    end.

Definition emit (ef : effect) : M unit := fun tr => (tr ++ [ef], Ok tt).

(** [try: m  except Exception as e: h e] *)
Definition try_except {A} (m : M A) (h : pyexc -> M A) : M A :=
  fun tr =>
    match m tr with
    | (tr', Ok a) => (tr', Ok a)
    | (tr', Raise e) => h e tr'
    end.

Notation "x <- m ;; k" := (bind m (fun x => k))
  (at level 61, m at next level, right associativity).
Notation "m ;;; k" := (bind m (fun _ => k))
  (at level 61, right associativity).

Definition TABLE_ENV_NAME : pystr := lit "TABLE_NAME".

Definition opt_str (o : option pystr) : pyval :=
  match o with Some s => PStr s | None => PNone end.

(** ** The JSON library and the output stream *)

(** [json.dumps(v, ensure_ascii=False)] where the recursion limit
    leaves [room] levels of nesting. *)
Definition dumps (w : world) (room : nat) (v : pyval) : result jsontext :=
  match Json.dumps_error (int_max_str_digits w) v room with
  | None => Ok (json_dumps v)
  | Some Json.IntTooLongOut =>
      Raise (new_ValueError
        (lit "Exceeds the limit (" ++ str_of_nat (int_max_str_digits w)
         ++ lit " digits) for integer string conversion; use sys.set_int_max_str_digits() to increase the limit"))
  | Some Json.NestedTooDeep =>
      Raise (new_RecursionError
        (lit "maximum recursion depth exceeded while encoding a JSON object"))
  end.

(** [print(text)]: the text is encoded before anything is written, so a
    text with a character the stream cannot write raises and prints
    nothing. *)
Definition print (w : world) (text : jsontext) : M unit :=
  match text with
  | json_dumps v =>
      if Json.text_chars_ok (stdout_accepts w) v then emit (Printed text)
      else raise (new_UnicodeEncodeError (encode_error_str w text))
  end.

Definition _log_info (w : world) (datos : pyval) : M unit :=
  text <- lift (dumps w (3 + log_depth w)
            (PDict [(lit "tipo", PStr (lit "INFO")); (lit "log_datos", datos)])) ;;
  print w text.

Definition _log_error (w : world) (datos : pyval) : M unit :=
  text <- lift (dumps w (3 + log_depth w)
            (PDict [(lit "tipo", PStr (lit "ERROR")); (lit "log_datos", datos)])) ;;
  print w text.

Definition new_JSONDecodeError (w : world) (doc : pystr) : pyexc :=
  mkexc (lit "JSONDecodeError") ValueError (decode_error_str w doc).

(** [json.loads(s)] as [_parse_event_body] calls it. *)
Definition json_loads (w : world) (s : pystr) : result pyval :=
  match Json.loads (int_max_str_digits w) (1 + loads_depth w) s with
  | Json.Value v => Ok v
  | Json.Malformed => Raise (new_JSONDecodeError w s)
  | Json.Limit (Json.IntTooLong digits) =>
      Raise (new_ValueError
        (lit "Exceeds the limit (" ++ str_of_nat (int_max_str_digits w)
         ++ lit " digits) for integer string conversion: value has "
         ++ str_of_nat digits
         ++ lit " digits; use sys.set_int_max_str_digits() to increase the limit"))
  | Json.Limit Json.ArrayTooDeep =>
      Raise (new_RecursionError
        (lit "maximum recursion depth exceeded while decoding a JSON array from a unicode string"))
  | Json.Limit Json.ObjectTooDeep =>
      Raise (new_RecursionError
        (lit "maximum recursion depth exceeded while decoding a JSON object from a unicode string"))
  end.

Definition _parse_event_body (w : world) (event : pyval) : result pyval :=
  match event with
  | PDict ev =>
    match dict_get ev (lit "body") with
    | Some body =>
      match body with
      | PStr s =>
          if str_bool (strip s) then json_loads w s else Ok (PDict [])
      | PDict _ => Ok body
      | _ => Raise (new_ValueError
               (lit "El campo 'body' debe ser dict o string JSON."))
      end
    | None => Ok event
    end
  | _ => Ok (PDict [])
  end.

(** [response.get("ResponseMetadata", {}).get("HTTPStatusCode", None)] *)
Definition http_status (resp : pyval) : result pyval :=
  match py_get resp (lit "ResponseMetadata") (PDict []) with
  | Ok md => py_get md (lit "HTTPStatusCode") PNone
  | Raise e => Raise e
  end.

Definition table_put_item (w : world) (tabla : pystr) (item : pyval)
  : M pyval :=
  fun tr =>
    let r := put_item w tabla item in
    (tr ++ [PutItem tabla item r], r).

(** The body of the [try] statement.  The name of the table is read
    from the environment; [not nombre_tabla] holds for [None] and for the
    empty string. *)
Definition try_body (w : world) (event : pyval) : M response :=
  nombre_tabla <-
    match environ_get w TABLE_ENV_NAME with
    | Some t =>
        if str_bool t then ret t
        else raise (new_RuntimeError
               (lit "Variable de entorno '" ++ TABLE_ENV_NAME
                ++ lit "' no definida."))
    | None =>
        raise (new_RuntimeError
          (lit "Variable de entorno '" ++ TABLE_ENV_NAME
           ++ lit "' no definida."))
    end ;;
  body <- lift (_parse_event_body w event) ;;
  has_tenant <- lift (py_in (lit "tenant_id") body) ;;
  (if negb has_tenant
   then raise (new_KeyError (lit "Falta 'tenant_id' en el body."))
   else ret tt) ;;;
  has_datos <- lift (py_in (lit "pelicula_datos") body) ;;
  (if negb has_datos
   then raise (new_KeyError (lit "Falta 'pelicula_datos' en el body."))
   else ret tt) ;;;
  tenant_id <- lift (py_getitem body (lit "tenant_id")) ;;
  pelicula_datos <- lift (py_getitem body (lit "pelicula_datos")) ;;
  let uuidv4 := Uuid.uuid4_str (urandom16 w) in
  let pelicula := PDict [(lit "tenant_id", tenant_id);
                         (lit "uuid", PStr uuidv4);
                         (lit "pelicula_datos", pelicula_datos)] in
  lift (dynamodb_Table w nombre_tabla) ;;;
  resp <- table_put_item w nombre_tabla pelicula ;;
  logged_status <- lift (http_status resp) ;;
  _log_info w (PDict [(lit "operacion", PStr (lit "crear_pelicula"));
                      (lit "estado", PStr (lit "ok"));
                      (lit "tabla", PStr nombre_tabla);
                      (lit "tenant_id", tenant_id);
                      (lit "uuid", PStr uuidv4);
                      (lit "http_status", logged_status)]) ;;;
  status <- lift (http_status resp) ;;
  text <- lift (dumps w (2 + body_depth w)
            (PDict [(lit "pelicula", pelicula);
                    (lit "response", PDict [(lit "http_status", status)])])) ;;
  ret (mkresponse 200 text).

(** [except (ClientError, ValueError, KeyError, RuntimeError) as e] *)
Definition except_expected (w : world) (event : pyval) (e : pyexc)
  : M response :=
  let err :=
    [(lit "operacion", PStr (lit "crear_pelicula"));
     (lit "estado", PStr (lit "error"));
     (lit "mensaje", PStr (exc_str e));
     (lit "tipo_error", PStr (exc_name e));
     (lit "traceback", PStr (format_exc w e 3));
     (lit "tabla", opt_str (environ_get w TABLE_ENV_NAME))] in
  body_dbg <- try_except (lift (_parse_event_body w event))
                (fun _ => ret (PDict [])) ;;
  tenant_id <- lift (py_get body_dbg (lit "tenant_id") PNone) ;;
  tiene <- lift (py_in (lit "pelicula_datos") body_dbg) ;;
  let err := dict_set err (lit "entrada_relevante")
               (PDict [(lit "tenant_id", tenant_id);
                       (lit "tiene_pelicula_datos", PBool tiene)]) in
  _log_error w (PDict err) ;;;
  let status := if is_validation e then 400%Z else 500%Z in
  text <- lift (dumps w (2 + body_depth w)
            (PDict [(lit "error",
                     PDict [(lit "mensaje", PStr (exc_str e));
                            (lit "tipo_error", PStr (exc_name e))])])) ;;
  ret (mkresponse status text).

(** [except Exception as e] *)
Definition except_other (w : world) (e : pyexc) : M response :=
  let err :=
    [(lit "operacion", PStr (lit "crear_pelicula"));
     (lit "estado", PStr (lit "error"));
     (lit "mensaje", PStr (exc_str e));
     (lit "tipo_error", PStr (exc_name e));
     (lit "traceback", PStr (format_exc w e 5));
     (lit "tabla", opt_str (environ_get w TABLE_ENV_NAME))] in
  _log_error w (PDict err) ;;;
  text <- lift (dumps w (2 + body_depth w)
            (PDict [(lit "error",
                     PDict [(lit "mensaje", PStr (lit "Error interno inesperado."));
                            (lit "tipo_error", PStr (exc_name e))])])) ;;
  ret (mkresponse 500 text).

(** The handler: the effects of the invocation, and the response it
    returns or the exception it lets escape.  The first line is logged
    outside the [try] statement. *)
Definition lambda_handler (w : world) (event context : pyval)
  : list effect * result response :=
  (_log_info w (PDict [(lit "evento_entrada", event)]) ;;;
   try_except (try_body w event)
     (fun e => if is_expected e then except_expected w event e
               else except_other w e)) [].

End CrearPelicula.

(* ================================================================== *)
(** * Vocabulary of the properties *)
(* ================================================================== *)

Import Py CrearPelicula.

Arguments lit : simpl never.
Arguments Uuid.uuid4_str : simpl never.

Definition is_dict (v : pyval) : bool :=
  match v with PDict _ => true | _ => false end.

Definition is_str (v : pyval) : bool :=
  match v with PStr _ => true | _ => false end.

(** The value under the [body] key of a request envelope, if any. *)
Definition event_body (event : pyval) : option pyval :=
  match event with
  | PDict ev => dict_get ev (lit "body")
  | _ => None
  end.

Definition is_write (ef : effect) : bool :=
  match ef with PutItem _ _ _ => true | Printed _ => false end.

(** No call to [put_item] was made. *)
Definition no_write (tr : list effect) : bool :=
  forallb (fun ef => negb (is_write ef)) tr.

(** The calls to [put_item] that were made. *)
Definition writes (tr : list effect) : list effect := filter is_write tr.

(** ** Log lines *)

(** The value a log function hands to [json.dumps]. *)
Definition info_line (datos : pyval) : pyval :=
  PDict [(lit "tipo", PStr (lit "INFO")); (lit "log_datos", datos)].

Definition error_line (datos : pyval) : pyval :=
  PDict [(lit "tipo", PStr (lit "ERROR")); (lit "log_datos", datos)].

(** What stops a log function from printing [line], if anything: the
    exception of [json.dumps], or else the one of [print]. *)
Definition log_failure (w : world) (line : pyval) : option pyexc :=
  match dumps w (3 + log_depth w) line with
  | Raise e => Some e
  | Ok text =>
      if Json.text_chars_ok (stdout_accepts w) line then None
      else Some (new_UnicodeEncodeError (encode_error_str w text))
  end.

(** What stops [json.dumps] in a [return] statement, if anything. *)
Definition body_failure (w : world) (v : pyval) : option pyexc :=
  match dumps w (2 + body_depth w) v with
  | Raise e => Some e
  | Ok _ => None
  end.

Definition entry_datos (event : pyval) : pyval :=
  PDict [(lit "evento_entrada", event)].

(** The first line every invocation prints. *)
Definition entry_log (event : pyval) : effect :=
  Printed (json_dumps
    (PDict [(lit "tipo", PStr (lit "INFO"));
            (lit "log_datos", PDict [(lit "evento_entrada", event)])])).

(** ** Exceptions and responses of the handler *)

Definition missing_table_error : pyexc :=
  new_RuntimeError
    (lit "Variable de entorno '" ++ TABLE_ENV_NAME ++ lit "' no definida.").

Definition body_type_error : pyexc :=
  new_ValueError (lit "El campo 'body' debe ser dict o string JSON.").

Definition missing_tenant_error : pyexc :=
  new_KeyError (lit "Falta 'tenant_id' en el body.").

Definition missing_datos_error : pyexc :=
  new_KeyError (lit "Falta 'pelicula_datos' en el body.").

Definition attribute_error (v : pyval) : pyexc :=
  new_AttributeError
    (lit "'" ++ type_name v ++ lit "' object has no attribute 'get'").

(** The [TypeError] of [in] on a value that is no container. *)
Definition not_iterable_error (v : pyval) : pyexc :=
  new_TypeError
    (lit "argument of type '" ++ type_name v ++ lit "' is not iterable").

Definition generic_message : pystr := lit "Error interno inesperado.".

(** The record written for a request. *)
Definition pelicula_item (tenant_id : pyval) (uuidv4 : pystr)
  (pelicula_datos : pyval) : pyval :=
  PDict [(lit "tenant_id", tenant_id);
         (lit "uuid", PStr uuidv4);
         (lit "pelicula_datos", pelicula_datos)].

(** The value encoded in the body of a successful call. *)
Definition success_value (item status : pyval) : pyval :=
  PDict [(lit "pelicula", item);
         (lit "response", PDict [(lit "http_status", status)])].

(** The response of a successful call. *)
Definition success_response (item status : pyval) : response :=
  mkresponse 200
    (json_dumps (PDict [(lit "pelicula", item);
                        (lit "response", PDict [(lit "http_status", status)])])).

Definition error_body (mensaje tipo_error : pystr) : jsontext :=
  json_dumps (PDict [(lit "error",
    PDict [(lit "mensaje", PStr mensaje);
           (lit "tipo_error", PStr tipo_error)])]).

(** The response of the first [except] clause. *)
Definition error_response (e : pyexc) : response :=
  mkresponse (if is_validation e then 400 else 500)
    (error_body (exc_str e) (exc_name e)).

(** The response of the second [except] clause. *)
Definition internal_error_response (e : pyexc) : response :=
  mkresponse 500 (error_body generic_message (exc_name e)).

(** The [uuid] of the record carried by a response body. *)
Definition response_uuid (r : response) : option pyval :=
  match body r with
  | json_dumps (PDict d) =>
      match dict_get d (lit "pelicula") with
      | Some (PDict item) => dict_get item (lit "uuid")
      | _ => None
      end
  | _ => None
  end.

(** The body the first [except] clause looks at for its log entry: the
    body parsed again, or the empty dict when that parse raises. *)
Definition body_dbg (w : world) (event : pyval) : pyval :=
  match _parse_event_body w event with
  | Ok v => v
  | Raise _ => PDict []
  end.

(** The values that are no containers: [in] raises on them. *)
Definition is_scalar (v : pyval) : bool :=
  match v with
  | PNone | PBool _ | PInt _ | PFloat _ => true
  | _ => false
  end.

(** The kind ([INFO] or [ERROR]) and the fields of a printed log line. *)
Definition log_of (ef : effect) : option (pystr * list (pystr * pyval)) :=
  match ef with
  | Printed (json_dumps (PDict [(_, PStr tipo); (_, PDict datos)])) =>
      Some (tipo, datos)
  | _ => None
  end.

(** The table name the handler accepts: set and not empty. *)
Definition table_name (w : world) : option pystr :=
  match environ_get w TABLE_ENV_NAME with
  | Some t => if str_bool t then Some t else None
  | None => None
  end.

(** The fields both [except] clauses log. *)
Definition error_fields (w : world) (e : pyexc) (limit : Z)
  : list (pystr * pyval) :=
  [(lit "operacion", PStr (lit "crear_pelicula"));
   (lit "estado", PStr (lit "error"));
   (lit "mensaje", PStr (exc_str e));
   (lit "tipo_error", PStr (exc_name e));
   (lit "traceback", PStr (format_exc w e limit));
   (lit "tabla", opt_str (environ_get w TABLE_ENV_NAME))].

(** What the first clause logs of the request: the tenant, and whether
    the payload is there. *)
Definition entrada_relevante (d : list (pystr * pyval)) : pyval :=
  PDict [(lit "tenant_id",
          match dict_get d (lit "tenant_id") with
          | Some x => x
          | None => PNone
          end);
         (lit "tiene_pelicula_datos",
          PBool (match dict_get d (lit "pelicula_datos") with
                 | Some _ => true
                 | None => false
                 end))].

(** The fields of the [ERROR] entry of the first clause, for a body
    [d], and of the second. *)
Definition expected_error_datos (w : world) (e : pyexc)
  (d : list (pystr * pyval)) : pyval :=
  PDict (error_fields w e 3 ++
         [(lit "entrada_relevante", entrada_relevante d)]).

Definition other_error_datos (w : world) (e : pyexc) : pyval :=
  PDict (error_fields w e 5).

Definition expected_error_line (w : world) (e : pyexc)
  (d : list (pystr * pyval)) : effect :=
  Printed (json_dumps
    (PDict [(lit "tipo", PStr (lit "ERROR"));
            (lit "log_datos",
             PDict (error_fields w e 3 ++
                    [(lit "entrada_relevante", entrada_relevante d)]))])).

Definition other_error_line (w : world) (e : pyexc) : effect :=
  Printed (json_dumps
    (PDict [(lit "tipo", PStr (lit "ERROR"));
            (lit "log_datos", PDict (error_fields w e 5))])).

(** The fields of the [INFO] entry of a successful call. *)
Definition success_datos (tabla : pystr) (tenant_id : pyval) (uuidv4 : pystr)
  (status : pyval) : pyval :=
  PDict [(lit "operacion", PStr (lit "crear_pelicula"));
         (lit "estado", PStr (lit "ok"));
         (lit "tabla", PStr tabla);
         (lit "tenant_id", tenant_id);
         (lit "uuid", PStr uuidv4);
         (lit "http_status", status)].

Definition success_line (tabla : pystr) (tenant_id : pyval) (uuidv4 : pystr)
  (status : pyval) : effect :=
  Printed (json_dumps
    (PDict [(lit "tipo", PStr (lit "INFO"));
            (lit "log_datos",
             PDict [(lit "operacion", PStr (lit "crear_pelicula"));
                    (lit "estado", PStr (lit "ok"));
                    (lit "tabla", PStr tabla);
                    (lit "tenant_id", tenant_id);
                    (lit "uuid", PStr uuidv4);
                    (lit "http_status", status)])])).

(** What stops the [except] clause for [e] from logging its entry, if
    anything: one line for the first clause and a body that is a dict,
    another for the second clause. *)
Definition error_log_failure (w : world) (event : pyval) (e : pyexc)
  : option pyexc :=
  if is_expected e then
    match body_dbg w event with
    | PDict d => log_failure w (error_line (expected_error_datos w e d))
    | _ => None
    end
  else log_failure w (error_line (other_error_datos w e)).

(** Two events carry the same request when they resolve to the same
    body or, for bodies that are dicts, to bodies that agree on
    [tenant_id] and on [pelicula_datos]. *)
Definition same_request (w : world) (e1 e2 : pyval) : Prop :=
  match _parse_event_body w e1, _parse_event_body w e2 with
  | Ok (PDict d1), Ok (PDict d2) =>
      dict_get d1 (lit "tenant_id") = dict_get d2 (lit "tenant_id") /\
      dict_get d1 (lit "pelicula_datos") = dict_get d2 (lit "pelicula_datos")
  | r1, r2 => r1 = r2
  end.

(** The status the store reported in its response, [None] when the
    response has no [ResponseMetadata] or no [HTTPStatusCode] in it. *)
Definition reported_status (resp : list (pystr * pyval)) : pyval :=
  match dict_get resp (lit "ResponseMetadata") with
  | Some (PDict md) =>
      match dict_get md (lit "HTTPStatusCode") with
      | Some code => code
      | None => PNone
      end
  | _ => PNone
  end.

(** The bits [uuid4] forces: version 4 and the RFC 4122 variant. *)
Definition forced_bits : Z := 0x00000000000040008000000000000000.

(** ** Reading back a hexadecimal text *)

Definition unhex (c : N) : Z :=
  Z.of_N (if (c <? 58)%N then c - 48 else c - 87)%N.

Definition int_of_hex (s : pystr) : Z :=
  fold_left (fun acc c => (16 * acc + unhex c)%Z) s 0%Z.

Definition not_hyphen (c : N) : bool := negb (N.eqb c 45).

(** The hexadecimal digit of [n] that stands for bits [shift+3..shift]. *)
Definition hex_at (n shift : Z) : N :=
  hexdigit (Z.to_N (Z.land (Z.shiftr n shift) 15)).

(** ** Sample invocations *)

Module Sample.

Definition environ (table : option pystr) (k : pystr) : option pystr :=
  if str_eqb k TABLE_ENV_NAME then table else None.

Definition store_response : pyval :=
  PDict [(lit "ResponseMetadata",
          PDict [(lit "RequestId", PStr (lit "4KBNVRGD25RG1KEO9UT4V3FQDJVV4KQNSO5AEMVJF66Q9ASUAAJG"));
                 (lit "HTTPStatusCode", PInt 200)])].

Definition store_accepts (table : pystr) (item : pyval) : result pyval :=
  Ok store_response.

(** The store refuses the write: throttling, HTTP 400. *)
Definition throttled : pyexc :=
  mkexc (lit "ClientError") (ClientError 400)
    (lit "An error occurred (ProvisionedThroughputExceededException) when calling the PutItem operation: The level of configured provisioned throughput for the table was exceeded.").

(** The store itself fails: HTTP 500. *)
Definition internal_failure : pyexc :=
  mkexc (lit "ClientError") (ClientError 500)
    (lit "An error occurred (InternalServerError) when calling the PutItem operation (reached max retries: 9): Internal server error").

(** Standard output in UTF-8 with the [strict] handler. *)
Definition utf8_strict (c : N) : bool := negb (is_surrogate c).

(** An interpreter with its default limits: 4300 digits, and a
    recursion limit of 1000 of which the runtime has used a few levels
    when the handler runs. *)
Definition make_world (table : option pystr)
  (store : pystr -> pyval -> result pyval) (random : Z) : world :=
  mkworld (environ table) random
    (fun _ => Ok tt) store
    (fun _ _ => lit "Traceback (most recent call last):")
    (fun _ => lit "Expecting value: line 1 column 1 (char 0)")
    4300 970 968 969 utf8_strict
    (fun _ => lit "'utf-8' codec can't encode character '\ud800' in position 64: surrogates not allowed").

Definition draw : Z := 0x0123456789abcdef0123456789abcdef.

Definition w_ok : world :=
  make_world (Some (lit "peliculas")) store_accepts draw.

Definition w_no_table : world := make_world None store_accepts draw.

Definition w_throttled : world :=
  make_world (Some (lit "peliculas")) (fun _ _ => Raise throttled) draw.

Definition w_store_down : world :=
  make_world (Some (lit "peliculas")) (fun _ _ => Raise internal_failure) draw.

(** Another invocation of [w_ok], with another draw of random bytes. *)
Definition w_ok' : world :=
  make_world (Some (lit "peliculas")) store_accepts
    0xfedcba9876543210fedcba9876543210.

Definition with_body (b : pyval) : pyval := PDict [(lit "body", b)].

Definition titulo_x : pyval := PDict [(lit "titulo", PStr (lit "X"))].

(** [{"body": {"tenant_id": "t1", "pelicula_datos": {"titulo": "X"}}}] *)
Definition ev_valid : pyval :=
  with_body (PDict [(lit "tenant_id", PStr (lit "t1"));
                    (lit "pelicula_datos", titulo_x)]).

(** [{"body": {"tenant_id": "t1"}}] *)
Definition ev_only_tenant : pyval :=
  with_body (PDict [(lit "tenant_id", PStr (lit "t1"))]).

(** [{"body": "[]"}] *)
Definition ev_list_body : pyval := with_body (PStr (lit "[]")).

(** [{"body": " "}] *)
Definition ev_blank_body : pyval := with_body (PStr (lit " ")).

(** The body is the empty string. *)
Definition ev_empty_body : pyval := with_body (PStr []).

(** [{"body": "{"}] *)
Definition ev_malformed_body : pyval := with_body (PStr (lit "{")).

(** [{"body": null}] *)
Definition ev_null_body : pyval := with_body PNone.

(** The record written for [ev_valid] in [w_ok]. *)
Definition item_valid : pyval :=
  PDict [(lit "tenant_id", PStr (lit "t1"));
         (lit "uuid", PStr (Uuid.uuid4_str draw));
         (lit "pelicula_datos", titulo_x)].

(** A text between double quotes (character 34). *)
Definition quoted (s : string) : pystr := [34%N] ++ lit s ++ [34%N].

(** The body is the text [5]. *)
Definition ev_number_body : pyval := with_body (PStr (lit "5")).


(** The body is the text of the JSON string
    [tenant_id pelicula_datos]. *)
Definition ev_names_body : pyval :=
  with_body (PStr (quoted "tenant_id pelicula_datos")).

(** The fields at top level, without a [body] key. *)
Definition ev_top_level : pyval :=
  PDict [(lit "tenant_id", PStr (lit "t1"));
         (lit "pelicula_datos", titulo_x)].

(** The body of [ev_valid] as JSON text. *)
Definition valid_text : pystr :=
  lit "{" ++ quoted "tenant_id" ++ lit ": " ++ quoted "t1" ++ lit ", "
  ++ quoted "pelicula_datos" ++ lit ": {" ++ quoted "titulo" ++ lit ": "
  ++ quoted "X" ++ lit "}}".

Definition ev_text_body : pyval := with_body (PStr valid_text).

(** The body of [ev_valid] with one more field. *)
Definition ev_extra_field : pyval :=
  with_body
    (PDict [(lit "nota", PStr (lit "borrador"));
            (lit "tenant_id", PStr (lit "t1"));
            (lit "pelicula_datos", titulo_x)]).

(** The body is JSON text whose [tenant_id] is the escape of a lone
    surrogate: the text is ASCII, the decoded [tenant_id] is the one
    character U+D800. *)
Definition surrogate_text : pystr :=
  lit "{" ++ quoted "tenant_id" ++ lit ": " ++ quoted "\ud800" ++ lit ", "
  ++ quoted "pelicula_datos" ++ lit ": {}}".

Definition ev_surrogate_tenant : pyval := with_body (PStr surrogate_text).

Definition item_surrogate : pyval :=
  PDict [(lit "tenant_id", PStr [55296%N]);
         (lit "uuid", PStr (Uuid.uuid4_str draw));
         (lit "pelicula_datos", PDict [])].

(** The exception [print] raises in the sample worlds. *)
Definition encode_error : pyexc :=
  new_UnicodeEncodeError
    (lit "'utf-8' codec can't encode character '\ud800' in position 64: surrogates not allowed").

(** The store answers with an empty response. *)
Definition w_bare : world :=
  make_world (Some (lit "peliculas")) (fun _ _ => Ok (PDict [])) draw.

(** The table name is set to the empty string. *)
Definition w_empty_table : world := make_world (Some []) store_accepts draw.

(** A table handle that cannot be built: boto3 has no region. *)
Definition no_region : pyexc :=
  mkexc (lit "NoRegionError") OtherException (lit "You must specify a region.").

Definition w_no_region : world :=
  mkworld (environ_get w_ok) (urandom16 w_ok)
    (fun _ => Raise no_region) (put_item w_ok)
    (format_exc w_ok) (decode_error_str w_ok)
    (int_max_str_digits w_ok) (loads_depth w_ok) (log_depth w_ok)
    (body_depth w_ok) (stdout_accepts w_ok) (encode_error_str w_ok).

End Sample.

(* ================================================================== *)
(** * Facts about the builtins *)
(* ================================================================== *)

Lemma str_eqb_refl (a : pystr) : str_eqb a a = true.
Proof.
  induction a as [|x a IH]; simpl; [reflexivity|].
  now rewrite N.eqb_refl, IH.
Qed.

Lemma str_eqb_eq (a b : pystr) : str_eqb a b = true <-> a = b.
Proof.
  split.
  - revert b; induction a as [|x a IH]; intros [|y b]; simpl;
      try discriminate; [reflexivity|].
    intros H. apply andb_true_iff in H as [Hx Hab].
    apply N.eqb_eq in Hx. f_equal; auto.
  - intros ->. apply str_eqb_refl.
Qed.

(** Only a dict answers [.get]; the other values raise [AttributeError]. *)
Lemma py_get_not_dict (v : pyval) (k : pystr) (dflt : pyval) :
  is_dict v = false ->
  py_get v k dflt = Raise (attribute_error v).
Proof. destruct v; simpl; try discriminate; reflexivity. Qed.

(** A value that passes a subscription of the handler is a dict holding
    the key. *)
Lemma getitem_ok_dict (v x : pyval) (k : pystr) :
  py_getitem v k = Ok x -> exists d, v = PDict d /\ dict_get d k = Some x.
Proof.
  destruct v; simpl; try discriminate.
  destruct (dict_get items k) eqn:E; [|discriminate].
  intros [= ->]. eauto.
Qed.

Lemma py_in_raises (k : pystr) (v : pyval) (e : pyexc) :
  py_in k v = Raise e -> is_scalar v = true /\ exc_base_of e = OtherException.
Proof. destruct v; simpl; try discriminate; intros [= <-]; auto. Qed.

Lemma py_in_scalar (k : pystr) (v : pyval) :
  is_scalar v = true ->
  py_in k v =
  Raise (new_TypeError
           (lit "argument of type '" ++ type_name v ++ lit "' is not iterable")).
Proof. destruct v; simpl; try discriminate; reflexivity. Qed.

Lemma py_getitem_raises_after_in (k : pystr) (v : pyval) (e : pyexc) :
  py_in k v = Ok true -> py_getitem v k = Raise e ->
  is_dict v = false /\ exc_base_of e = OtherException.
Proof.
  destruct v; simpl; try discriminate; try (intros _ [= <-]; auto).
  destruct (dict_get items k); [discriminate|]. intros [=].
Qed.

Lemma body_dbg_ok (w : world) (event v : pyval) :
  _parse_event_body w event = Ok v -> body_dbg w event = v.
Proof. unfold body_dbg. now intros ->. Qed.

Lemma body_dbg_raise (w : world) (event : pyval) (e : pyexc) :
  _parse_event_body w event = Raise e -> body_dbg w event = PDict [].
Proof. unfold body_dbg. now intros ->. Qed.

Lemma not_expected (e : pyexc) :
  exc_base_of e = OtherException -> is_expected e = false.
Proof. unfold is_expected. now intros ->. Qed.

Lemma error_response_not_200 (e : pyexc) :
  statusCode (error_response e) <> 200%Z.
Proof. unfold error_response. destruct (is_validation e); discriminate. Qed.

Lemma some_pstr_inj (a b : pystr) : Some (PStr a) = Some (PStr b) -> a = b.
Proof. now intros [= H]. Qed.

(** Some documents and their decoding, with the default limit on
    digits and room for three containers.  A double quote is character
    34. *)
Lemma loads_examples :
  Json.loads 4300 3 (lit "[]") = Json.Value (PList []) /\
  Json.loads 4300 3 (lit " { } ") = Json.Value (PDict []) /\
  Json.loads 4300 3 (lit "[1, -20, 2.5e3, null, true]") =
    Json.Value
      (PList [PInt 1; PInt (-20); PFloat (lit "2.5e3"); PNone; PBool true]) /\
  Json.loads 4300 3
    ([123; 34] ++ lit "a" ++ [34; 58; 34] ++ lit "x" ++ [34; 44; 34]
     ++ lit "a" ++ [34; 58] ++ lit "[0]}")%N =
    Json.Value (PDict [(lit "a", PList [PInt 0])]) /\
  Json.loads 4300 3 ([34] ++ lit "\ud800" ++ [34])%N =
    Json.Value (PStr [55296%N]) /\
  Json.loads 4300 3 (lit "NaN") = Json.Value (PFloat (lit "NaN")) /\
  Json.loads 4300 3 [] = Json.Malformed /\
  Json.loads 4300 3 (lit " ") = Json.Malformed /\
  Json.loads 4300 3 (lit "{") = Json.Malformed /\
  Json.loads 4300 3 (lit "[1,]") = Json.Malformed /\
  Json.loads 4300 3 (lit "01") = Json.Malformed /\
  Json.loads 4300 3 (lit "[] x") = Json.Malformed.
Proof.
  repeat match goal with |- _ /\ _ => split end; vm_compute; reflexivity.
Qed.

(** The limits at work: one digit too many, a level of nesting too
    many, and what the scan meets first. *)
Lemma limits_examples :
  Json.loads 4300 3 (repeat 49%N 4301) = Json.Limit (Json.IntTooLong 4301) /\
  Json.loads 4300 3 (repeat 49%N 4301 ++ lit ".5") =
    Json.Value (PFloat (repeat 49%N 4301 ++ lit ".5")) /\
  Json.loads 0 3 (repeat 49%N 641) =
    Json.Value (PInt (Json.int_of_text (repeat 49%N 641))) /\
  Json.loads 4300 3 (lit "[[[]]]") =
    Json.Value (PList [PList [PList []]]) /\
  Json.loads 4300 3 (lit "[[[[]]]]") = Json.Limit Json.ArrayTooDeep /\
  Json.loads 4300 3 (lit "[[[{") = Json.Limit Json.ObjectTooDeep /\
  Json.loads 4300 3 (lit "[1 [[[[") = Json.Malformed /\
  Json.dumps_error 4300 (PList [PList [PInt 7]]) 2 = None /\
  Json.dumps_error 4300 (PList [PList [PList []]]) 2 =
    Some Json.NestedTooDeep /\
  Json.dumps_error 640 (PList [PInt (10 ^ 640); PList [PList []]]) 2 =
    Some Json.IntTooLongOut /\
  Json.dumps_error 640 (PInt (10 ^ 640 - 1)) 0 = None.
Proof.
  repeat match goal with |- _ /\ _ => split end; vm_compute; reflexivity.
Qed.

(* ================================================================== *)
(** * Writes of a run *)
(* ================================================================== *)

Lemma no_write_app (a b : list effect) :
  no_write (a ++ b) = no_write a && no_write b.
Proof. apply forallb_app. Qed.

Lemma no_write_not_In (tr : list effect) (t : pystr) (i : pyval)
  (o : result pyval) :
  no_write tr = true -> ~ In (PutItem t i o) tr.
Proof.
  intros H Hin. unfold no_write in H.
  rewrite forallb_forall in H. specialize (H _ Hin). discriminate.
Qed.

(* ================================================================== *)
(** * Every run, case by case *)
(* ================================================================== *)

Section EveryRun.

Variable w : world.
Variables event context : pyval.

(** A log function prints its line unless [json.dumps] or [print]
    raises; then nothing is printed. *)
Lemma log_info_eq (datos : pyval) (tr : list effect) :
  _log_info w datos tr =
  match log_failure w (info_line datos) with
  | None => (tr ++ [Printed (json_dumps (info_line datos))], Ok tt)
  | Some e => (tr, Raise e)
  end.
Proof.
  unfold _log_info, log_failure, info_line, bind, lift, print.
  destruct (dumps w _ _) as [text|e] eqn:E; [|reflexivity].
  unfold dumps in E.
  destruct (Json.dumps_error _ _ _) as [[|]|]; try discriminate.
  injection E as <-.
  destruct (Json.text_chars_ok _ _); reflexivity.
Qed.

Lemma log_error_eq (datos : pyval) (tr : list effect) :
  _log_error w datos tr =
  match log_failure w (error_line datos) with
  | None => (tr ++ [Printed (json_dumps (error_line datos))], Ok tt)
  | Some e => (tr, Raise e)
  end.
Proof.
  unfold _log_error, log_failure, error_line, bind, lift, print.
  destruct (dumps w _ _) as [text|e] eqn:E; [|reflexivity].
  unfold dumps in E.
  destruct (Json.dumps_error _ _ _) as [[|]|]; try discriminate.
  injection E as <-.
  destruct (Json.text_chars_ok _ _); reflexivity.
Qed.

(** [json.dumps] in a [return] statement gives the text of its value
    unless it raises. *)
Lemma dumps_body_eq (v : pyval) :
  dumps w (2 + body_depth w) v =
  match body_failure w v with
  | None => Ok (json_dumps v)
  | Some e => Raise e
  end.
Proof.
  unfold body_failure, dumps.
  destruct (Json.dumps_error _ _ _) as [[|]|]; reflexivity.
Qed.

(** The body of an error response is two strings in two dicts:
    [json.dumps] always encodes it. *)
Lemma error_body_encodes (mensaje tipo_error : pystr) :
  dumps w (2 + body_depth w)
    (PDict [(lit "error",
             PDict [(lit "mensaje", PStr mensaje);
                    (lit "tipo_error", PStr tipo_error)])]) =
  Ok (error_body mensaje tipo_error).
Proof. reflexivity. Qed.

Lemma table_name_none :
  table_name w = None ->
  environ_get w TABLE_ENV_NAME = None \/
  environ_get w TABLE_ENV_NAME = Some [].
Proof.
  unfold table_name.
  destruct (environ_get w TABLE_ENV_NAME) as [[|c t]|]; auto; discriminate.
Qed.

Lemma table_name_some (tabla : pystr) :
  table_name w = Some tabla ->
  environ_get w TABLE_ENV_NAME = Some tabla /\ tabla <> [].
Proof.
  unfold table_name.
  destruct (environ_get w TABLE_ENV_NAME) as [[|c t]|]; try discriminate.
  intros [= <-]. split; [reflexivity|discriminate].
Qed.

(** The [try] body, with the trace it leaves at each exit. *)
Lemma try_body_eq (tr : list effect) :
  try_body w event tr =
  match table_name w with
  | None => (tr, Raise missing_table_error)
  | Some tabla =>
    match _parse_event_body w event with
    | Raise e => (tr, Raise e)
    | Ok body =>
      match py_in (lit "tenant_id") body with
      | Raise e => (tr, Raise e)
      | Ok false => (tr, Raise missing_tenant_error)
      | Ok true =>
        match py_in (lit "pelicula_datos") body with
        | Raise e => (tr, Raise e)
        | Ok false => (tr, Raise missing_datos_error)
        | Ok true =>
          match py_getitem body (lit "tenant_id") with
          | Raise e => (tr, Raise e)
          | Ok t =>
            match py_getitem body (lit "pelicula_datos") with
            | Raise e => (tr, Raise e)
            | Ok p =>
              let uuidv4 := Uuid.uuid4_str (urandom16 w) in
              let item := pelicula_item t uuidv4 p in
              match dynamodb_Table w tabla with
              | Raise e => (tr, Raise e)
              | Ok _ =>
                match put_item w tabla item with
                | Raise e => (tr ++ [PutItem tabla item (Raise e)], Raise e)
                | Ok resp =>
                  match http_status resp with
                  | Raise e => (tr ++ [PutItem tabla item (Ok resp)], Raise e)
                  | Ok st =>
                    match log_failure w
                            (info_line (success_datos tabla t uuidv4 st)) with
                    | Some e =>
                        (tr ++ [PutItem tabla item (Ok resp)], Raise e)
                    | None =>
                      match body_failure w (success_value item st) with
                      | Some e =>
                          (tr ++ [PutItem tabla item (Ok resp);
                                  success_line tabla t uuidv4 st], Raise e)
                      | None =>
                          (tr ++ [PutItem tabla item (Ok resp);
                                  success_line tabla t uuidv4 st],
                           Ok (success_response item st))
                      end
                    end
                  end
                end
              end
            end
          end
        end
      end
    end
  end.
Proof.
  unfold try_body, table_name.
  unfold bind at 1.
  destruct (environ_get w TABLE_ENV_NAME) as [[|c tabla]|]; try reflexivity.
  cbn [str_bool ret]. unfold bind at 1, lift at 1.
  destruct (_parse_event_body w event) as [body|e]; [|reflexivity].
  unfold bind at 1, lift at 1.
  destruct (py_in (lit "tenant_id") body) as [[|]|e]; try reflexivity.
  cbn [negb]. unfold bind at 1, ret at 1. unfold bind at 1, lift at 1.
  destruct (py_in (lit "pelicula_datos") body) as [[|]|e]; try reflexivity.
  cbn [negb]. unfold bind at 1, ret at 1. unfold bind at 1, lift at 1.
  destruct (py_getitem body (lit "tenant_id")) as [t|e]; [|reflexivity].
  unfold bind at 1, lift at 1.
  destruct (py_getitem body (lit "pelicula_datos")) as [p|e]; [|reflexivity].
  cbv zeta. unfold bind at 1, lift at 1.
  destruct (dynamodb_Table w (c :: tabla)) as [[]|e]; [|reflexivity].
  unfold bind at 1, table_put_item. fold (pelicula_item t (Uuid.uuid4_str (urandom16 w)) p).
  destruct (put_item w (c :: tabla) _) as [resp|e]; [|reflexivity].
  unfold bind at 1, lift at 1.
  destruct (http_status resp) as [st|e]; [|reflexivity].
  unfold bind at 1. rewrite log_info_eq.
  fold (success_datos (c :: tabla) t (Uuid.uuid4_str (urandom16 w)) st).
  destruct (log_failure w _) as [e|]; [reflexivity|].
  unfold bind at 1, lift at 1. unfold bind at 1, lift at 1.
  fold (success_value (pelicula_item t (Uuid.uuid4_str (urandom16 w)) p) st).
  rewrite dumps_body_eq.
  destruct (body_failure w _) as [e|]; unfold ret, success_line;
    rewrite <- app_assoc; reflexivity.
Qed.

(** The first [except] clause, with the line it logs. *)
Lemma except_expected_eq (e : pyexc) (tr : list effect) :
  except_expected w event e tr =
  match body_dbg w event with
  | PDict d =>
      match log_failure w (error_line (expected_error_datos w e d)) with
      | Some x => (tr, Raise x)
      | None => (tr ++ [expected_error_line w e d], Ok (error_response e))
      end
  | v => (tr, Raise (attribute_error v))
  end.
Proof.
  unfold except_expected, body_dbg.
  unfold bind at 1, try_except, lift at 1.
  assert (Hd : forall d,
    (tenant_id <- lift (py_get (PDict d) (lit "tenant_id") PNone) ;;
     tiene <- lift (py_in (lit "pelicula_datos") (PDict d)) ;;
     _log_error w
       (PDict (dict_set
          [(lit "operacion", PStr (lit "crear_pelicula"));
           (lit "estado", PStr (lit "error"));
           (lit "mensaje", PStr (exc_str e));
           (lit "tipo_error", PStr (exc_name e));
           (lit "traceback", PStr (format_exc w e 3));
           (lit "tabla", opt_str (environ_get w TABLE_ENV_NAME))]
          (lit "entrada_relevante")
          (PDict [(lit "tenant_id", tenant_id);
                  (lit "tiene_pelicula_datos", PBool tiene)]))) ;;;
     text <- lift (dumps w (2 + body_depth w)
               (PDict [(lit "error",
                        PDict [(lit "mensaje", PStr (exc_str e));
                               (lit "tipo_error", PStr (exc_name e))])])) ;;
     ret (mkresponse (if is_validation e then 400%Z else 500%Z) text)) tr =
    match log_failure w (error_line (expected_error_datos w e d)) with
    | Some x => (tr, Raise x)
    | None => (tr ++ [expected_error_line w e d], Ok (error_response e))
    end).
  { intros d. unfold bind at 1, lift at 1. cbn [py_get].
    unfold bind at 1, lift at 1. cbn [py_in].
    unfold bind at 1. rewrite log_error_eq.
    change (PDict (dict_set _ _ _)) with (expected_error_datos w e d).
    destruct (log_failure w _) as [x|]; [reflexivity|].
    unfold bind, lift. rewrite error_body_encodes. reflexivity. }
  destruct (_parse_event_body w event) as [v|e']; cbn [ret].
  - destruct v; try reflexivity. apply Hd.
  - apply (Hd []).
Qed.

Lemma except_other_eq (e : pyexc) (tr : list effect) :
  except_other w e tr =
  match log_failure w (error_line (other_error_datos w e)) with
  | Some x => (tr, Raise x)
  | None => (tr ++ [other_error_line w e], Ok (internal_error_response e))
  end.
Proof.
  unfold except_other. unfold bind at 1. rewrite log_error_eq.
  change (PDict [(lit "operacion", _); _; _; _; _; _])
    with (other_error_datos w e).
  destruct (log_failure w _) as [x|]; [reflexivity|].
  unfold bind, lift. rewrite error_body_encodes. reflexivity.
Qed.

(** The handler is the entry line, then its [try] body with the two
    [except] clauses applied to what the body raises. *)
Lemma lambda_handler_eq :
  lambda_handler w event context =
  match log_failure w (info_line (entry_datos event)) with
  | Some e => ([], Raise e)
  | None =>
    match try_body w event [entry_log event] with
    | (tr, Ok r) => (tr, Ok r)
    | (tr, Raise e) =>
        if is_expected e then except_expected w event e tr
        else except_other w e tr
    end
  end.
Proof.
  unfold lambda_handler. unfold bind at 1. rewrite log_info_eq.
  fold (entry_datos event).
  destruct (log_failure w _) as [e|]; [reflexivity|].
  unfold try_except. cbn [app].
  change (Printed (json_dumps (info_line (entry_datos event))))
    with (entry_log event).
  destruct (try_body w event _) as [tr [r|e]]; [reflexivity|].
  destruct (is_expected e); reflexivity.
Qed.

Section EntryLogged.

Hypothesis Hentry : log_failure w (info_line (entry_datos event)) = None.

(** The handler after an exception of its [try] body. *)
Lemma handler_of_raise (e : pyexc) (tr : list effect) :
  try_body w event [entry_log event] = (tr, Raise e) ->
  lambda_handler w event context =
  if is_expected e then
    match body_dbg w event with
    | PDict d =>
        match log_failure w (error_line (expected_error_datos w e d)) with
        | Some x => (tr, Raise x)
        | None => (tr ++ [expected_error_line w e d], Ok (error_response e))
        end
    | v => (tr, Raise (attribute_error v))
    end
  else
    match log_failure w (error_line (other_error_datos w e)) with
    | Some x => (tr, Raise x)
    | None => (tr ++ [other_error_line w e], Ok (internal_error_response e))
    end.
Proof.
  intros Ht. rewrite lambda_handler_eq, Hentry, Ht.
  now rewrite except_expected_eq, except_other_eq.
Qed.

Lemma handler_of_return (r : response) (tr : list effect) :
  try_body w event [entry_log event] = (tr, Ok r) ->
  lambda_handler w event context = (tr, Ok r).
Proof. intros Ht. now rewrite lambda_handler_eq, Hentry, Ht. Qed.

End EntryLogged.

(** When the entry line cannot be logged, the exception leaves the
    handler and nothing else happens. *)
Lemma handler_of_entry_failure (e : pyexc) :
  log_failure w (info_line (entry_datos event)) = Some e ->
  lambda_handler w event context = ([], Raise e).
Proof. intros H. now rewrite lambda_handler_eq, H. Qed.

End EveryRun.

(* ================================================================== *)
(** * The decoder decides every document *)
(* ================================================================== *)

Section DecoderTerminates.
Import Json.

Lemma skip_ws_length (s : pystr) : List.length (skip_ws s) <= List.length s.
Proof.
  induction s as [|c s IH]; simpl; [lia|].
  destruct (is_ws c); simpl; lia.
Qed.

Lemma span_digits_length (s : pystr) :
  List.length (snd (span_digits s)) <= List.length s.
Proof.
  induction s as [|c s IH]; simpl; [lia|].
  destruct (is_digit c); [|simpl; lia].
  destruct (span_digits s); simpl in *; lia.
Qed.

Lemma match_integer_length (s t r : pystr) :
  match_integer s = Some (t, r) -> List.length r < List.length s.
Proof.
  unfold match_integer.
  destruct s as [|c s1]; [discriminate|].
  destruct (c =? 45)%N.
  - destruct s1 as [|c1 s2]; [discriminate|].
    destruct (c1 =? 48)%N; [intros [= _ <-]; simpl; lia|].
    destruct (is_digit c1); [|discriminate].
    pose proof (span_digits_length s2) as Hl.
    destruct (span_digits s2). intros [= _ <-]. simpl in *; lia.
  - destruct (c =? 48)%N; [intros [= _ <-]; simpl; lia|].
    destruct (is_digit c); [|discriminate].
    pose proof (span_digits_length s1) as Hl.
    destruct (span_digits s1). intros [= _ <-]. simpl in *; lia.
Qed.

Lemma match_frac_length (s : pystr) :
  List.length (snd (match_frac s)) <= List.length s.
Proof.
  unfold match_frac. destruct s as [|c s1]; [simpl; lia|].
  destruct (c =? 46)%N; [|simpl; lia].
  pose proof (span_digits_length s1) as Hl.
  destruct (span_digits s1) as [[|x ds] r]; simpl in *; lia.
Qed.

Lemma match_exp_length (s : pystr) :
  List.length (snd (match_exp s)) <= List.length s.
Proof.
  unfold match_exp. destruct s as [|e s1]; [simpl; lia|].
  destruct ((e =? 101) || (e =? 69))%N; [|simpl; lia].
  destruct s1 as [|c s2].
  - simpl. lia.
  - destruct ((c =? 45) || (c =? 43))%N.
    + pose proof (span_digits_length s2) as Hl.
      destruct (span_digits s2) as [[|x ds] r]; simpl in *; lia.
    + pose proof (span_digits_length (c :: s2)) as Hl.
      destruct (span_digits (c :: s2)) as [[|x ds] r]; simpl in *; lia.
Qed.

Lemma match_number_length (max_digits : nat) (s r : pystr) (v : pyval) :
  match_number max_digits s = Number v r -> List.length r < List.length s.
Proof.
  unfold match_number.
  destruct (match_integer s) as [[t r0]|] eqn:Hi; [|discriminate].
  apply match_integer_length in Hi.
  pose proof (match_frac_length r0) as Hf.
  destruct (match_frac r0) as [frac r1].
  pose proof (match_exp_length r1) as He.
  destruct (match_exp r1) as [ex r2]. simpl in *.
  destruct (frac ++ ex); [destruct (exceeds _ _); [discriminate|]|];
    intros [= _ <-]; lia.
Qed.

Lemma startswith_skipn (p s : pystr) :
  startswith p s = true -> p <> [] ->
  List.length (skipn (List.length p) s) < List.length s.
Proof.
  intros H Hp. rewrite length_skipn.
  assert (List.length p <= List.length s).
  { clear Hp. revert s H.
    induction p as [|x p IH]; intros [|y s] H; simpl in *;
      try lia; try discriminate.
    apply andb_true_iff in H as [_ H]. specialize (IH s H). lia. }
  destruct p; [contradiction|]. simpl in *. lia.
Qed.

Lemma scanstring_length (n : nat) :
  forall (s acc k r : pystr),
    List.length s <= n ->
    scanstring s acc = Some (k, r) -> List.length r < List.length s.
Proof.
  induction n as [|n IH]; intros s acc k r Hn H.
  { destruct s; [discriminate|simpl in Hn; lia]. }
  assert (Hrec : forall s' acc', List.length s' < List.length s ->
            scanstring s' acc' = Some (k, r) -> List.length r < List.length s).
  { intros s' acc' Hl H'. apply IH in H'; lia. }
  destruct s as [|c s1]; [discriminate|]. cbn [scanstring] in H.
  destruct (c =? 34)%N; [injection H as _ <-; simpl; lia|].
  destruct (c =? 92)%N.
  2:{ destruct (c <? 32)%N; [discriminate|].
      apply Hrec in H; [exact H|simpl; lia]. }
  destruct s1 as [|e r1]; [discriminate|].
  destruct (e =? 117)%N.
  2:{ destruct (backslash e); [|discriminate].
      apply Hrec in H; [exact H|simpl; lia]. }
  destruct r1 as [|h1 [|h2 [|h3 [|h4 r2]]]]; try discriminate.
  destruct (hex4 h1 h2 h3 h4) as [uni|]; [|discriminate].
  destruct ((55296 <=? uni) && (uni <=? 56319))%N.
  2:{ apply Hrec in H; [exact H|simpl; lia]. }
  destruct r2 as [|b [|u r3]];
    try (apply Hrec in H; [exact H|simpl; lia]).
  cbv beta match in H.
  destruct ((b =? 92) && (u =? 117))%N.
  2:{ apply Hrec in H; [exact H|simpl; lia]. }
  destruct r3 as [|g1 [|g2 [|g3 [|g4 r4]]]]; try discriminate.
  destruct (hex4 g1 g2 g3 g4) as [uni2|]; [|discriminate].
  destruct ((56320 <=? uni2) && (uni2 <=? 57343))%N;
    (apply Hrec in H; [exact H|simpl; lia]).
Qed.

Lemma literal_rest (p s : pystr) (k : nat) (val : pyval) :
  startswith p s = true -> p <> [] -> k = List.length p ->
  POk val (skipn k s) <> PFuel /\
  forall v r, POk val (skipn k s) = POk v r -> List.length r < List.length s.
Proof.
  intros H Hp ->. split; [discriminate|]. intros v r E.
  assert (r = skipn (List.length p) s) as -> by congruence.
  now apply startswith_skipn.
Qed.

(** With fuel above twice the length of the input, the decoder never
    runs out of fuel, and what it leaves is shorter than what it got. *)
Lemma decoder_fuel (max_digits fuel : nat) :
  (forall room s, 2 * List.length s + 1 <= fuel ->
     scan_once max_digits fuel room s <> PFuel /\
     forall v r, scan_once max_digits fuel room s = POk v r ->
                 List.length r < List.length s)
  /\
  (forall room s values, 2 * List.length s + 2 <= fuel ->
     JSONArray max_digits fuel room s values <> PFuel /\
     forall v r, JSONArray max_digits fuel room s values = POk v r ->
                 List.length r < List.length s)
  /\
  (forall room s pairs, 2 * List.length s + 2 <= fuel ->
     JSONObject max_digits fuel room s pairs <> PFuel /\
     forall v r, JSONObject max_digits fuel room s pairs = POk v r ->
                 List.length r < List.length s).
Proof.
  induction fuel as [|f (IHv & IHa & IHo)].
  { repeat split; intros; lia. }
  split; [|split].
  - (* scan_once *)
    intros room s Hf.
    destruct s as [|c r]; [split; [discriminate|discriminate]|].
    cbn [scan_once]. simpl List.length in *.
    destruct (c =? 34)%N.
    { destruct (scanstring r []) as [[str r']|] eqn:Hs;
        [|split; discriminate].
      apply scanstring_length with (n := List.length r) in Hs; [|lia].
      split; [discriminate|]. intros v r0 [= _ <-]. lia. }
    destruct (c =? 123)%N.
    { destruct room as [|room']; [split; discriminate|].
      pose proof (skip_ws_length r) as Hw.
      destruct (skip_ws r) as [|c1 r1]; [split; discriminate|].
      simpl in Hw.
      destruct (c1 =? 125)%N.
      { split; [discriminate|]. intros v r0 [= _ <-]. lia. }
      destruct (c1 =? 34)%N; [|split; discriminate].
      destruct (IHo room' r1 []) as [Hnf Hlen]; [lia|].
      split; [exact Hnf|]. intros v r0 H. apply Hlen in H. lia. }
    destruct (c =? 91)%N.
    { destruct room as [|room']; [split; discriminate|].
      pose proof (skip_ws_length r) as Hw.
      destruct (skip_ws r) as [|c1 r1]; [split; discriminate|].
      destruct (c1 =? 93)%N.
      { split; [discriminate|]. intros v r0 [= _ <-]. simpl in Hw. lia. }
      destruct (IHa room' (c1 :: r1) []) as [Hnf Hlen]; [lia|].
      split; [exact Hnf|]. intros v r0 H. apply Hlen in H. lia. }
    destruct (startswith (lit "null") (c :: r)) eqn:E1.
    { apply (literal_rest (lit "null")); [assumption|discriminate|reflexivity]. }
    destruct (startswith (lit "true") (c :: r)) eqn:E2.
    { apply (literal_rest (lit "true")); [assumption|discriminate|reflexivity]. }
    destruct (startswith (lit "false") (c :: r)) eqn:E3.
    { apply (literal_rest (lit "false")); [assumption|discriminate|reflexivity]. }
    destruct (match_number max_digits (c :: r)) as [v0 r'|digits|] eqn:Hn.
    { apply match_number_length in Hn.
      split; [discriminate|]. now intros v r0 [= _ <-]. }
    { split; discriminate. }
    destruct (startswith (lit "NaN") (c :: r)) eqn:E4.
    { apply (literal_rest (lit "NaN")); [assumption|discriminate|reflexivity]. }
    destruct (startswith (lit "Infinity") (c :: r)) eqn:E5.
    { apply (literal_rest (lit "Infinity")); [assumption|discriminate|reflexivity]. }
    destruct (startswith (lit "-Infinity") (c :: r)) eqn:E6.
    { apply (literal_rest (lit "-Infinity")); [assumption|discriminate|reflexivity]. }
    split; discriminate.
  - (* JSONArray *)
    intros room s values Hf. cbn [JSONArray].
    destruct (IHv room s) as [Hnf Hlen]; [lia|].
    destruct (scan_once max_digits f room s) as [v r| | |] eqn:Hs;
      [|split; discriminate|split; discriminate|contradiction].
    specialize (Hlen v r eq_refl).
    pose proof (skip_ws_length r) as Hw.
    destruct (skip_ws r) as [|c r1]; [split; discriminate|].
    simpl in Hw.
    destruct (c =? 93)%N.
    { split; [discriminate|]. intros v0 r0 [= _ <-]. lia. }
    destruct (c =? 44)%N; [|split; discriminate].
    pose proof (skip_ws_length r1) as Hw1.
    destruct (IHa room (skip_ws r1) (v :: values)) as [Hnf' Hlen']; [lia|].
    split; [exact Hnf'|]. intros v0 r0 H. apply Hlen' in H. lia.
  - (* JSONObject *)
    intros room s pairs Hf. cbn [JSONObject].
    destruct (scanstring s []) as [[key r]|] eqn:Hk; [|split; discriminate].
    apply scanstring_length with (n := List.length s) in Hk; [|lia].
    pose proof (skip_ws_length r) as Hw.
    destruct (skip_ws r) as [|c r1]; [split; discriminate|].
    simpl in Hw.
    destruct (c =? 58)%N; [|split; discriminate].
    pose proof (skip_ws_length r1) as Hw1.
    destruct (IHv room (skip_ws r1)) as [Hnf Hlen]; [lia|].
    destruct (scan_once max_digits f room (skip_ws r1)) as [v r2| | |] eqn:Hs;
      [|split; discriminate|split; discriminate|contradiction].
    specialize (Hlen v r2 eq_refl).
    pose proof (skip_ws_length r2) as Hw2.
    destruct (skip_ws r2) as [|c2 r3]; [split; discriminate|].
    simpl in Hw2.
    destruct (c2 =? 125)%N.
    { split; [discriminate|]. intros v0 r0 [= _ <-]. lia. }
    destruct (c2 =? 44)%N; [|split; discriminate].
    pose proof (skip_ws_length r3) as Hw3.
    destruct (skip_ws r3) as [|q r4]; [split; discriminate|].
    simpl in Hw3.
    destruct (q =? 34)%N; [|split; discriminate].
    destruct (IHo room r4 (dict_set pairs key v)) as [Hnf' Hlen']; [lia|].
    split; [exact Hnf'|]. intros v0 r0 H. apply Hlen' in H. lia.
Qed.

(** [json.loads] is decided within its fuel: [Malformed] is a refusal
    of the document by the grammar. *)
Lemma loads_fuel_enough (max_digits depth : nat) (s : pystr) :
  scan_once max_digits (loads_fuel s) depth (skip_ws s) <> PFuel.
Proof.
  apply (proj1 (decoder_fuel max_digits (loads_fuel s))).
  pose proof (skip_ws_length s). unfold loads_fuel. lia.
Qed.

End DecoderTerminates.
(* ================================================================== *)
(** * The body resolved from an envelope *)
(* ================================================================== *)

Section ParseEventBody.

Variable w : world.
Variable event : pyval.

Lemma parse_body_dict (d : list (pystr * pyval)) :
  event_body event = Some (PDict d) ->
  _parse_event_body w event = Ok (PDict d).
Proof.
  destruct event; simpl; try discriminate. now intros ->.
Qed.

Lemma parse_body_str (s : pystr) :
  event_body event = Some (PStr s) ->
  _parse_event_body w event =
  if str_bool (strip s) then json_loads w s else Ok (PDict []).
Proof.
  destruct event; simpl; try discriminate. now intros ->.
Qed.

Lemma parse_body_other (v : pyval) :
  event_body event = Some v -> is_dict v = false -> is_str v = false ->
  _parse_event_body w event = Raise body_type_error.
Proof.
  destruct event; simpl; try discriminate. intros ->.
  destruct v; simpl; try discriminate; reflexivity.
Qed.

Lemma parse_no_body :
  event_body event = None ->
  _parse_event_body w event = Ok (if is_dict event then event else PDict []).
Proof.
  destruct event; simpl; try reflexivity. now intros ->.
Qed.

End ParseEventBody.
(* ================================================================== *)
(** * The text of a version 4 UUID *)
(* ================================================================== *)

Section UuidText.

Local Open Scope Z_scope.

Lemma nibble_range (n : Z) : 0 <= Z.land n 15 < 16.
Proof.
  change 15 with (Z.ones 4). rewrite Z.land_ones by lia.
  apply Z.mod_pos_bound. reflexivity.
Qed.

(** The sixteen digits, one by one. *)
Lemma nibble_cases (P : Z -> Prop) :
  P 0 -> P 1 -> P 2 -> P 3 -> P 4 -> P 5 -> P 6 -> P 7 ->
  P 8 -> P 9 -> P 10 -> P 11 -> P 12 -> P 13 -> P 14 -> P 15 ->
  forall d, 0 <= d < 16 -> P d.
Proof.
  intros. 
  assert (d = 0 \/ d = 1 \/ d = 2 \/ d = 3 \/ d = 4 \/ d = 5 \/ d = 6 \/
          d = 7 \/ d = 8 \/ d = 9 \/ d = 10 \/ d = 11 \/ d = 12 \/
          d = 13 \/ d = 14 \/ d = 15) as Hd by lia.
  repeat (destruct Hd as [->|Hd]; [assumption|]). now subst.
Qed.

Lemma hexdigit_is_hex (n : Z) :
  Uuid.is_hex (hexdigit (Z.to_N (Z.land n 15))) = true.
Proof.
  generalize (nibble_range n). generalize (Z.land n 15).
  intros d Hd. revert d Hd. apply nibble_cases; reflexivity.
Qed.

Lemma hexdigit_not_hyphen (n : Z) :
  not_hyphen (hexdigit (Z.to_N (Z.land n 15))) = true.
Proof.
  generalize (nibble_range n). generalize (Z.land n 15).
  intros d Hd. revert d Hd. apply nibble_cases; reflexivity.
Qed.

Lemma unhex_hexdigit (n : Z) :
  unhex (hexdigit (Z.to_N (Z.land n 15))) = Z.land n 15.
Proof.
  generalize (nibble_range n). generalize (Z.land n 15).
  intros d Hd. revert d Hd. apply nibble_cases; reflexivity.
Qed.

Lemma hex_digits_length (width : nat) (n : Z) :
  List.length (Uuid.hex_digits width n) = width.
Proof.
  revert n; induction width as [|width IH]; intros n; simpl; [reflexivity|].
  rewrite length_app, IH. simpl. lia.
Qed.

Lemma hex_digits_no_hyphen (width : nat) (n : Z) :
  filter not_hyphen (Uuid.hex_digits width n) = Uuid.hex_digits width n.
Proof.
  revert n; induction width as [|width IH]; intros n; simpl; [reflexivity|].
  rewrite filter_app, IH. simpl. now rewrite hexdigit_not_hyphen.
Qed.

(** Reading the digits back gives the number, up to the width. *)
Lemma int_of_hex_digits (width : nat) (n : Z) :
  int_of_hex (Uuid.hex_digits width n) = n mod 2 ^ (4 * Z.of_nat width).
Proof.
  unfold int_of_hex.
  revert n; induction width as [|width IH]; intros n.
  - simpl. now rewrite Z.mod_1_r.
  - cbn [Uuid.hex_digits]. rewrite fold_left_app. cbn [fold_left].
    rewrite IH, unhex_hexdigit.
    change 15 with (Z.ones 4). rewrite Z.land_ones by lia.
    rewrite Z.shiftr_div_pow2 by lia.
    replace (4 * Z.of_nat (S width)) with (4 + 4 * Z.of_nat width) by lia.
    rewrite Z.pow_add_r by lia.
    rewrite Z.rem_mul_r by (try apply Z.pow_nonzero; try apply Z.pow_pos_nonneg; lia).
    change (2 ^ 4) with 16. lia.
Qed.

End UuidText.

Section UuidIdentity.

Local Open Scope Z_scope.

(** The five groups of [str(u)] are the 32 digits, cut at 8, 12, 16 and
    20. *)
Lemma uuid_groups (hex : pystr) :
  firstn 8 hex ++ firstn 4 (skipn 8 hex) ++ firstn 4 (skipn 12 hex)
  ++ firstn 4 (skipn 16 hex) ++ skipn 20 hex = hex.
Proof.
  replace (skipn 20 hex) with (skipn 4 (skipn 16 hex))
    by (now rewrite skipn_skipn).
  rewrite firstn_skipn.
  replace (skipn 16 hex) with (skipn 4 (skipn 12 hex))
    by (now rewrite skipn_skipn).
  rewrite firstn_skipn.
  replace (skipn 12 hex) with (skipn 4 (skipn 8 hex))
    by (now rewrite skipn_skipn).
  rewrite firstn_skipn.
  apply firstn_skipn.
Qed.

Lemma filter_firstn_id {A} (f : A -> bool) (l : list A) (k : nat) :
  filter f l = l -> filter f (firstn k l) = firstn k l.
Proof.
  revert k; induction l as [|x l IH]; intros [|k] H; simpl; try reflexivity.
  simpl in H. destruct (f x) eqn:Ef.
  - injection H as H. now rewrite IH.
  - exfalso. assert (Hl := filter_length_le f l).
    rewrite H in Hl. simpl in Hl. lia.
Qed.

Lemma filter_skipn_id {A} (f : A -> bool) (l : list A) (k : nat) :
  filter f l = l -> filter f (skipn k l) = skipn k l.
Proof.
  revert k; induction l as [|x l IH]; intros [|k] H; simpl; try reflexivity.
  - exact H.
  - simpl in H. destruct (f x) eqn:Ef.
    + injection H as H. now apply IH.
    + exfalso. assert (Hl := filter_length_le f l).
      rewrite H in Hl. simpl in Hl. lia.
Qed.

(** Dropping the hyphens of [str(u)] gives the 32 digits back. *)
Lemma uuid_str_digits (n : Z) :
  filter not_hyphen (Uuid.uuid_str n) = Uuid.hex_digits 32 n.
Proof.
  unfold Uuid.uuid_str.
  assert (H := hex_digits_no_hyphen 32 n).
  set (hex := Uuid.hex_digits 32 n) in *.
  rewrite !filter_app.
  rewrite !filter_firstn_id, !filter_skipn_id by
    (try apply filter_skipn_id; exact H).
  cbn [filter not_hyphen N.eqb Pos.eqb negb app].
  apply uuid_groups.
Qed.

(** Two UUIDs with the same text have the same 128 bits. *)
Lemma uuid_str_inj (a b : Z) :
  Uuid.uuid_str a = Uuid.uuid_str b -> a mod 2 ^ 128 = b mod 2 ^ 128.
Proof.
  intros H. apply (f_equal (filter not_hyphen)) in H.
  rewrite !uuid_str_digits in H.
  apply (f_equal int_of_hex) in H.
  now rewrite !int_of_hex_digits in H.
Qed.

(** Outside the six bits it forces, [uuid4] keeps the random bits. *)
Lemma uuid4_int_random_bits (r : Z) :
  Uuid.random_bits (Uuid.uuid4_int r) = Uuid.random_bits r.
Proof.
  unfold Uuid.random_bits, Uuid.uuid4_int.
  rewrite !Z.land_lor_distr_l, <- !Z.land_assoc.
  match goal with
  | |- Z.lor (Z.lor (Z.land r ?m) ?c1) ?c2 = _ =>
      let m' := eval vm_compute in m in
      let c1' := eval vm_compute in c1 in
      let c2' := eval vm_compute in c2 in
      change m with m'; change c1 with c1'; change c2 with c2'
  end.
  now rewrite !Z.lor_0_r.
Qed.

Lemma random_bits_mod (a : Z) :
  Uuid.random_bits (a mod 2 ^ 128) = Uuid.random_bits a.
Proof.
  unfold Uuid.random_bits.
  rewrite <- Z.land_ones by lia. rewrite <- Z.land_assoc.
  reflexivity.
Qed.

(** Two draws that differ in a bit [uuid4] keeps give two texts. *)
Lemma uuid4_str_distinct (r1 r2 : Z) :
  Uuid.random_bits r1 <> Uuid.random_bits r2 ->
  Uuid.uuid4_str r1 <> Uuid.uuid4_str r2.
Proof.
  intros Hne Heq. apply Hne. unfold Uuid.uuid4_str in Heq.
  apply uuid_str_inj in Heq.
  rewrite <- (uuid4_int_random_bits r1), <- (uuid4_int_random_bits r2).
  rewrite <- (random_bits_mod (Uuid.uuid4_int r1)), Heq.
  apply random_bits_mod.
Qed.

End UuidIdentity.

Section UuidCanonical.
Local Open Scope Z_scope.

Lemma hex_digits_32 (n : Z) :
  Uuid.hex_digits 32 n =
  List.map (hex_at n)
    [124; 120; 116; 112; 108; 104; 100; 96; 92; 88; 84; 80; 76; 72; 68; 64;
     60; 56; 52; 48; 44; 40; 36; 32; 28; 24; 20; 16; 12; 8; 4; 0].
Proof.
  cbn [Uuid.hex_digits app List.map]. unfold hex_at.
  rewrite !Z.shiftr_shiftr by lia.
  reflexivity.
Qed.

Lemma hex_at_is_hex (n s : Z) : Uuid.is_hex (hex_at n s) = true.
Proof. apply hexdigit_is_hex. Qed.

Ltac eval_masks :=
  match goal with
  | |- context [Z.lor (Z.lor (Z.land ?x ?m) ?c1) ?c2] =>
      let m' := eval vm_compute in m in
      let c1' := eval vm_compute in c1 in
      let c2' := eval vm_compute in c2 in
      change m with m'; change c1 with c1'; change c2 with c2'
  end.

Lemma uuid4_nibble (r s : Z) :
  Z.land (Z.shiftr (Uuid.uuid4_int r) s) 15 =
  Z.lor (Z.lor
    (Z.land (Z.shiftr r s)
       (Z.land (Z.shiftr (Z.lnot (Z.shiftl 49152 48)) s)
          (Z.land (Z.shiftr (Z.lnot (Z.shiftl 61440 64)) s) 15)))
    (Z.land (Z.shiftr (Z.shiftl 32768 48) s)
       (Z.land (Z.shiftr (Z.lnot (Z.shiftl 61440 64)) s) 15)))
    (Z.land (Z.shiftr (Z.shiftl 4 76) s) 15).
Proof.
  unfold Uuid.uuid4_int.
  rewrite !Z.shiftr_lor, !Z.shiftr_land, !Z.shiftr_lor, !Z.shiftr_land.
  now rewrite !Z.land_lor_distr_l, <- !Z.land_assoc.
Qed.

Lemma version_digit (r : Z) : hex_at (Uuid.uuid4_int r) 76 = 52%N.
Proof.
  unfold hex_at. rewrite uuid4_nibble. eval_masks.
  now rewrite Z.land_0_r.
Qed.

Lemma variant_digit (r : Z) :
  let c := hex_at (Uuid.uuid4_int r) 60 in
  (N.eqb c 56 || N.eqb c 57 || N.eqb c 97 || N.eqb c 98)%bool = true.
Proof.
  unfold hex_at. rewrite uuid4_nibble. eval_masks.
  rewrite Z.lor_0_r.
  assert (H : 0 <= Z.land (Z.shiftr r 60) 3 < 4).
  { change 3 with (Z.ones 2). rewrite Z.land_ones by lia.
    apply Z.mod_pos_bound. reflexivity. }
  revert H. generalize (Z.land (Z.shiftr r 60) 3). intros d Hd.
  assert (d = 0 \/ d = 1 \/ d = 2 \/ d = 3) as [->|[->|[->| ->]]] by lia;
    reflexivity.
Qed.

Lemma uuid4_str_canonical (r : Z) :
  Uuid.canonical_v4 (Uuid.uuid4_str r) = true.
Proof.
  unfold Uuid.uuid4_str, Uuid.uuid_str. rewrite hex_digits_32.
  cbn [List.map firstn skipn app].
  unfold Uuid.canonical_v4.
  cbn [List.length Nat.eqb seq forallb Uuid.canonical_char nth andb].
  rewrite !hex_at_is_hex, version_digit.
  pose proof (variant_digit r) as Hv. cbv zeta in Hv. rewrite Hv.
  reflexivity.
Qed.
Lemma uuid4_int_low_bits (r : Z) :
  Z.land (Uuid.uuid4_int (Z.land r (Z.ones 128))) (Z.ones 128) =
  Uuid.uuid4_int (Z.land r (Z.ones 128)).
Proof.
  unfold Uuid.uuid4_int.
  rewrite !Z.land_lor_distr_l, <- !Z.land_assoc.
  reflexivity.
Qed.

(** [uuid4] keeps the integer within 128 bits, where [hex_digits 32]
    is the whole of its hexadecimal text. *)
Lemma uuid4_int_range (r : Z) :
  0 <= r < 2 ^ 128 -> 0 <= Uuid.uuid4_int r < 2 ^ 128.
Proof.
  intros Hr.
  assert (E : Z.land r (Z.ones 128) = r)
    by (rewrite Z.land_ones by lia; apply Z.mod_small; exact Hr).
  rewrite <- E, <- uuid4_int_low_bits, Z.land_ones by lia.
  apply Z.mod_pos_bound. reflexivity.
Qed.

End UuidCanonical.

(* ================================================================== *)
(** * The exceptions of the JSON library and of its callers *)
(* ================================================================== *)

(** What [json.dumps] and [print] raise is a [ValueError] or a
    [RecursionError], which is a [RuntimeError]: an exception of the
    first [except] clause, answered with 400. *)
Lemma dumps_raises (w : world) (room : nat) (v : pyval) (e : pyexc) :
  dumps w room v = Raise e ->
  exc_base_of e = ValueError \/ exc_base_of e = RuntimeError.
Proof.
  unfold dumps. destruct (Json.dumps_error _ _ _) as [[|]|];
    try discriminate; intros [= <-]; auto.
Qed.

Lemma log_failure_base (w : world) (line : pyval) (e : pyexc) :
  log_failure w line = Some e ->
  exc_base_of e = ValueError \/ exc_base_of e = RuntimeError.
Proof.
  unfold log_failure. destruct (dumps w _ line) as [text|x] eqn:E.
  - destruct (Json.text_chars_ok _ _); [discriminate|].
    intros [= <-]. now left.
  - intros [= <-]. exact (dumps_raises _ _ _ _ E).
Qed.

Lemma body_failure_base (w : world) (v : pyval) (e : pyexc) :
  body_failure w v = Some e ->
  exc_base_of e = ValueError \/ exc_base_of e = RuntimeError.
Proof.
  unfold body_failure. destruct (dumps w _ v) as [text|x] eqn:E;
    [discriminate|].
  intros [= <-]. exact (dumps_raises _ _ _ _ E).
Qed.

Lemma json_loads_raises (w : world) (s : pystr) (e : pyexc) :
  json_loads w s = Raise e ->
  exc_base_of e = ValueError \/ exc_base_of e = RuntimeError.
Proof.
  unfold json_loads. destruct (Json.loads _ _ s) as [v| |[n| |]];
    try discriminate; intros [= <-]; auto.
Qed.

(** The exceptions of [_parse_event_body] are the [ValueError] it
    raises itself and those of the decoder. *)
Lemma parse_raises_base (w : world) (event : pyval) (e : pyexc) :
  _parse_event_body w event = Raise e ->
  exc_base_of e = ValueError \/ exc_base_of e = RuntimeError.
Proof.
  unfold _parse_event_body.
  destruct event as [| | | | |l|ev]; try discriminate.
  destruct (dict_get ev (lit "body")) as [b|]; [|discriminate].
  destruct b; try discriminate; try (intros [= <-]; now left).
  destruct (str_bool (strip s)); [|discriminate].
  apply json_loads_raises.
Qed.


(** The exits of the [try] body, one goal each. *)
Ltac run_cases w event Ht :=
  pose proof (try_body_eq w event [entry_log event]) as Ht;
  let tabla := fresh "tabla" in
  let body := fresh "body" in
  let e0 := fresh "e0" in
  destruct (table_name w) as [tabla|] eqn:Htab;
  [ destruct (_parse_event_body w event) as [body|e0] eqn:Hp;
    [ destruct (py_in (lit "tenant_id") body) as [[|]|e0] eqn:Hin1;
      [ destruct (py_in (lit "pelicula_datos") body) as [[|]|e0] eqn:Hin2;
        [ destruct (py_getitem body (lit "tenant_id")) as [t|e0] eqn:Hg1;
          [ destruct (py_getitem body (lit "pelicula_datos"))
              as [p|e0] eqn:Hg2;
            [ cbv zeta in Ht;
              destruct (dynamodb_Table w tabla) as [[]|e0] eqn:HT;
              [ destruct (put_item w tabla _) as [resp|e0] eqn:Hput;
                [ destruct (http_status resp) as [st|e0] eqn:Hst;
                  [ destruct (log_failure w (info_line (success_datos _ _ _ _)))
                      as [e0|] eqn:Hlog;
                    [ | destruct (body_failure w _) as [e0|] eqn:Hbody ]
                  | ]
                | ]
              | ]
            | ]
          | ]
        | | ]
      | | ]
    | ]
  | ].

(** Rewrites the handler's output at the exit [Ht] of the [try] body, in
    the goal, and splits on what the [except] clauses do. *)
Ltac after_exit w event ctx Hentry Ht :=
  first
    [ rewrite (handler_of_return w event ctx Hentry _ _ Ht)
    | rewrite (handler_of_raise w event ctx Hentry _ _ Ht);
      destruct (is_expected _);
      [ destruct (body_dbg w event);
        try destruct (log_failure w (error_line (expected_error_datos _ _ _)))
      | destruct (log_failure w (error_line (other_error_datos _ _))) ] ].

Ltac no_put_in Hin :=
  unfold entry_log, expected_error_line, other_error_line, success_line in Hin;
  cbn [fst app In] in Hin;
  repeat (destruct Hin as [Hin|Hin]; try discriminate Hin);
  try contradiction.

(** A write in the trace tells the whole course of the [try] body up to
    the store. *)
Lemma write_course (w : world) (event ctx : pyval)
  (tb : pystr) (it : pyval) (out : result pyval) :
  In (PutItem tb it out) (fst (lambda_handler w event ctx)) ->
  log_failure w (info_line (entry_datos event)) = None /\
  table_name w = Some tb /\
  dynamodb_Table w tb = Ok tt /\
  out = put_item w tb it /\
  exists d t p,
    _parse_event_body w event = Ok (PDict d) /\
    dict_get d (lit "tenant_id") = Some t /\
    dict_get d (lit "pelicula_datos") = Some p /\
    it = pelicula_item t (Uuid.uuid4_str (urandom16 w)) p.
Proof.
  destruct (log_failure w (info_line (entry_datos event))) as [x|] eqn:Hentry.
  { rewrite (handler_of_entry_failure w event ctx x Hentry).
    intros []. }
  run_cases w event Ht; after_exit w event ctx Hentry Ht; intros Hin;
    no_put_in Hin.
  all: injection Hin as <- <- <-.
  all: apply getitem_ok_dict in Hg1 as (d & -> & Hd1).
  all: apply getitem_ok_dict in Hg2 as (d' & [= <-] & Hd2).
  all: split; [reflexivity|]; split; [reflexivity|]; split; [assumption|].
  all: split; [now rewrite Hput|exists d, t, p; auto].
Qed.

(* ================================================================== *)
(** * Runs that end in an [except] clause *)
(* ================================================================== *)

Section ExceptRuns.

Variable w : world.
Variables event ctx : pyval.
Hypothesis Hentry : log_failure w (info_line (entry_datos event)) = None.

(** The first clause, when the body parsed again is a dict and the
    entry can be logged. *)
Lemma expected_run (e : pyexc) (tr : list effect) (d : list (pystr * pyval)) :
  try_body w event [entry_log event] = (tr, Raise e) ->
  is_expected e = true ->
  body_dbg w event = PDict d ->
  error_log_failure w event e = None ->
  lambda_handler w event ctx =
  (tr ++ [expected_error_line w e d], Ok (error_response e)).
Proof.
  intros Ht He Hd Hlog.
  unfold error_log_failure in Hlog. rewrite He, Hd in Hlog.
  now rewrite (handler_of_raise w event ctx Hentry _ _ Ht), He, Hd, Hlog.
Qed.

(** The second clause, when the entry can be logged. *)
Lemma other_run (e : pyexc) (tr : list effect) :
  try_body w event [entry_log event] = (tr, Raise e) ->
  is_expected e = false ->
  error_log_failure w event e = None ->
  lambda_handler w event ctx =
  (tr ++ [other_error_line w e], Ok (internal_error_response e)).
Proof.
  intros Ht He Hlog.
  unfold error_log_failure in Hlog. rewrite He in Hlog.
  now rewrite (handler_of_raise w event ctx Hentry _ _ Ht), He, Hlog.
Qed.

(** A [ClientError] comes from the store, which only a body that is a
    dict reaches. *)
Lemma client_error_body (e : pyexc) (tr : list effect) (h : Z) :
  try_body w event [entry_log event] = (tr, Raise e) ->
  exc_base_of e = ClientError h ->
  exists d, body_dbg w event = PDict d.
Proof.
  intros Hr Hb.
  assert (Hno : forall x, exc_base_of x = ValueError \/
                          exc_base_of x = RuntimeError ->
                          x <> e).
  { intros x [Hx|Hx] ->; rewrite Hb in Hx; discriminate. }
  revert Hr.
  run_cases w event Ht; rewrite Ht; intros [= _ <-];
    try discriminate Hb;
    try (apply py_in_raises in Hin1 as [_ Hx]; congruence);
    try (apply py_in_raises in Hin2 as [_ Hx]; congruence);
    try (apply (py_getitem_raises_after_in _ _ _ Hin1) in Hg1 as [_ Hx];
         congruence);
    try (apply (py_getitem_raises_after_in _ _ _ Hin2) in Hg2 as [_ Hx];
         congruence);
    try (exfalso; apply (Hno e0); [|reflexivity];
         first [ exact (parse_raises_base _ _ _ Hp)
               | exact (log_failure_base _ _ _ Hlog)
               | exact (body_failure_base _ _ _ Hbody) ]).
  all: apply getitem_ok_dict in Hg1 as (d & -> & _).
  all: exists d; exact (body_dbg_ok _ _ _ Hp).
Qed.

End ExceptRuns.

(* ================================================================== *)
(** * The properties of the specification *)
(* ================================================================== *)

(** ** Errors of the store *)

(** C1, as amended: whenever the call to [put_item] raises a
    [ClientError], whatever HTTP status the store reported, and the
    [except] clause can log its entry, the handler returns a response
    with status 500 (not 400) whose [error] holds the text of that
    exception as [mensaje] and its class name as [tipo_error]. *)
Theorem store_client_error_answers_500 (w : world) (event context : pyval)
  (tabla : pystr) (item : pyval) (e : pyexc) (h : Z) :
  In (PutItem tabla item (Raise e)) (fst (lambda_handler w event context)) ->
  exc_base_of e = ClientError h ->
  error_log_failure w event e = None ->
  snd (lambda_handler w event context) =
  Ok (mkresponse 500
        (json_dumps
           (PDict [(lit "error",
                    PDict [(lit "mensaje", PStr (exc_str e));
                           (lit "tipo_error", PStr (exc_name e))])]))).
Proof.
  intros Hin Hbase Hlog.
  destruct (write_course w event context tabla item (Raise e) Hin)
    as (Hentry & Htab & HT & Hput & d & t & p & Hp & H1 & H2 & ->).
  pose proof (try_body_eq w event [entry_log event]) as Ht.
  rewrite Htab, Hp in Ht. cbn [py_in py_getitem] in Ht.
  rewrite H1, H2 in Ht. cbv zeta in Ht. rewrite HT, <- Hput in Ht.
  assert (He : is_expected e = true) by (unfold is_expected; now rewrite Hbase).
  rewrite (expected_run w event context Hentry e _ d Ht He
             (body_dbg_ok _ _ _ Hp) Hlog).
  unfold error_response, is_validation. rewrite Hbase. reflexivity.
Qed.

(** An invocation to which C1, as amended, applies: the table is
    throttled. *)
Lemma store_client_error_answers_500_witness :
  In (PutItem (lit "peliculas") Sample.item_valid (Raise Sample.throttled))
     (fst (lambda_handler Sample.w_throttled Sample.ev_valid PNone)) /\
  snd (lambda_handler Sample.w_throttled Sample.ev_valid PNone) =
  Ok (mkresponse 500
        (json_dumps
           (PDict [(lit "error",
                    PDict [(lit "mensaje", PStr (exc_str Sample.throttled));
                           (lit "tipo_error", PStr (lit "ClientError"))])]))).
Proof.
  assert (H : In (PutItem (lit "peliculas") Sample.item_valid
                    (Raise Sample.throttled))
                (fst (lambda_handler Sample.w_throttled Sample.ev_valid PNone))).
  { vm_compute. right. left. reflexivity. }
  split; [exact H|].
  exact (store_client_error_answers_500 Sample.w_throttled Sample.ev_valid
           PNone (lit "peliculas") Sample.item_valid Sample.throttled 400
           H eq_refl eq_refl).
Defined.

(** C1 as stated fails: the store refuses the write with a client-side
    error (throttling, HTTP 400) and the handler answers 500. *)
Lemma store_client_error_not_400 :
  In (PutItem (lit "peliculas") Sample.item_valid (Raise Sample.throttled))
     (fst (lambda_handler Sample.w_throttled Sample.ev_valid PNone)) /\
  exc_base_of Sample.throttled = ClientError 400 /\
  exists r,
    snd (lambda_handler Sample.w_throttled Sample.ev_valid PNone) = Ok r /\
    statusCode r = 500%Z /\ statusCode r <> 400%Z.
Proof.
  split; [vm_compute; right; left; reflexivity|].
  split; [reflexivity|].
  eexists. split; [vm_compute; reflexivity|].
  split; [reflexivity|discriminate].
Qed.

(** C4, as amended: when the [try] body raises an exception that is
    none of [ValueError], [KeyError], [RuntimeError] and [ClientError],
    and the [except] clause can log its entry, the handler returns status
    500 with the fixed message as [mensaje], whatever the text of the
    exception; when it raises a [ClientError], be it for a client-side or
    a server-side error of the store, the handler returns status 500 and
    [mensaje] is the text of the exception. *)
Theorem unexpected_failure_answers_500 (w : world) (event context : pyval)
  (tr : list effect) (e : pyexc) :
  log_failure w (info_line (entry_datos event)) = None ->
  try_body w event [entry_log event] = (tr, Raise e) ->
  error_log_failure w event e = None ->
  (exc_base_of e = OtherException ->
   snd (lambda_handler w event context) =
   Ok (mkresponse 500
         (json_dumps
            (PDict [(lit "error",
                     PDict [(lit "mensaje",
                             PStr (lit "Error interno inesperado."));
                            (lit "tipo_error", PStr (exc_name e))])]))))
  /\
  (forall h, exc_base_of e = ClientError h ->
   snd (lambda_handler w event context) =
   Ok (mkresponse 500
         (json_dumps
            (PDict [(lit "error",
                     PDict [(lit "mensaje", PStr (exc_str e));
                            (lit "tipo_error", PStr (exc_name e))])])))).
Proof.
  intros Hentry Ht Hlog. split.
  - intros Hb.
    now rewrite (other_run w event context Hentry e tr Ht
                   (not_expected e Hb) Hlog).
  - intros h Hb.
    destruct (client_error_body w event e tr h Ht Hb) as [d Hd].
    assert (He : is_expected e = true) by (unfold is_expected; now rewrite Hb).
    rewrite (expected_run w event context Hentry e tr d Ht He Hd Hlog).
    unfold error_response, is_validation. rewrite Hb. reflexivity.
Qed.

(** An invocation to which C4, as amended, applies: the store fails with
    an internal error. *)
Lemma unexpected_failure_answers_500_witness :
  snd (lambda_handler Sample.w_store_down Sample.ev_valid PNone) =
  Ok (mkresponse 500
        (json_dumps
           (PDict [(lit "error",
                    PDict [(lit "mensaje",
                            PStr (exc_str Sample.internal_failure));
                           (lit "tipo_error", PStr (lit "ClientError"))])]))).
Proof.
  refine (proj2 (unexpected_failure_answers_500 Sample.w_store_down
                   Sample.ev_valid PNone
                   [entry_log Sample.ev_valid;
                    PutItem (lit "peliculas") Sample.item_valid
                      (Raise Sample.internal_failure)]
                   Sample.internal_failure _ _ _) 500%Z eq_refl).
  - reflexivity.
  - vm_compute. reflexivity.
  - reflexivity.
Defined.

(** C4 as stated fails: for a server-side error of the store (HTTP 500)
    the status is 500, but the message of the response is the text of
    the exception, not the fixed one. *)
Lemma store_failure_message_not_generic :
  try_body Sample.w_store_down Sample.ev_valid [entry_log Sample.ev_valid] =
  ([entry_log Sample.ev_valid;
    PutItem (lit "peliculas") Sample.item_valid (Raise Sample.internal_failure)],
   Raise Sample.internal_failure) /\
  exc_base_of Sample.internal_failure = ClientError 500 /\
  snd (lambda_handler Sample.w_store_down Sample.ev_valid PNone) =
  Ok (mkresponse 500
        (json_dumps
           (PDict [(lit "error",
                    PDict [(lit "mensaje",
                            PStr (exc_str Sample.internal_failure));
                           (lit "tipo_error", PStr (lit "ClientError"))])]))) /\
  exc_str Sample.internal_failure <> lit "Error interno inesperado.".
Proof.
  split; [vm_compute; reflexivity|].
  split; [reflexivity|].
  split; [vm_compute; reflexivity|].
  vm_compute; discriminate.
Qed.

(** ** Exceptions that leave the handler *)

(** The envelope whose body is the text of a JSON list can be logged
    and decoded in every environment: it is ASCII, has no numbers, and
    nests no deeper than the least every environment allows. *)
Lemma list_body_entry (w : world) :
  log_failure w (info_line (entry_datos Sample.ev_list_body)) = None.
Proof. reflexivity. Qed.

Lemma list_body_parse (w : world) :
  _parse_event_body w Sample.ev_list_body = Ok (PList []).
Proof. reflexivity. Qed.

(** C2, at its failing input: for the envelope whose body is the text
    of a JSON list, in every environment, the first [except] clause
    raises an [AttributeError] that leaves the handler; no response is
    returned. *)
Theorem list_body_escapes (w : world) (context : pyval) :
  snd (lambda_handler w Sample.ev_list_body context) =
  Raise (attribute_error (PList [])).
Proof.
  pose proof (list_body_parse w) as Hp.
  pose proof (try_body_eq w Sample.ev_list_body
                [entry_log Sample.ev_list_body]) as Ht.
  rewrite Hp in Ht. cbn [py_in existsb] in Ht.
  destruct (table_name w);
    rewrite (handler_of_raise w _ context (list_body_entry w) _ _ Ht);
    rewrite (body_dbg_ok _ _ _ Hp); reflexivity.
Qed.

(** C6, at its failing input: with no table name in the environment
    and the same envelope, the handler raises [RuntimeError] first, and
    its [except] clause then raises the [AttributeError] that leaves the
    handler, before any response is built. *)
Theorem no_table_list_body_escapes :
  environ_get Sample.w_no_table TABLE_ENV_NAME = None /\
  try_body Sample.w_no_table Sample.ev_list_body
    [entry_log Sample.ev_list_body] =
  ([entry_log Sample.ev_list_body], Raise missing_table_error) /\
  lambda_handler Sample.w_no_table Sample.ev_list_body PNone =
  ([entry_log Sample.ev_list_body], Raise (attribute_error (PList []))).
Proof.
  split; [reflexivity|]. split; vm_compute; reflexivity.
Qed.

(** ** Missing fields *)

(** A run that fails before the store on an exception of the first
    clause, for a body that is a dict [d] or that cannot be parsed
    ([d] is then empty): the entry line and the [ERROR] line, and the
    response of the clause. *)
Lemma early_error_run (w : world) (event context : pyval) (e : pyexc)
  (d : list (pystr * pyval)) :
  log_failure w (info_line (entry_datos event)) = None ->
  try_body w event [entry_log event] = ([entry_log event], Raise e) ->
  is_expected e = true ->
  body_dbg w event = PDict d ->
  log_failure w (error_line (expected_error_datos w e d)) = None ->
  lambda_handler w event context =
  ([entry_log event; expected_error_line w e d], Ok (error_response e)).
Proof.
  intros Hentry Ht He Hd Hlog.
  apply (expected_run w event context Hentry e _ d Ht He Hd).
  unfold error_log_failure. now rewrite He, Hd.
Qed.

(** C5, as amended: with the table configured, when the body resolved
    from the request is a dict without [tenant_id], and when it is a dict
    with [tenant_id] and without [pelicula_datos], and the two log
    entries can be written, the handler writes nothing and returns status
    400 with [tipo_error] equal to [KeyError] and, as [mensaje], the
    sentence naming the missing field between double quotes (character
    34). *)
Theorem missing_field_answers_400 (w : world) (event context : pyval)
  (tabla : pystr) (d : list (pystr * pyval)) :
  table_name w = Some tabla ->
  log_failure w (info_line (entry_datos event)) = None ->
  _parse_event_body w event = Ok (PDict d) ->
  (dict_get d (lit "tenant_id") = None ->
   log_failure w
     (error_line (expected_error_datos w missing_tenant_error d)) = None ->
   snd (lambda_handler w event context) =
   Ok (mkresponse 400
         (json_dumps
            (PDict [(lit "error",
                     PDict [(lit "mensaje",
                             PStr ([34%N] ++ lit "Falta 'tenant_id' en el body."
                                   ++ [34%N]));
                            (lit "tipo_error", PStr (lit "KeyError"))])]))) /\
   no_write (fst (lambda_handler w event context)) = true)
  /\
  (dict_get d (lit "tenant_id") <> None ->
   dict_get d (lit "pelicula_datos") = None ->
   log_failure w
     (error_line (expected_error_datos w missing_datos_error d)) = None ->
   snd (lambda_handler w event context) =
   Ok (mkresponse 400
         (json_dumps
            (PDict [(lit "error",
                     PDict [(lit "mensaje",
                             PStr ([34%N]
                                   ++ lit "Falta 'pelicula_datos' en el body."
                                   ++ [34%N]));
                            (lit "tipo_error", PStr (lit "KeyError"))])]))) /\
   no_write (fst (lambda_handler w event context)) = true).
Proof.
  intros Htab Hentry Hp.
  pose proof (try_body_eq w event [entry_log event]) as Ht.
  rewrite Htab, Hp in Ht. cbn [py_in] in Ht.
  split.
  - intros H1 Hlog. rewrite H1 in Ht.
    rewrite (early_error_run w event context _ d Hentry Ht eq_refl
               (body_dbg_ok _ _ _ Hp) Hlog).
    split; reflexivity.
  - intros H1 H2 Hlog.
    destruct (dict_get d (lit "tenant_id")) as [t|]; [|contradiction].
    rewrite H2 in Ht.
    rewrite (early_error_run w event context _ d Hentry Ht eq_refl
               (body_dbg_ok _ _ _ Hp) Hlog).
    split; reflexivity.
Qed.

(** C5, as amended, at the request of the specification's example: the
    body has [tenant_id] only. *)
Lemma missing_field_answers_400_witness :
  snd (lambda_handler Sample.w_ok Sample.ev_only_tenant PNone) =
  Ok (mkresponse 400
        (json_dumps
           (PDict [(lit "error",
                    PDict [(lit "mensaje",
                            PStr ([34%N]
                                  ++ lit "Falta 'pelicula_datos' en el body."
                                  ++ [34%N]));
                           (lit "tipo_error", PStr (lit "KeyError"))])]))) /\
  no_write (fst (lambda_handler Sample.w_ok Sample.ev_only_tenant PNone)) = true.
Proof.
  refine (proj2 (missing_field_answers_400 Sample.w_ok Sample.ev_only_tenant
                   PNone (lit "peliculas")
                   [(lit "tenant_id", PStr (lit "t1"))] _ _ _) _ _ _).
  - reflexivity.
  - reflexivity.
  - reflexivity.
  - discriminate.
  - reflexivity.
  - reflexivity.
Defined.

(** C5 as stated fails at its own example: the response is not the one
    the specification shows.  Its [tipo_error] is [KeyError], and its
    [mensaje] is the [repr] of the sentence, between double quotes. *)
Lemma missing_field_example_differs :
  snd (lambda_handler Sample.w_ok Sample.ev_only_tenant PNone) =
  Ok (mkresponse 400
        (json_dumps
           (PDict [(lit "error",
                    PDict [(lit "mensaje",
                            PStr ([34%N]
                                  ++ lit "Falta 'pelicula_datos' en el body."
                                  ++ [34%N]));
                           (lit "tipo_error", PStr (lit "KeyError"))])]))) /\
  snd (lambda_handler Sample.w_ok Sample.ev_only_tenant PNone) <>
  Ok (mkresponse 400
        (json_dumps
           (PDict [(lit "error",
                    PDict [(lit "mensaje",
                            PStr (lit "Falta 'pelicula_datos' en el body."));
                           (lit "tipo_error",
                            PStr (lit "MissingFieldError"))])]))).
Proof.
  split; [vm_compute; reflexivity|vm_compute; discriminate].
Qed.

(** ** Bodies given as text *)




(** C8, as amended: when the [body] key holds an empty or blank string,
    the body resolves to the empty dict in every environment; with the
    table configured, and the two log entries written, the handler
    writes nothing and returns status 400 for the [KeyError] of the
    missing [tenant_id], which is no parse error. *)
Theorem blank_body_is_empty_object (w : world) (event context : pyval)
  (s tabla : pystr) :
  event_body event = Some (PStr s) ->
  strip s = [] ->
  _parse_event_body w event = Ok (PDict []) /\
  (table_name w = Some tabla ->
   log_failure w (info_line (entry_datos event)) = None ->
   log_failure w
     (error_line (expected_error_datos w missing_tenant_error [])) = None ->
   snd (lambda_handler w event context) =
   Ok (mkresponse 400
         (json_dumps
            (PDict [(lit "error",
                     PDict [(lit "mensaje",
                             PStr ([34%N] ++ lit "Falta 'tenant_id' en el body."
                                   ++ [34%N]));
                            (lit "tipo_error", PStr (lit "KeyError"))])]))) /\
   no_write (fst (lambda_handler w event context)) = true).
Proof.
  intros Hb Hs.
  assert (Hp : _parse_event_body w event = Ok (PDict [])).
  { rewrite (parse_body_str w event s Hb), Hs. reflexivity. }
  split; [exact Hp|].
  intros Htab Hentry Hlog.
  pose proof (try_body_eq w event [entry_log event]) as Ht.
  rewrite Htab, Hp in Ht. cbn in Ht.
  rewrite (early_error_run w event context _ [] Hentry Ht eq_refl
             (body_dbg_ok _ _ _ Hp) Hlog).
  split; reflexivity.
Qed.

(** An invocation to which C8, as amended, applies: the body is one
    space. *)
Lemma blank_body_is_empty_object_witness :
  _parse_event_body Sample.w_ok Sample.ev_blank_body = Ok (PDict []) /\
  snd (lambda_handler Sample.w_ok Sample.ev_blank_body PNone) =
  Ok (mkresponse 400
        (json_dumps
           (PDict [(lit "error",
                    PDict [(lit "mensaje",
                            PStr ([34%N] ++ lit "Falta 'tenant_id' en el body."
                                  ++ [34%N]));
                           (lit "tipo_error", PStr (lit "KeyError"))])]))) /\
  no_write (fst (lambda_handler Sample.w_ok Sample.ev_blank_body PNone)) = true.
Proof.
  destruct (blank_body_is_empty_object Sample.w_ok Sample.ev_blank_body PNone
              (lit " ") (lit "peliculas") eq_refl eq_refl) as [H1 H2].
  split; [exact H1|]. apply H2; reflexivity.
Defined.

(** C8 as stated fails: without a table name the request with a blank
    body does not reach the missing-field checks.  The answer is the 400
    of the configuration check, a [RuntimeError]. *)
Lemma blank_body_without_table :
  event_body Sample.ev_blank_body = Some (PStr (lit " ")) /\
  strip (lit " ") = [] /\
  table_name Sample.w_no_table = None /\
  snd (lambda_handler Sample.w_no_table Sample.ev_blank_body PNone) =
  Ok (mkresponse 400
        (json_dumps
           (PDict [(lit "error",
                    PDict [(lit "mensaje",
                            PStr (lit "Variable de entorno 'TABLE_NAME' no definida."));
                           (lit "tipo_error", PStr (lit "RuntimeError"))])]))) /\
  exc_name missing_tenant_error <> lit "RuntimeError" /\
  exc_name missing_datos_error <> lit "RuntimeError".
Proof.
  split; [reflexivity|]. split; [reflexivity|]. split; [reflexivity|].
  split; [vm_compute; reflexivity|]. split; vm_compute; discriminate.
Qed.

(** ** The three readings of an envelope *)

(** C9, as amended: the body is chosen by the [body] key alone.  A dict
    under the key is the body; a string under it is decoded from JSON,
    except that an empty or blank string gives the empty dict; any other
    value under it is refused with a [ValueError]; and only an envelope
    without the key is its own body.  When the key is present, the other
    top-level fields play no part. *)
Theorem body_priority (w : world) (ev : list (pystr * pyval)) :
  (forall d, dict_get ev (lit "body") = Some (PDict d) ->
     _parse_event_body w (PDict ev) = Ok (PDict d))
  /\
  (forall s, dict_get ev (lit "body") = Some (PStr s) ->
     _parse_event_body w (PDict ev) =
     if str_bool (strip s) then json_loads w s else Ok (PDict []))
  /\
  (forall v, dict_get ev (lit "body") = Some v ->
     is_dict v = false -> is_str v = false ->
     _parse_event_body w (PDict ev) = Raise body_type_error)
  /\
  (dict_get ev (lit "body") = None ->
     _parse_event_body w (PDict ev) = Ok (PDict ev))
  /\
  (forall v ev', dict_get ev (lit "body") = Some v ->
     dict_get ev' (lit "body") = Some v ->
     _parse_event_body w (PDict ev') = _parse_event_body w (PDict ev)).
Proof.
  repeat split.
  - intros d H. now apply parse_body_dict.
  - intros s H. now apply parse_body_str.
  - intros v H Hd Hs. now apply parse_body_other with (v := v).
  - intros H. now rewrite parse_no_body.
  - intros v ev' H H'. simpl. now rewrite H, H'.
Qed.

(** C9, as amended, on sample envelopes: a nested body next to
    top-level fields, and an envelope without the key. *)
Lemma body_priority_witness :
  _parse_event_body Sample.w_ok
    (PDict [(lit "tenant_id", PStr (lit "t0"));
            (lit "body", PDict [(lit "tenant_id", PStr (lit "t1"))])]) =
  Ok (PDict [(lit "tenant_id", PStr (lit "t1"))]) /\
  _parse_event_body Sample.w_ok (PDict [(lit "tenant_id", PStr (lit "t0"))]) =
  Ok (PDict [(lit "tenant_id", PStr (lit "t0"))]).
Proof.
  split.
  - apply (proj1 (body_priority Sample.w_ok
             [(lit "tenant_id", PStr (lit "t0"));
              (lit "body", PDict [(lit "tenant_id", PStr (lit "t1"))])])).
    reflexivity.
  - apply (proj1 (proj2 (proj2 (proj2 (body_priority Sample.w_ok
             [(lit "tenant_id", PStr (lit "t0"))]))))).
    reflexivity.
Defined.

(** C9 as stated fails: under the [body] key the empty string is a
    string, it has no JSON decoding, and the body chosen is the empty
    dict. *)
Lemma empty_string_body_not_decoded :
  event_body Sample.ev_empty_body = Some (PStr []) /\
  Json.loads (int_max_str_digits Sample.w_ok) (1 + loads_depth Sample.w_ok) []
    = Json.Malformed /\
  _parse_event_body Sample.w_ok Sample.ev_empty_body = Ok (PDict []).
Proof. repeat split. Qed.

(** C10, as amended: when the [body] key holds a value that is neither
    a dict nor a string, the top-level fields are not used:
    [_parse_event_body] raises the [ValueError] that says what [body]
    must be.  With the table configured, and the two log entries
    written, the handler writes nothing and returns status 400 with that
    message. *)
Theorem other_body_answers_400 (w : world) (event context : pyval)
  (v : pyval) (tabla : pystr) :
  event_body event = Some v -> is_dict v = false -> is_str v = false ->
  _parse_event_body w event = Raise body_type_error /\
  (table_name w = Some tabla ->
   log_failure w (info_line (entry_datos event)) = None ->
   log_failure w (error_line (expected_error_datos w body_type_error [])) =
     None ->
   snd (lambda_handler w event context) =
   Ok (mkresponse 400
         (json_dumps
            (PDict [(lit "error",
                     PDict [(lit "mensaje",
                             PStr (lit "El campo 'body' debe ser dict o string JSON."));
                            (lit "tipo_error", PStr (lit "ValueError"))])]))) /\
   no_write (fst (lambda_handler w event context)) = true).
Proof.
  intros Hb Hd Hs.
  assert (Hp : _parse_event_body w event = Raise body_type_error)
    by (now apply parse_body_other with (v := v)).
  split; [exact Hp|].
  intros Htab Hentry Hlog.
  pose proof (try_body_eq w event [entry_log event]) as Ht.
  rewrite Htab, Hp in Ht.
  rewrite (early_error_run w event context _ [] Hentry Ht eq_refl
             (body_dbg_raise _ _ _ Hp) Hlog).
  split; reflexivity.
Qed.

(** An invocation to which C10, as amended, applies: the body is
    [null]. *)
Lemma other_body_answers_400_witness :
  _parse_event_body Sample.w_ok Sample.ev_null_body = Raise body_type_error /\
  snd (lambda_handler Sample.w_ok Sample.ev_null_body PNone) =
  Ok (mkresponse 400
        (json_dumps
           (PDict [(lit "error",
                    PDict [(lit "mensaje",
                            PStr (lit "El campo 'body' debe ser dict o string JSON."));
                           (lit "tipo_error", PStr (lit "ValueError"))])]))) /\
  no_write (fst (lambda_handler Sample.w_ok Sample.ev_null_body PNone)) = true.
Proof.
  destruct (other_body_answers_400 Sample.w_ok Sample.ev_null_body PNone
              PNone (lit "peliculas") eq_refl eq_refl eq_refl) as [H1 H2].
  split; [exact H1|]. apply H2; reflexivity.
Defined.

(** C10 as stated fails: without a table name the message of the
    response is not the one about [body]; it is the one of the
    configuration check, and the error is a [RuntimeError]. *)
Lemma other_body_without_table :
  event_body Sample.ev_null_body = Some PNone /\
  table_name Sample.w_no_table = None /\
  snd (lambda_handler Sample.w_no_table Sample.ev_null_body PNone) =
  Ok (mkresponse 400
        (json_dumps
           (PDict [(lit "error",
                    PDict [(lit "mensaje",
                            PStr (lit "Variable de entorno 'TABLE_NAME' no definida."));
                           (lit "tipo_error", PStr (lit "RuntimeError"))])]))) /\
  lit "Variable de entorno 'TABLE_NAME' no definida." <>
  lit "El campo 'body' debe ser dict o string JSON.".
Proof.
  split; [reflexivity|]. split; [reflexivity|].
  split; [vm_compute; reflexivity|vm_compute; discriminate].
Qed.

(** ** The successful call *)

(** A response with status 200 carries the UUID drawn in this
    invocation. *)
Lemma status_200_uuid (w : world) (event ctx : pyval) (r : response) :
  snd (lambda_handler w event ctx) = Ok r ->
  statusCode r = 200%Z ->
  response_uuid r = Some (PStr (Uuid.uuid4_str (urandom16 w))).
Proof.
  intros Hr Hs. revert Hr.
  destruct (log_failure w (info_line (entry_datos event))) as [x|] eqn:Hentry.
  { now rewrite (handler_of_entry_failure w event ctx x Hentry). }
  run_cases w event Ht; after_exit w event ctx Hentry Ht; cbn [fst snd];
    try discriminate;
    try (intros [= <-]; destruct (error_response_not_200 _ Hs));
    try (intros [= <-]; discriminate Hs).
  intros [= <-]. reflexivity.
Qed.

(** C3, as amended: with the table configured, a body resolved to a
    dict that holds [tenant_id] and [pelicula_datos], a store that
    accepts the write and answers with a response from which the status
    can be read, log entries that can be written and a response body
    that can be encoded, the handler writes one record and returns
    status 200.  The record written and returned holds the two values of
    the request unchanged and the UUID drawn in this invocation; the
    text of the UUID is in the canonical form of version 4; and the UUID
    of any other successful call whose random draw differs in a bit that
    [uuid4] keeps is another one. *)
Theorem create_record_succeeds (w : world) (event context : pyval)
  (tabla : pystr) (d : list (pystr * pyval)) (t p resp st : pyval) :
  table_name w = Some tabla ->
  log_failure w (info_line (entry_datos event)) = None ->
  _parse_event_body w event = Ok (PDict d) ->
  dict_get d (lit "tenant_id") = Some t ->
  dict_get d (lit "pelicula_datos") = Some p ->
  let uuidv4 := Uuid.uuid4_str (urandom16 w) in
  let item := PDict [(lit "tenant_id", t);
                     (lit "uuid", PStr uuidv4);
                     (lit "pelicula_datos", p)] in
  dynamodb_Table w tabla = Ok tt ->
  put_item w tabla item = Ok resp ->
  http_status resp = Ok st ->
  log_failure w (info_line (success_datos tabla t uuidv4 st)) = None ->
  body_failure w (success_value item st) = None ->
  snd (lambda_handler w event context) =
    Ok (mkresponse 200
          (json_dumps
             (PDict [(lit "pelicula",
                      PDict [(lit "tenant_id", t);
                             (lit "uuid", PStr uuidv4);
                             (lit "pelicula_datos", p)]);
                     (lit "response",
                      PDict [(lit "http_status", st)])]))) /\
  writes (fst (lambda_handler w event context)) =
    [PutItem tabla
       (PDict [(lit "tenant_id", t);
               (lit "uuid", PStr uuidv4);
               (lit "pelicula_datos", p)])
       (Ok resp)] /\
  Uuid.canonical_v4 uuidv4 = true /\
  (forall w' event' context' r',
     snd (lambda_handler w' event' context') = Ok r' ->
     statusCode r' = 200%Z ->
     Uuid.random_bits (urandom16 w') <> Uuid.random_bits (urandom16 w) ->
     response_uuid r' <> Some (PStr uuidv4)).
Proof.
  intros Htab Hentry Hp H1 H2 uuidv4 item HT Hput Hst Hlog Hbody.
  pose proof (try_body_eq w event [entry_log event]) as Ht.
  rewrite Htab, Hp in Ht. cbn [py_in py_getitem] in Ht.
  rewrite H1, H2 in Ht. cbv zeta in Ht.
  change (pelicula_item t (Uuid.uuid4_str (urandom16 w)) p) with item in Ht.
  fold uuidv4 in Ht.
  rewrite HT, Hput, Hst, Hlog, Hbody in Ht.
  rewrite (handler_of_return w event context Hentry _ _ Ht).
  split; [reflexivity|]. split; [reflexivity|].
  split; [apply uuid4_str_canonical|].
  intros w' event' context' r' Hr' Hs' Hbits.
  rewrite (status_200_uuid w' event' context' r' Hr' Hs').
  intros Heq. apply some_pstr_inj in Heq.
  exact (uuid4_str_distinct (urandom16 w') (urandom16 w) Hbits Heq).
Qed.

(** C3, as amended, on the first example of the specification, and a
    second call with another draw. *)
Lemma create_record_succeeds_witness :
  snd (lambda_handler Sample.w_ok Sample.ev_valid PNone) =
    Ok (mkresponse 200
          (json_dumps
             (PDict [(lit "pelicula",
                      PDict [(lit "tenant_id", PStr (lit "t1"));
                             (lit "uuid",
                              PStr (Uuid.uuid4_str (urandom16 Sample.w_ok)));
                             (lit "pelicula_datos", Sample.titulo_x)]);
                     (lit "response",
                      PDict [(lit "http_status", PInt 200)])]))) /\
  writes (fst (lambda_handler Sample.w_ok Sample.ev_valid PNone)) =
    [PutItem (lit "peliculas")
       (PDict [(lit "tenant_id", PStr (lit "t1"));
               (lit "uuid", PStr (Uuid.uuid4_str (urandom16 Sample.w_ok)));
               (lit "pelicula_datos", Sample.titulo_x)])
       (Ok Sample.store_response)] /\
  Uuid.uuid4_str (urandom16 Sample.w_ok) =
    lit "01234567-89ab-4def-8123-456789abcdef" /\
  forall r',
    snd (lambda_handler Sample.w_ok' Sample.ev_valid PNone) = Ok r' ->
    response_uuid r' <>
    Some (PStr (Uuid.uuid4_str (urandom16 Sample.w_ok))).
Proof.
  pose proof (create_record_succeeds Sample.w_ok Sample.ev_valid PNone
                (lit "peliculas")
                [(lit "tenant_id", PStr (lit "t1"));
                 (lit "pelicula_datos", Sample.titulo_x)]
                (PStr (lit "t1")) Sample.titulo_x Sample.store_response
                (PInt 200)
                eq_refl eq_refl eq_refl eq_refl eq_refl
                eq_refl eq_refl eq_refl eq_refl eq_refl)
    as (H1 & H2 & _ & H5).
  split; [exact H1|]. split; [exact H2|].
  split; [vm_compute; reflexivity|].
  intros r' Hr'.
  apply (H5 Sample.w_ok' Sample.ev_valid PNone r' Hr').
  - vm_compute in Hr'. injection Hr' as <-. reflexivity.
  - vm_compute. discriminate.
Defined.

(** C3 as stated fails, in three ways.  Two calls whose random source
    gives the same bytes return the same UUID: nothing in the handler
    makes them distinct.  A body that is the text of a JSON string in
    which both names occur contains both for [in], and the answer is
    500.  And for a body whose [tenant_id] decodes to a lone surrogate
    the store accepts the write, the line of the successful call cannot
    be printed, and neither can the [ERROR] line: the exception of
    [print] leaves the handler after the record was written. *)
Lemma create_record_not_always :
  (exists r1 r2,
     snd (lambda_handler Sample.w_ok Sample.ev_valid PNone) = Ok r1 /\
     snd (lambda_handler Sample.w_ok Sample.ev_top_level PNone) = Ok r2 /\
     statusCode r1 = 200%Z /\ statusCode r2 = 200%Z /\
     response_uuid r1 = response_uuid r2)
  /\
  (_parse_event_body Sample.w_ok Sample.ev_names_body =
     Ok (PStr (lit "tenant_id pelicula_datos")) /\
   py_in (lit "tenant_id") (PStr (lit "tenant_id pelicula_datos")) = Ok true /\
   py_in (lit "pelicula_datos") (PStr (lit "tenant_id pelicula_datos")) =
     Ok true /\
   exists r,
     snd (lambda_handler Sample.w_ok Sample.ev_names_body PNone) = Ok r /\
     statusCode r = 500%Z)
  /\
  (_parse_event_body Sample.w_ok Sample.ev_surrogate_tenant =
     Ok (PDict [(lit "tenant_id", PStr [55296%N]);
                (lit "pelicula_datos", PDict [])]) /\
   table_name Sample.w_ok = Some (lit "peliculas") /\
   lambda_handler Sample.w_ok Sample.ev_surrogate_tenant PNone =
   ([entry_log Sample.ev_surrogate_tenant;
     PutItem (lit "peliculas") Sample.item_surrogate
       (Ok Sample.store_response)],
    Raise Sample.encode_error)).
Proof.
  split; [|split].
  - eexists _, _. split; [vm_compute; reflexivity|].
    split; [vm_compute; reflexivity|]. repeat split.
  - split; [reflexivity|]. split; [reflexivity|]. split; [reflexivity|].
    eexists. split; [vm_compute; reflexivity|reflexivity].
  - split; [vm_compute; reflexivity|]. split; [reflexivity|].
    vm_compute. reflexivity.
Qed.

(** ** Requests at the limits of the interpreter *)

(** Three runs in the sample environment.  An event with a lone
    surrogate in a field the handler never reads: the entry line cannot
    be printed and the exception leaves the handler.  A body of 4301
    digits, and a body of 2000 opening brackets: [json.loads] raises a
    [ValueError], resp. a [RecursionError], and the answer is 400. *)
Lemma runs_at_the_limits :
  lambda_handler Sample.w_ok
    (PDict [(lit "body", PStr (lit " ")); (lit "x", PStr [55296%N])]) PNone =
    ([], Raise Sample.encode_error) /\
  snd (lambda_handler Sample.w_ok
         (Sample.with_body (PStr (repeat 49%N 4301))) PNone) =
    Ok (mkresponse 400
          (json_dumps
             (PDict [(lit "error",
                      PDict [(lit "mensaje",
                              PStr (lit "Exceeds the limit (4300 digits) for integer string conversion: value has 4301 digits; use sys.set_int_max_str_digits() to increase the limit"));
                             (lit "tipo_error", PStr (lit "ValueError"))])]))) /\
  snd (lambda_handler Sample.w_ok
         (Sample.with_body (PStr (repeat 91%N 2000))) PNone) =
    Ok (mkresponse 400
          (json_dumps
             (PDict [(lit "error",
                      PDict [(lit "mensaje",
                              PStr (lit "maximum recursion depth exceeded while decoding a JSON array from a unicode string"));
                             (lit "tipo_error",
                              PStr (lit "RecursionError"))])]))).
Proof.
  repeat match goal with |- _ /\ _ => split end; vm_compute; reflexivity.
Qed.

(* ================================================================== *)
(** * Further properties of the handler *)
(* ================================================================== *)

(** X1.  The entry line is logged outside the [try] statement.  When it
    cannot be written, the exception leaves the handler and nothing else
    happens.  Otherwise it is the first effect of the run, and after it
    come at most one call to [put_item] and at most two more printed
    lines. *)
Theorem entry_line_first (w : world) (event ctx : pyval) :
  match log_failure w (info_line (entry_datos event)) with
  | Some e => lambda_handler w event ctx = ([], Raise e)
  | None =>
    exists rest,
      fst (lambda_handler w event ctx) = entry_log event :: rest /\
      (List.length (writes rest) <= 1)%nat /\
      (List.length (filter (fun ef => negb (is_write ef)) rest) <= 2)%nat
  end.
Proof.
  destruct (log_failure w (info_line (entry_datos event))) as [x|] eqn:Hentry.
  { exact (handler_of_entry_failure w event ctx x Hentry). }
  run_cases w event Ht; after_exit w event ctx Hentry Ht;
    cbn [fst app]; eexists; (split; [reflexivity|]); cbn; lia.
Qed.

(** X2.  Whatever the handler writes, it writes to the table named by
    the environment, after [Table] accepted that name, and what it writes
    is the record of the request: the [tenant_id] and [pelicula_datos] of
    a body that is a dict, and the UUID drawn in this invocation. *)
Theorem write_is_the_record (w : world) (event ctx : pyval)
  (tb : pystr) (it : pyval) (out : result pyval) :
  In (PutItem tb it out) (fst (lambda_handler w event ctx)) ->
  table_name w = Some tb /\
  dynamodb_Table w tb = Ok tt /\
  out = put_item w tb it /\
  exists d t p,
    _parse_event_body w event = Ok (PDict d) /\
    dict_get d (lit "tenant_id") = Some t /\
    dict_get d (lit "pelicula_datos") = Some p /\
    it = PDict [(lit "tenant_id", t);
                (lit "uuid", PStr (Uuid.uuid4_str (urandom16 w)));
                (lit "pelicula_datos", p)].
Proof.
  destruct (log_failure w (info_line (entry_datos event))) as [x|] eqn:Hentry.
  { rewrite (handler_of_entry_failure w event ctx x Hentry).
    intros []. }
  run_cases w event Ht; after_exit w event ctx Hentry Ht; intros Hin;
    no_put_in Hin.
  all: injection Hin as <- <- <-.
  all: apply getitem_ok_dict in Hg1 as (d & -> & Hd1).
  all: apply getitem_ok_dict in Hg2 as (d' & [= <-] & Hd2).
  all: split; [reflexivity|]; split; [assumption|].
  all: split; [now rewrite Hput|exists d, t, p; auto].
Qed.

(** X3.  A response with status 200 is returned only after the store
    accepted the write: the run then consists of the entry line, one
    accepted [put_item] and the success line, and the UUID is the same in
    the record written, in the line logged and in the response. *)
Theorem status_200_means_written (w : world) (event ctx : pyval)
  (r : response) :
  snd (lambda_handler w event ctx) = Ok r ->
  statusCode r = 200%Z ->
  exists tabla d t p resp st,
    let uuidv4 := Uuid.uuid4_str (urandom16 w) in
    let item := pelicula_item t uuidv4 p in
    table_name w = Some tabla /\
    _parse_event_body w event = Ok (PDict d) /\
    dict_get d (lit "tenant_id") = Some t /\
    dict_get d (lit "pelicula_datos") = Some p /\
    put_item w tabla item = Ok resp /\
    http_status resp = Ok st /\
    fst (lambda_handler w event ctx) =
      [entry_log event; PutItem tabla item (Ok resp);
       success_line tabla t uuidv4 st] /\
    r = success_response item st.
Proof.
  intros Hr Hs. revert Hr.
  destruct (log_failure w (info_line (entry_datos event))) as [x|] eqn:Hentry.
  { now rewrite (handler_of_entry_failure w event ctx x Hentry). }
  run_cases w event Ht; after_exit w event ctx Hentry Ht; cbn [fst snd];
    try discriminate;
    try (intros [= <-]; destruct (error_response_not_200 _ Hs));
    try (intros [= <-]; discriminate Hs).
  intros [= <-].
  apply getitem_ok_dict in Hg1 as (d & -> & Hd1).
  apply getitem_ok_dict in Hg2 as (d' & [= <-] & Hd2).
  exists tabla, d, t, p, resp, st. cbv zeta. auto 10.
Qed.

(** X4.  Every response that is not a success is logged before it is
    returned: the last effect of the run is an [ERROR] line that carries
    the text and the class name of the exception and the table name of
    the environment.  The response carries the same text only for the
    exceptions of the first [except] clause; for the others it carries
    the fixed message, and the text is in the log alone. *)
Theorem error_is_logged (w : world) (event ctx : pyval) (r : response) :
  snd (lambda_handler w event ctx) = Ok r ->
  statusCode r <> 200%Z ->
  exists tr e line datos,
    try_body w event [entry_log event] = (tr, Raise e) /\
    fst (lambda_handler w event ctx) = tr ++ [line] /\
    log_of line = Some (lit "ERROR", datos) /\
    dict_get datos (lit "mensaje") = Some (PStr (exc_str e)) /\
    dict_get datos (lit "tipo_error") = Some (PStr (exc_name e)) /\
    dict_get datos (lit "tabla") =
      Some (opt_str (environ_get w TABLE_ENV_NAME)) /\
    r = (if is_expected e then error_response e
         else internal_error_response e).
Proof.
  intros Hr Hs. revert Hr.
  destruct (log_failure w (info_line (entry_datos event))) as [x|] eqn:Hentry.
  { now rewrite (handler_of_entry_failure w event ctx x Hentry). }
  run_cases w event Ht; rewrite Ht;
    first
      [ rewrite (handler_of_return w event ctx Hentry _ _ Ht)
      | rewrite (handler_of_raise w event ctx Hentry _ _ Ht) ];
    cbn [fst snd];
    try (intros [= <-]; exfalso; apply Hs; reflexivity).
  all: destruct (is_expected _) eqn:Hexp;
    [ destruct (body_dbg w event);
      try destruct (log_failure w (error_line (expected_error_datos _ _ _)))
    | destruct (log_failure w (error_line (other_error_datos _ _))) ];
    cbn [fst snd]; try discriminate; intros [= <-].
  all: do 4 eexists; split; [reflexivity|]; split; [reflexivity|];
    rewrite ?Hexp; repeat split; reflexivity.
Qed.

(** ** Exceptions that leave the handler *)

(** For a body that is no dict, the [try] body fails on an exception of
    the first clause exactly when the table name is missing or one of
    the two membership tests answers no. *)
Lemma not_dict_failure (w : world) (event : pyval) (tr : list effect)
  (v : pyval) :
  _parse_event_body w event = Ok v -> is_dict v = false ->
  (forall tr' e, try_body w event tr = (tr', Raise e) ->
     is_expected e = true ->
     table_name w = None \/
     py_in (lit "tenant_id") v = Ok false \/
     py_in (lit "pelicula_datos") v = Ok false)
  /\
  (table_name w = None \/
   py_in (lit "tenant_id") v = Ok false \/
   py_in (lit "pelicula_datos") v = Ok false ->
   exists e, try_body w event tr = (tr, Raise e) /\ is_expected e = true).
Proof.
  intros Hp Hd.
  pose proof (try_body_eq w event tr) as Ht. rewrite Hp in Ht.
  destruct (table_name w) as [tabla|] eqn:Htab.
  2:{ split; [auto|]. intros _. eexists. split; [exact Ht|reflexivity]. }
  destruct (py_in (lit "tenant_id") v) as [[|]|e] eqn:Hin1.
  3:{ pose proof Hin1 as Hs. apply py_in_raises in Hs as [Hs He].
      split.
      - intros tr' e' Hr Hexp. rewrite Ht in Hr. injection Hr as _ <-.
        rewrite (not_expected e He) in Hexp. discriminate.
      - rewrite (py_in_scalar (lit "pelicula_datos") v Hs).
        intros [H|[H|H]]; discriminate. }
  2:{ split; [auto|]. intros _. eexists. split; [exact Ht|reflexivity]. }
  destruct (py_in (lit "pelicula_datos") v) as [[|]|e] eqn:Hin2.
  3:{ apply py_in_raises in Hin2 as [_ He]. split.
      - intros tr' e' Hr Hexp. rewrite Ht in Hr. injection Hr as _ <-.
        rewrite (not_expected e He) in Hexp. discriminate.
      - intros [H|[H|H]]; discriminate. }
  2:{ split; [auto|]. intros _. eexists. split; [exact Ht|reflexivity]. }
  destruct (py_getitem v (lit "tenant_id")) as [t|e] eqn:Hg1.
  { apply getitem_ok_dict in Hg1 as (d & -> & _). discriminate. }
  apply (py_getitem_raises_after_in _ _ _ Hin1) in Hg1 as [_ He].
  split.
  - intros tr' e' Hr Hexp. rewrite Ht in Hr. injection Hr as _ <-.
    rewrite (not_expected e He) in Hexp. discriminate.
  - intros [H|[H|H]]; discriminate.
Qed.

Lemma body_dbg_not_dict (w : world) (event v : pyval) :
  body_dbg w event = v -> is_dict v = false ->
  _parse_event_body w event = Ok v.
Proof.
  unfold body_dbg. destruct (_parse_event_body w event) as [v'|e].
  - now intros ->.
  - intros <-. discriminate.
Qed.

(** X5.  The handler lets an exception out in three situations only.
    The entry line cannot be written.  Or the body resolved from the
    event is a value that is no dict (the text of a JSON list, string,
    number, boolean or null under the [body] key) and the [try] body has
    failed on the missing table name or on a missing field: the
    exception is then the [AttributeError] of [.get] on that value.  Or
    the [try] body has failed and the [except] clause cannot write its
    [ERROR] line.  In every other run a response is returned. *)
Theorem escape_iff (w : world) (event ctx : pyval) (x : pyexc) :
  snd (lambda_handler w event ctx) = Raise x <->
  log_failure w (info_line (entry_datos event)) = Some x
  \/
  (log_failure w (info_line (entry_datos event)) = None /\
   exists v,
     _parse_event_body w event = Ok v /\ is_dict v = false /\
     x = attribute_error v /\
     (table_name w = None \/
      py_in (lit "tenant_id") v = Ok false \/
      py_in (lit "pelicula_datos") v = Ok false))
  \/
  (log_failure w (info_line (entry_datos event)) = None /\
   exists tr e,
     try_body w event [entry_log event] = (tr, Raise e) /\
     error_log_failure w event e = Some x).
Proof.
  destruct (log_failure w (info_line (entry_datos event))) as [y|] eqn:Hentry.
  { rewrite (handler_of_entry_failure w event ctx y Hentry). cbn [snd].
    split.
    - intros [= ->]. now left.
    - intros [[= ->]|[[[=] _]|[[=] _]]]. reflexivity. }
  destruct (try_body w event [entry_log event]) as [tr [r|e]] eqn:Ht.
  { rewrite (handler_of_return w event ctx Hentry _ _ Ht). cbn [snd].
    split; [discriminate|].
    intros [[=]|[(_ & v & Hp & Hd & _ & Hc)|(_ & tr' & e & [=] & _)]].
    destruct (proj2 (not_dict_failure w event [entry_log event] v Hp Hd) Hc)
      as (e & He & _).
    rewrite Ht in He. discriminate. }
  rewrite (handler_of_raise w event ctx Hentry _ _ Ht).
  assert (Hlog : error_log_failure w event e =
            if is_expected e then
              match body_dbg w event with
              | PDict d => log_failure w (error_line (expected_error_datos w e d))
              | _ => None
              end
            else log_failure w (error_line (other_error_datos w e)))
    by reflexivity.
  assert (HnotB : forall v,
            _parse_event_body w event = Ok v -> is_dict v = false ->
            (table_name w = None \/
             py_in (lit "tenant_id") v = Ok false \/
             py_in (lit "pelicula_datos") v = Ok false) ->
            is_expected e = true /\ body_dbg w event = v).
  { intros v Hp Hd Hc.
    destruct (proj2 (not_dict_failure w event [entry_log event] v Hp Hd) Hc)
      as (e' & He' & Hexp).
    rewrite Ht in He'. injection He' as _ <-.
    split; [exact Hexp|exact (body_dbg_ok _ _ _ Hp)]. }
  destruct (is_expected e) eqn:Hexp.
  - destruct (body_dbg w event) as [| | | | | |d] eqn:Hdbg.
    all: try (cbn [snd]; split;
      [ intros [= <-]; right; left; split; [reflexivity|];
        eexists; split; [exact (body_dbg_not_dict _ _ _ Hdbg eq_refl)|];
        split; [reflexivity|]; split; [reflexivity|];
        exact (proj1 (not_dict_failure w event [entry_log event] _
                 (body_dbg_not_dict _ _ _ Hdbg eq_refl) eq_refl)
                 _ _ Ht Hexp)
      | intros [[=]|[(_ & v & Hp & Hd & -> & Hc)|(_ & tr' & e' & Hr & Hl)]];
        [ destruct (HnotB v Hp Hd Hc) as [_ <-]; reflexivity
        | injection Hr as _ <-;
          rewrite Hlog in Hl; discriminate ] ]; fail).
    destruct (log_failure w (error_line (expected_error_datos w e d)))
      as [y|] eqn:Hl; cbn [snd].
    + split.
      * intros [= <-]. right. right. split; [reflexivity|].
        exists tr, e. split; [reflexivity|exact Hlog].
      * intros [[=]|[(_ & v & Hp & Hd & -> & Hc)|(_ & tr' & e' & Hr & Hl')]].
        -- destruct (HnotB v Hp Hd Hc) as [_ <-]. discriminate.
        -- injection Hr as _ <-.
           rewrite Hlog in Hl'. now injection Hl' as <-.
    + split; [discriminate|].
      intros [[=]|[(_ & v & Hp & Hd & -> & Hc)|(_ & tr' & e' & Hr & Hl')]].
      * destruct (HnotB v Hp Hd Hc) as [_ <-]. discriminate.
      * injection Hr as _ <-.
        rewrite Hlog in Hl'. discriminate.
  - destruct (log_failure w (error_line (other_error_datos w e)))
      as [y|] eqn:Hl; cbn [snd].
    + split.
      * intros [= <-]. right. right. split; [reflexivity|].
        exists tr, e. split; [reflexivity|exact Hlog].
      * intros [[=]|[(_ & v & Hp & Hd & -> & Hc)|(_ & tr' & e' & Hr & Hl')]].
        -- destruct (HnotB v Hp Hd Hc) as [? _]. discriminate.
        -- injection Hr as _ <-.
           rewrite Hlog in Hl'. now injection Hl' as <-.
    + split; [discriminate|].
      intros [[=]|[(_ & v & Hp & Hd & -> & Hc)|(_ & tr' & e' & Hr & Hl')]].
      * destruct (HnotB v Hp Hd Hc) as [? _]. discriminate.
      * injection Hr as _ <-.
        rewrite Hlog in Hl'. discriminate.
Qed.

(** ** Bodies that are no dict *)

(** X6.  With the table configured, a body that resolves to a JSON
    number, boolean or null fails the first membership test with a
    [TypeError]: nothing is written and, the two log entries written,
    the answer is 500 with the fixed message, not 400. *)
Theorem scalar_body_answers_500 (w : world) (event ctx : pyval)
  (tabla : pystr) (v : pyval) :
  table_name w = Some tabla ->
  log_failure w (info_line (entry_datos event)) = None ->
  _parse_event_body w event = Ok v ->
  is_scalar v = true ->
  log_failure w (error_line (other_error_datos w (not_iterable_error v)))
    = None ->
  snd (lambda_handler w event ctx) =
    Ok (mkresponse 500
          (json_dumps
             (PDict [(lit "error",
                      PDict [(lit "mensaje",
                              PStr (lit "Error interno inesperado."));
                             (lit "tipo_error", PStr (lit "TypeError"))])]))) /\
  no_write (fst (lambda_handler w event ctx)) = true.
Proof.
  intros Htab Hentry Hp Hs Hlog.
  pose proof (try_body_eq w event [entry_log event]) as Ht.
  rewrite Htab, Hp, (py_in_scalar _ v Hs) in Ht.
  rewrite (other_run w event ctx Hentry _ _ Ht eq_refl Hlog).
  split; reflexivity.
Qed.

(** X7.  With the table configured, a body that is no dict and passes
    both membership tests (a JSON string in which both names occur, a JSON
    list that holds both names) fails at the subscription with a
    [TypeError]: nothing is written and, the two log entries written,
    the answer is 500 with the fixed message. *)
Theorem names_without_dict_answer_500 (w : world) (event ctx : pyval)
  (tabla : pystr) (v : pyval) (e : pyexc) :
  table_name w = Some tabla ->
  log_failure w (info_line (entry_datos event)) = None ->
  _parse_event_body w event = Ok v ->
  is_dict v = false ->
  py_in (lit "tenant_id") v = Ok true ->
  py_in (lit "pelicula_datos") v = Ok true ->
  py_getitem v (lit "tenant_id") = Raise e ->
  log_failure w (error_line (other_error_datos w e)) = None ->
  snd (lambda_handler w event ctx) =
    Ok (mkresponse 500
          (json_dumps
             (PDict [(lit "error",
                      PDict [(lit "mensaje",
                              PStr (lit "Error interno inesperado."));
                             (lit "tipo_error", PStr (lit "TypeError"))])]))) /\
  no_write (fst (lambda_handler w event ctx)) = true.
Proof.
  intros Htab Hentry Hp Hd H1 H2 Hg Hlog.
  pose proof (try_body_eq w event [entry_log event]) as Ht.
  rewrite Htab, Hp, H1, H2, Hg in Ht.
  assert (He : exc_name e = lit "TypeError" /\ is_expected e = false).
  { destruct v; try discriminate; cbn [py_getitem] in Hg;
      injection Hg as <-; split; reflexivity. }
  destruct He as [Hn He].
  rewrite (other_run w event ctx Hentry _ _ Ht He).
  - unfold internal_error_response, error_body. rewrite Hn.
    split; reflexivity.
  - unfold error_log_failure. now rewrite He.
Qed.

(** X8.  An event that is no dict (a list, a string, a number, null)
    has the empty dict for body: nothing is written, and with the table
    configured and the two log entries written the answer is the 400 of
    the missing [tenant_id]. *)
Theorem event_not_a_dict (w : world) (event ctx : pyval) (tabla : pystr) :
  is_dict event = false ->
  table_name w = Some tabla ->
  log_failure w (info_line (entry_datos event)) = None ->
  log_failure w
    (error_line (expected_error_datos w missing_tenant_error [])) = None ->
  _parse_event_body w event = Ok (PDict []) /\
  snd (lambda_handler w event ctx) =
    Ok (mkresponse 400
          (json_dumps
             (PDict [(lit "error",
                      PDict [(lit "mensaje",
                              PStr ([34%N] ++ lit "Falta 'tenant_id' en el body."
                                    ++ [34%N]));
                             (lit "tipo_error", PStr (lit "KeyError"))])]))) /\
  no_write (fst (lambda_handler w event ctx)) = true.
Proof.
  intros Hd Htab Hentry Hlog.
  assert (Hp : _parse_event_body w event = Ok (PDict []))
    by (destruct event; try discriminate; reflexivity).
  pose proof (try_body_eq w event [entry_log event]) as Ht.
  rewrite Htab, Hp in Ht. cbn in Ht.
  rewrite (early_error_run w event ctx _ [] Hentry Ht eq_refl
             (body_dbg_ok _ _ _ Hp) Hlog).
  split; [exact Hp|]. split; reflexivity.
Qed.

(** ** What a run depends on *)

Lemma entrada_relevante_agree (d1 d2 : list (pystr * pyval)) :
  dict_get d1 (lit "tenant_id") = dict_get d2 (lit "tenant_id") ->
  dict_get d1 (lit "pelicula_datos") = dict_get d2 (lit "pelicula_datos") ->
  entrada_relevante d1 = entrada_relevante d2.
Proof. unfold entrada_relevante. now intros -> ->. Qed.

Ltac split_log w :=
  match goal with
  | |- context [match log_failure w ?l with _ => _ end] =>
      destruct (log_failure w l)
  end.

Ltac split_exits T1 :=
  repeat match type of T1 with
         | context [match ?x with _ => _ end] => destruct x eqn:?
         end.

(** X9.  Once the entry line, which prints the event itself, is
    written, a run depends on the event through its resolved body only,
    and for a body that is a dict through its [tenant_id] and
    [pelicula_datos] only: two events that carry the same request give
    the same response (or the same exception) and the same effects after
    the entry line.  So the three forms of an envelope are
    interchangeable, and after the entry line the other fields of a body
    are never read, written or logged. *)
Theorem same_request_same_run (w : world) (e1 e2 c1 c2 : pyval) :
  log_failure w (info_line (entry_datos e1)) = None ->
  log_failure w (info_line (entry_datos e2)) = None ->
  same_request w e1 e2 ->
  snd (lambda_handler w e1 c1) = snd (lambda_handler w e2 c2) /\
  tl (fst (lambda_handler w e1 c1)) = tl (fst (lambda_handler w e2 c2)).
Proof.
  unfold same_request. intros L1 L2 H.
  pose proof (try_body_eq w e1 [entry_log e1]) as T1.
  pose proof (try_body_eq w e2 [entry_log e2]) as T2.
  assert (Hdbg : match body_dbg w e1, body_dbg w e2 with
                 | PDict d1, PDict d2 =>
                     entrada_relevante d1 = entrada_relevante d2
                 | v1, v2 => v1 = v2
                 end).
  { unfold body_dbg.
    destruct (_parse_event_body w e1) as [[]|];
      destruct (_parse_event_body w e2) as [[]|];
      try discriminate; try (injection H as <-); try reflexivity.
    destruct H. now apply entrada_relevante_agree. }
  assert (HT : forall tr1 tr2 r1 r2,
            try_body w e1 [entry_log e1] = (entry_log e1 :: tr1, r1) ->
            try_body w e2 [entry_log e2] = (entry_log e2 :: tr2, r2) ->
            tr1 = tr2 -> r1 = r2 ->
            snd (lambda_handler w e1 c1) = snd (lambda_handler w e2 c2) /\
            tl (fst (lambda_handler w e1 c1)) =
            tl (fst (lambda_handler w e2 c2))).
  { intros tr1 tr2 r1 r2 H1 H2 <- <-. destruct r1 as [r|e].
    - rewrite (handler_of_return w e1 c1 L1 _ _ H1).
      rewrite (handler_of_return w e2 c2 L2 _ _ H2). split; reflexivity.
    - rewrite (handler_of_raise w e1 c1 L1 _ _ H1).
      rewrite (handler_of_raise w e2 c2 L2 _ _ H2).
      destruct (is_expected e).
      2:{ split_log w; split; reflexivity. }
      unfold expected_error_line, expected_error_datos.
      destruct (body_dbg w e1); destruct (body_dbg w e2);
        try discriminate; try (injection Hdbg as <-);
        try (split; reflexivity).
      rewrite Hdbg. split_log w; split; reflexivity. }
  clear Hdbg.
  destruct (_parse_event_body w e1) as [v1|x1] eqn:P1;
    destruct (_parse_event_body w e2) as [v2|x2] eqn:P2.
  - assert (Hin : forall k, k = lit "tenant_id" \/ k = lit "pelicula_datos" ->
                py_in k v1 = py_in k v2 /\ py_getitem v1 k = py_getitem v2 k).
    { destruct v1; destruct v2; try discriminate;
        try (injection H as <-); try (intros; split; reflexivity).
      destruct H as [Ha Hb]. intros k [-> | ->]; cbn; rewrite ?Ha, ?Hb;
        split; reflexivity. }
    destruct (Hin (lit "tenant_id")) as [Ha Hb]; [now left|].
    destruct (Hin (lit "pelicula_datos")) as [Hc Hd]; [now right|].
    rewrite Ha, Hb, Hc, Hd in T1. clear Ha Hb Hc Hd Hin H.
    cbv zeta in T1, T2.
    split_exits T1; cbn [app] in T1, T2;
      apply (HT _ _ _ _ T1 T2); reflexivity.
  - destruct v1; discriminate.
  - destruct v2; discriminate.
  - injection H as <-. cbv zeta in T1, T2.
    split_exits T1; cbn [app] in T1, T2; apply (HT _ _ _ _ T1 T2); reflexivity.
Qed.

(** ** Blank strings and the decoder *)

Lemma isspace_range (c : N) :
  isspace c = true -> (c <= 32 \/ 133 <= c <= 12288)%N.
Proof.
  unfold isspace.
  rewrite !orb_true_iff, !andb_true_iff, !N.leb_le, !N.eqb_eq. lia.
Qed.

Lemma lstrip_nil (s : pystr) : lstrip s = [] -> forallb isspace s = true.
Proof.
  induction s as [|c s IH]; simpl; [reflexivity|].
  destruct (isspace c); [exact IH|discriminate].
Qed.

Lemma lstrip_head (s : pystr) (c : N) (r : pystr) :
  lstrip s = c :: r -> isspace c = false.
Proof.
  induction s as [|x s IH]; simpl; [discriminate|].
  destruct (isspace x) eqn:E; [exact IH|]. now intros [= <- _].
Qed.

(** A string whose [strip()] is empty is made of whitespace. *)
Lemma strip_nil (s : pystr) : strip s = [] -> forallb isspace s = true.
Proof.
  unfold strip. intros H.
  apply (f_equal (@rev N)) in H. rewrite rev_involutive in H. simpl in H.
  apply lstrip_nil in H.
  destruct (lstrip s) as [|c r] eqn:E; [now apply lstrip_nil|].
  apply lstrip_head in E.
  rewrite forallb_forall in H. rewrite H in E; [discriminate|].
  apply in_rev. rewrite rev_involutive. now left.
Qed.

Lemma skip_ws_suffix (s : pystr) :
  forallb isspace s = true -> forallb isspace (Json.skip_ws s) = true.
Proof.
  induction s as [|c s IH]; simpl; [reflexivity|].
  intros H. apply andb_true_iff in H as [Hc Hs].
  destruct (Json.is_ws c); [now apply IH|]. simpl. now rewrite Hc, Hs.
Qed.

Lemma startswith_other (k : N) (p : pystr) (c : N) (r : pystr) :
  N.eqb k c = false -> startswith (k :: p) (c :: r) = false.
Proof. simpl. now intros ->. Qed.

(** No JSON value starts with a whitespace character. *)
Lemma scan_once_space (max_digits fuel room : nat) (c : N) (r : pystr) :
  isspace c = true ->
  Json.scan_once max_digits (S fuel) room (c :: r) = Json.PErr.
Proof.
  intros Hc. apply isspace_range in Hc.
  assert (Hne : forall k, (33 <= k <= 132)%N -> N.eqb c k = false)
    by (intros k Hk; apply N.eqb_neq; lia).
  assert (Hst : forall k p, (33 <= k <= 132)%N ->
            startswith (k :: p) (c :: r) = false).
  { intros k p Hk. apply startswith_other. apply N.eqb_neq. lia. }
  assert (Hd : Json.is_digit c = false).
  { unfold Json.is_digit. apply andb_false_iff. rewrite !N.leb_gt. lia. }
  cbn [Json.scan_once].
  rewrite (Hne 34%N), (Hne 123%N), (Hne 91%N) by lia.
  change (lit "null") with (110%N :: lit "ull").
  change (lit "true") with (116%N :: lit "rue").
  change (lit "false") with (102%N :: lit "alse").
  change (lit "NaN") with (78%N :: lit "aN").
  change (lit "Infinity") with (73%N :: lit "nfinity").
  change (lit "-Infinity") with (45%N :: lit "Infinity").
  rewrite !Hst by lia.
  unfold Json.match_number, Json.match_integer.
  rewrite (Hne 45%N), (Hne 48%N), Hd by lia.
  reflexivity.
Qed.

(** X10.  The test [body.strip()] only sets aside strings that the
    decoder refuses: a string whose [strip()] is empty is never a valid
    JSON document, whatever the limits of the interpreter.  So every
    body string that is valid JSON resolves to its decoding. *)
Theorem blank_is_never_json (max_digits depth : nat) (s : pystr) :
  strip s = [] -> Json.loads max_digits depth s = Json.Malformed.
Proof.
  intros H. apply strip_nil in H. unfold Json.loads.
  assert (Hbom : startswith [65279%N] s = false).
  { destruct s as [|c r]; [reflexivity|]. cbn [forallb] in H.
    apply andb_true_iff in H as [Hc _]. apply isspace_range in Hc.
    apply startswith_other. apply N.eqb_neq. lia. }
  rewrite Hbom. apply skip_ws_suffix in H.
  unfold Json.loads_fuel. rewrite Nat.add_comm. cbn [Nat.add].
  destruct (Json.skip_ws s) as [|c r]; [reflexivity|].
  cbn [forallb] in H. apply andb_true_iff in H as [Hc _].
  now rewrite (scan_once_space _ _ _ c r Hc).
Qed.


(** ** The UUID and the random source *)

Lemma uuid4_int_as_bits (r : Z) :
  Uuid.uuid4_int (Z.land r (Z.ones 128)) =
  Z.lor (Uuid.random_bits r) forced_bits.
Proof.
  unfold Uuid.uuid4_int, Uuid.random_bits, forced_bits.
  rewrite !Z.land_lor_distr_l, <- !Z.land_assoc, <- Z.lor_assoc.
  reflexivity.
Qed.

Lemma uuid4_str_same_bits (r1 r2 : Z) :
  (0 <= r1 < 2 ^ 128)%Z -> (0 <= r2 < 2 ^ 128)%Z ->
  Uuid.random_bits r1 = Uuid.random_bits r2 ->
  Uuid.uuid4_str r1 = Uuid.uuid4_str r2.
Proof.
  intros H1 H2 Hb. unfold Uuid.uuid4_str. f_equal.
  assert (E : forall r, (0 <= r < 2 ^ 128)%Z -> Z.land r (Z.ones 128) = r)
    by (intros r Hr; rewrite Z.land_ones by lia; apply Z.mod_small; exact Hr).
  rewrite <- (E r1 H1), <- (E r2 H2), !uuid4_int_as_bits. now rewrite Hb.
Qed.

(** X12.  Two successful calls return the same UUID exactly when their
    draws of 16 random bytes agree on the 122 bits that [uuid4] keeps:
    the handler adds no source of collision and no protection against
    one. *)
Theorem same_uuid_iff (w1 w2 : world) (ev1 ev2 c1 c2 : pyval)
  (r1 r2 : response) :
  snd (lambda_handler w1 ev1 c1) = Ok r1 -> statusCode r1 = 200%Z ->
  snd (lambda_handler w2 ev2 c2) = Ok r2 -> statusCode r2 = 200%Z ->
  (0 <= urandom16 w1 < 2 ^ 128)%Z -> (0 <= urandom16 w2 < 2 ^ 128)%Z ->
  (response_uuid r1 = response_uuid r2 <->
   Uuid.random_bits (urandom16 w1) = Uuid.random_bits (urandom16 w2)).
Proof.
  intros H1 S1 H2 S2 B1 B2.
  rewrite (status_200_uuid w1 ev1 c1 r1 H1 S1).
  rewrite (status_200_uuid w2 ev2 c2 r2 H2 S2).
  split.
  - intros H. apply some_pstr_inj in H.
    destruct (Z.eq_dec (Uuid.random_bits (urandom16 w1))
                       (Uuid.random_bits (urandom16 w2))) as [E|E];
      [exact E|].
    destruct (uuid4_str_distinct _ _ E H).
  - intros H. now rewrite (uuid4_str_same_bits _ _ B1 B2 H).
Qed.

(** ** The status the store reports *)

Lemma http_status_reported (rd : list (pystr * pyval)) :
  (dict_get rd (lit "ResponseMetadata") = None \/
   exists md, dict_get rd (lit "ResponseMetadata") = Some (PDict md)) ->
  http_status (PDict rd) = Ok (reported_status rd).
Proof.
  unfold http_status, reported_status. cbn [py_get].
  intros [H|[md H]]; rewrite H; reflexivity.
Qed.

(** X13.  The status code of a success is 200 whatever status the
    store reported for the write; the reported status is only copied
    into the body, as [null] when the response of the store has no
    [ResponseMetadata] or no [HTTPStatusCode]. *)
Theorem store_status_is_echoed (w : world) (event ctx : pyval)
  (tabla : pystr) (d rd : list (pystr * pyval)) (t p : pyval) :
  table_name w = Some tabla ->
  log_failure w (info_line (entry_datos event)) = None ->
  _parse_event_body w event = Ok (PDict d) ->
  dict_get d (lit "tenant_id") = Some t ->
  dict_get d (lit "pelicula_datos") = Some p ->
  let uuidv4 := Uuid.uuid4_str (urandom16 w) in
  let item := PDict [(lit "tenant_id", t);
                     (lit "uuid", PStr uuidv4);
                     (lit "pelicula_datos", p)] in
  dynamodb_Table w tabla = Ok tt ->
  put_item w tabla item = Ok (PDict rd) ->
  (dict_get rd (lit "ResponseMetadata") = None \/
   exists md, dict_get rd (lit "ResponseMetadata") = Some (PDict md)) ->
  log_failure w
    (info_line (success_datos tabla t uuidv4 (reported_status rd))) = None ->
  body_failure w (success_value item (reported_status rd)) = None ->
  snd (lambda_handler w event ctx) =
    Ok (mkresponse 200
          (json_dumps
             (PDict [(lit "pelicula", item);
                     (lit "response",
                      PDict [(lit "http_status", reported_status rd)])]))).
Proof.
  intros Htab Hentry Hp H1 H2 uuidv4 item HT Hput Hmd Hlog Hbody.
  pose proof (try_body_eq w event [entry_log event]) as Ht.
  rewrite Htab, Hp in Ht. cbn [py_in py_getitem] in Ht.
  rewrite H1, H2 in Ht. cbv zeta in Ht.
  change (pelicula_item t (Uuid.uuid4_str (urandom16 w)) p) with item in Ht.
  fold uuidv4 in Ht.
  rewrite HT, Hput, (http_status_reported rd Hmd), Hlog, Hbody in Ht.
  rewrite (handler_of_return w event ctx Hentry _ _ Ht). reflexivity.
Qed.

(** ** No table name *)

(** X14.  With the table name unset or empty, the body is not looked
    at before the answer is decided: nothing is written, and whenever
    the handler returns, it returns the 400 of the [RuntimeError], also
    for a body that is malformed or lacks a field. *)
Theorem without_table_name (w : world) (event ctx : pyval) :
  table_name w = None ->
  no_write (fst (lambda_handler w event ctx)) = true /\
  forall r,
    snd (lambda_handler w event ctx) = Ok r ->
    r = mkresponse 400
          (error_body (lit "Variable de entorno 'TABLE_NAME' no definida.")
                      (lit "RuntimeError")).
Proof.
  intros Htab.
  destruct (log_failure w (info_line (entry_datos event))) as [x|] eqn:Hentry.
  { rewrite (handler_of_entry_failure w event ctx x Hentry).
    split; [reflexivity|discriminate]. }
  pose proof (try_body_eq w event [entry_log event]) as Ht.
  rewrite Htab in Ht.
  rewrite (handler_of_raise w event ctx Hentry _ _ Ht).
  change (is_expected missing_table_error) with true. cbv iota.
  destruct (body_dbg w event); try split_log w; cbn [fst snd]; split;
    try reflexivity; try discriminate.
  now intros r [= <-].
Qed.

(** ** Failures of the store, and the shape of every response *)

(** X15.  When [put_item] raises, whatever the exception, the handler
    does not try again, and it does not let the exception out when the
    [except] clause can write its [ERROR] line: the run is the entry
    line, that one call and the [ERROR] line, and the response is the
    400 or 500 of the first [except] clause for a [ClientError],
    [ValueError], [KeyError] or [RuntimeError], with the text of the
    exception, the 500 with the fixed message for any other exception. *)
Theorem store_exception_is_answered (w : world) (event ctx : pyval)
  (tb : pystr) (it : pyval) (e : pyexc) :
  In (PutItem tb it (Raise e)) (fst (lambda_handler w event ctx)) ->
  error_log_failure w event e = None ->
  exists line datos,
    lambda_handler w event ctx =
    ([entry_log event; PutItem tb it (Raise e); line],
     Ok (mkresponse
           (if is_expected e
            then if is_validation e then 400%Z else 500%Z
            else 500%Z)
           (json_dumps
              (PDict [(lit "error",
                       PDict [(lit "mensaje",
                               PStr (if is_expected e then exc_str e
                                     else lit "Error interno inesperado."));
                              (lit "tipo_error", PStr (exc_name e))])])))) /\
    log_of line = Some (lit "ERROR", datos).
Proof.
  intros Hin Hlog.
  destruct (write_course w event ctx tb it (Raise e) Hin)
    as (Hentry & Htab & HT & Hput & d & t & p & Hp & H1 & H2 & ->).
  pose proof (try_body_eq w event [entry_log event]) as Ht.
  rewrite Htab, Hp in Ht. cbn [py_in py_getitem] in Ht.
  rewrite H1, H2 in Ht. cbv zeta in Ht. rewrite HT, <- Hput in Ht.
  destruct (is_expected e) eqn:He.
  - rewrite (expected_run w event ctx Hentry e _ d Ht He
               (body_dbg_ok _ _ _ Hp) Hlog).
    eexists _, _. split; reflexivity.
  - rewrite (other_run w event ctx Hentry e _ Ht He Hlog).
    eexists _, _. split; reflexivity.
Qed.

(** X16.  Whenever the handler returns, the response has one of two
    shapes: status 200 with a body that holds, under [pelicula], a
    record of [tenant_id], [uuid] and [pelicula_datos] and, under
    [response], the status of the store; or status 400 or 500 with a
    body that holds an [error] made of the two strings [mensaje] and
    [tipo_error]. *)
Theorem response_shape (w : world) (event ctx : pyval) (r : response) :
  snd (lambda_handler w event ctx) = Ok r ->
  (statusCode r = 200%Z /\
   exists t u p st,
     body r = json_dumps
                (PDict [(lit "pelicula",
                         PDict [(lit "tenant_id", t);
                                (lit "uuid", PStr u);
                                (lit "pelicula_datos", p)]);
                        (lit "response", PDict [(lit "http_status", st)])]))
  \/
  ((statusCode r = 400%Z \/ statusCode r = 500%Z) /\
   exists mensaje tipo_error,
     body r = json_dumps
                (PDict [(lit "error",
                         PDict [(lit "mensaje", PStr mensaje);
                                (lit "tipo_error", PStr tipo_error)])])).
Proof.
  destruct (log_failure w (info_line (entry_datos event))) as [x|] eqn:Hentry.
  { now rewrite (handler_of_entry_failure w event ctx x Hentry). }
  run_cases w event Ht; after_exit w event ctx Hentry Ht; cbn [snd];
    try discriminate; intros [= <-].
  all: try (left; split; [reflexivity|]; eexists _, _, _, _; reflexivity).
  all: right; split;
    [ try (right; reflexivity); unfold error_response;
      destruct (is_validation _); cbn; auto
    | eexists _, _; reflexivity ].
Qed.

(** ** The table handle, and what the log keeps of the request *)

(** X17.  When [Table] raises for a request that has both fields,
    [put_item] is not called: with the [ERROR] line written, the run is
    the entry line and that line, and the exception is answered as any
    other. *)
Theorem table_failure_writes_nothing (w : world) (event ctx : pyval)
  (tabla : pystr) (d : list (pystr * pyval)) (t p : pyval) (e : pyexc) :
  table_name w = Some tabla ->
  log_failure w (info_line (entry_datos event)) = None ->
  _parse_event_body w event = Ok (PDict d) ->
  dict_get d (lit "tenant_id") = Some t ->
  dict_get d (lit "pelicula_datos") = Some p ->
  dynamodb_Table w tabla = Raise e ->
  error_log_failure w event e = None ->
  snd (lambda_handler w event ctx) =
    Ok (mkresponse
          (if is_expected e
           then if is_validation e then 400%Z else 500%Z
           else 500%Z)
          (json_dumps
             (PDict [(lit "error",
                      PDict [(lit "mensaje",
                              PStr (if is_expected e then exc_str e
                                    else lit "Error interno inesperado."));
                             (lit "tipo_error", PStr (exc_name e))])]))) /\
  no_write (fst (lambda_handler w event ctx)) = true /\
  List.length (fst (lambda_handler w event ctx)) = 2%nat.
Proof.
  intros Htab Hentry Hp H1 H2 HT Hlog.
  pose proof (try_body_eq w event [entry_log event]) as Ht.
  rewrite Htab, Hp in Ht. cbn [py_in py_getitem] in Ht.
  rewrite H1, H2 in Ht. cbv zeta in Ht. rewrite HT in Ht.
  destruct (is_expected e) eqn:He.
  - rewrite (expected_run w event ctx Hentry e _ d Ht He
               (body_dbg_ok _ _ _ Hp) Hlog).
    repeat split; reflexivity.
  - rewrite (other_run w event ctx Hentry e _ Ht He Hlog).
    repeat split; reflexivity.
Qed.

(** X18.  Of the request, the [ERROR] line of the first [except]
    clause keeps the [tenant_id] of the body parsed again ([null] when
    there is none) and whether [pelicula_datos] is there, not
    [pelicula_datos] itself; that body is the empty dict when the parse
    fails.  The [ERROR] line of the second clause keeps nothing of the
    request. *)
Theorem error_line_request_summary (w : world) (event ctx : pyval)
  (tr : list effect) (e : pyexc) (d : list (pystr * pyval)) :
  log_failure w (info_line (entry_datos event)) = None ->
  try_body w event [entry_log event] = (tr, Raise e) ->
  body_dbg w event = PDict d ->
  error_log_failure w event e = None ->
  exists line datos,
    fst (lambda_handler w event ctx) = tr ++ [line] /\
    log_of line = Some (lit "ERROR", datos) /\
    dict_get datos (lit "entrada_relevante") =
      (if is_expected e
       then Some (PDict
              [(lit "tenant_id",
                match dict_get d (lit "tenant_id") with
                | Some x => x
                | None => PNone
                end);
               (lit "tiene_pelicula_datos",
                PBool (match dict_get d (lit "pelicula_datos") with
                       | Some _ => true
                       | None => false
                       end))])
       else None).
Proof.
  intros Hentry Ht Hd Hlog.
  destruct (is_expected e) eqn:He.
  - rewrite (expected_run w event ctx Hentry e tr d Ht He Hd Hlog).
    do 2 eexists. split; [reflexivity|]. split; reflexivity.
  - rewrite (other_run w event ctx Hentry e tr Ht He Hlog).
    do 2 eexists. split; [reflexivity|]. split; reflexivity.
Qed.

(* ================================================================== *)
(** * The further properties on sample invocations *)
(* ================================================================== *)

(** X2 on the first example: the one write is the record of the
    request, to the table of the environment. *)
Lemma write_is_the_record_witness :
  table_name Sample.w_ok = Some (lit "peliculas") /\
  dynamodb_Table Sample.w_ok (lit "peliculas") = Ok tt /\
  Ok Sample.store_response =
    put_item Sample.w_ok (lit "peliculas") Sample.item_valid /\
  exists d t p,
    _parse_event_body Sample.w_ok Sample.ev_valid = Ok (PDict d) /\
    dict_get d (lit "tenant_id") = Some t /\
    dict_get d (lit "pelicula_datos") = Some p /\
    Sample.item_valid =
      PDict [(lit "tenant_id", t);
             (lit "uuid", PStr (Uuid.uuid4_str (urandom16 Sample.w_ok)));
             (lit "pelicula_datos", p)].
Proof.
  apply (write_is_the_record Sample.w_ok Sample.ev_valid PNone).
  vm_compute. right. left. reflexivity.
Defined.

(** X3 on the first example. *)
Lemma status_200_means_written_witness :
  exists tabla d t p resp st,
    let uuidv4 := Uuid.uuid4_str (urandom16 Sample.w_ok) in
    let item := pelicula_item t uuidv4 p in
    table_name Sample.w_ok = Some tabla /\
    _parse_event_body Sample.w_ok Sample.ev_valid = Ok (PDict d) /\
    dict_get d (lit "tenant_id") = Some t /\
    dict_get d (lit "pelicula_datos") = Some p /\
    put_item Sample.w_ok tabla item = Ok resp /\
    http_status resp = Ok st /\
    fst (lambda_handler Sample.w_ok Sample.ev_valid PNone) =
      [entry_log Sample.ev_valid; PutItem tabla item (Ok resp);
       success_line tabla t uuidv4 st] /\
    success_response Sample.item_valid (PInt 200) = success_response item st.
Proof.
  apply (status_200_means_written Sample.w_ok Sample.ev_valid PNone
           (success_response Sample.item_valid (PInt 200))).
  - vm_compute. reflexivity.
  - reflexivity.
Defined.

(** X4 on the second example: the missing field is logged. *)
Lemma error_is_logged_witness :
  exists tr e line datos,
    try_body Sample.w_ok Sample.ev_only_tenant
      [entry_log Sample.ev_only_tenant] = (tr, Raise e) /\
    fst (lambda_handler Sample.w_ok Sample.ev_only_tenant PNone) =
      tr ++ [line] /\
    log_of line = Some (lit "ERROR", datos) /\
    dict_get datos (lit "mensaje") = Some (PStr (exc_str e)) /\
    dict_get datos (lit "tipo_error") = Some (PStr (exc_name e)) /\
    dict_get datos (lit "tabla") =
      Some (opt_str (environ_get Sample.w_ok TABLE_ENV_NAME)) /\
    error_response missing_datos_error =
      (if is_expected e then error_response e
       else internal_error_response e).
Proof.
  apply (error_is_logged Sample.w_ok Sample.ev_only_tenant PNone
           (error_response missing_datos_error)).
  - vm_compute. reflexivity.
  - discriminate.
Defined.

(** X5 on the envelope whose body is the text of a list, and on the
    body whose [tenant_id] is a lone surrogate. *)
Lemma escape_iff_witness :
  snd (lambda_handler Sample.w_ok Sample.ev_list_body PNone) =
    Raise (attribute_error (PList [])) /\
  snd (lambda_handler Sample.w_ok Sample.ev_surrogate_tenant PNone) =
    Raise Sample.encode_error.
Proof.
  split.
  - apply (proj2 (escape_iff Sample.w_ok Sample.ev_list_body PNone
                    (attribute_error (PList [])))).
    right. left. split; [reflexivity|]. exists (PList []).
    split; [reflexivity|]. split; [reflexivity|]. split; [reflexivity|].
    right. left. reflexivity.
  - apply (proj2 (escape_iff Sample.w_ok Sample.ev_surrogate_tenant PNone
                    Sample.encode_error)).
    right. right. split; [reflexivity|].
    exists [entry_log Sample.ev_surrogate_tenant;
            PutItem (lit "peliculas") Sample.item_surrogate
              (Ok Sample.store_response)],
           Sample.encode_error.
    split; vm_compute; reflexivity.
Defined.

(** X6 on a body that is the text of a number. *)
Lemma scalar_body_answers_500_witness :
  snd (lambda_handler Sample.w_ok Sample.ev_number_body PNone) =
    Ok (mkresponse 500
          (json_dumps
             (PDict [(lit "error",
                      PDict [(lit "mensaje",
                              PStr (lit "Error interno inesperado."));
                             (lit "tipo_error", PStr (lit "TypeError"))])]))) /\
  no_write (fst (lambda_handler Sample.w_ok Sample.ev_number_body PNone))
  = true.
Proof.
  apply (scalar_body_answers_500 Sample.w_ok Sample.ev_number_body PNone
           (lit "peliculas") (PInt 5)); reflexivity.
Defined.

(** X7 on a body that is the text of a string holding both names. *)
Lemma names_without_dict_answer_500_witness :
  snd (lambda_handler Sample.w_ok Sample.ev_names_body PNone) =
    Ok (mkresponse 500
          (json_dumps
             (PDict [(lit "error",
                      PDict [(lit "mensaje",
                              PStr (lit "Error interno inesperado."));
                             (lit "tipo_error", PStr (lit "TypeError"))])]))) /\
  no_write (fst (lambda_handler Sample.w_ok Sample.ev_names_body PNone)) = true.
Proof.
  apply (names_without_dict_answer_500 Sample.w_ok Sample.ev_names_body PNone
           (lit "peliculas") (PStr (lit "tenant_id pelicula_datos"))
           (new_TypeError (lit "string indices must be integers, not 'str'")));
    reflexivity.
Defined.

(** X8 on an event that is a list. *)
Lemma event_not_a_dict_witness :
  _parse_event_body Sample.w_ok (PList []) = Ok (PDict []) /\
  snd (lambda_handler Sample.w_ok (PList []) PNone) =
    Ok (mkresponse 400
          (json_dumps
             (PDict [(lit "error",
                      PDict [(lit "mensaje",
                              PStr ([34%N] ++ lit "Falta 'tenant_id' en el body."
                                    ++ [34%N]));
                             (lit "tipo_error", PStr (lit "KeyError"))])]))) /\
  no_write (fst (lambda_handler Sample.w_ok (PList []) PNone)) = true.
Proof.
  apply (event_not_a_dict Sample.w_ok (PList []) PNone (lit "peliculas"));
    reflexivity.
Defined.

(** X9 on the three forms of the first example, and on a body with one
    more field. *)
Lemma same_request_same_run_witness :
  snd (lambda_handler Sample.w_ok Sample.ev_text_body PNone) =
    snd (lambda_handler Sample.w_ok Sample.ev_valid PNone) /\
  snd (lambda_handler Sample.w_ok Sample.ev_top_level PNone) =
    snd (lambda_handler Sample.w_ok Sample.ev_valid PNone) /\
  tl (fst (lambda_handler Sample.w_ok Sample.ev_extra_field PNone)) =
    tl (fst (lambda_handler Sample.w_ok Sample.ev_valid PNone)).
Proof.
  split; [|split].
  - apply (same_request_same_run Sample.w_ok Sample.ev_text_body
             Sample.ev_valid PNone PNone); try reflexivity.
    vm_compute. split; reflexivity.
  - apply (same_request_same_run Sample.w_ok Sample.ev_top_level
             Sample.ev_valid PNone PNone); try reflexivity.
    vm_compute. split; reflexivity.
  - apply (same_request_same_run Sample.w_ok Sample.ev_extra_field
             Sample.ev_valid PNone PNone); try reflexivity.
    vm_compute. split; reflexivity.
Defined.

(** X10 on a space, a tab, a newline and a vertical tab, with the
    default limit on digits and room for one container. *)
Lemma blank_is_never_json_witness :
  Json.loads 4300 1 [32; 9; 10; 11]%N = Json.Malformed.
Proof. apply blank_is_never_json. reflexivity. Defined.


(** X12 on two calls with two draws. *)
Lemma same_uuid_iff_witness :
  response_uuid (success_response Sample.item_valid (PInt 200)) =
  response_uuid
    (success_response
       (pelicula_item (PStr (lit "t1"))
          (Uuid.uuid4_str (urandom16 Sample.w_ok')) Sample.titulo_x)
       (PInt 200))
  <->
  Uuid.random_bits (urandom16 Sample.w_ok) =
  Uuid.random_bits (urandom16 Sample.w_ok').
Proof.
  apply (same_uuid_iff Sample.w_ok Sample.w_ok'
           Sample.ev_valid Sample.ev_valid PNone PNone).
  - vm_compute. reflexivity.
  - reflexivity.
  - vm_compute. reflexivity.
  - reflexivity.
  - vm_compute. split; [discriminate|reflexivity].
  - vm_compute. split; [discriminate|reflexivity].
Defined.

(** X13 on a store that answers with an empty response. *)
Lemma store_status_is_echoed_witness :
  snd (lambda_handler Sample.w_bare Sample.ev_valid PNone) =
  Ok (mkresponse 200
        (json_dumps
           (PDict [(lit "pelicula", Sample.item_valid);
                   (lit "response", PDict [(lit "http_status", PNone)])]))).
Proof.
  apply (store_status_is_echoed Sample.w_bare Sample.ev_valid PNone
           (lit "peliculas")
           [(lit "tenant_id", PStr (lit "t1"));
            (lit "pelicula_datos", Sample.titulo_x)]
           [] (PStr (lit "t1")) Sample.titulo_x);
    try reflexivity.
  left. reflexivity.
Defined.

(** X14 on an empty table name and a malformed body. *)
Lemma without_table_name_witness :
  no_write
    (fst (lambda_handler Sample.w_empty_table Sample.ev_malformed_body PNone))
  = true /\
  forall r,
    snd (lambda_handler Sample.w_empty_table Sample.ev_malformed_body PNone)
    = Ok r ->
    r = mkresponse 400
          (error_body (lit "Variable de entorno 'TABLE_NAME' no definida.")
                      (lit "RuntimeError")).
Proof.
  apply (without_table_name Sample.w_empty_table Sample.ev_malformed_body
           PNone).
  reflexivity.
Defined.

(** X15 on a throttled table. *)
Lemma store_exception_is_answered_witness :
  exists line datos,
    lambda_handler Sample.w_throttled Sample.ev_valid PNone =
    ([entry_log Sample.ev_valid;
      PutItem (lit "peliculas") Sample.item_valid (Raise Sample.throttled);
      line],
     Ok (mkresponse
           (if is_expected Sample.throttled
            then if is_validation Sample.throttled then 400%Z else 500%Z
            else 500%Z)
           (json_dumps
              (PDict [(lit "error",
                       PDict [(lit "mensaje",
                               PStr (if is_expected Sample.throttled
                                     then exc_str Sample.throttled
                                     else lit "Error interno inesperado."));
                              (lit "tipo_error",
                               PStr (exc_name Sample.throttled))])])))) /\
    log_of line = Some (lit "ERROR", datos).
Proof.
  apply (store_exception_is_answered Sample.w_throttled Sample.ev_valid PNone).
  - vm_compute. right. left. reflexivity.
  - reflexivity.
Defined.

(** X16 on the first example. *)
Lemma response_shape_witness :
  (statusCode (success_response Sample.item_valid (PInt 200)) = 200%Z /\
   exists t u p st,
     body (success_response Sample.item_valid (PInt 200)) =
     json_dumps
       (PDict [(lit "pelicula",
                PDict [(lit "tenant_id", t);
                       (lit "uuid", PStr u);
                       (lit "pelicula_datos", p)]);
               (lit "response", PDict [(lit "http_status", st)])]))
  \/
  ((statusCode (success_response Sample.item_valid (PInt 200)) = 400%Z \/
    statusCode (success_response Sample.item_valid (PInt 200)) = 500%Z) /\
   exists mensaje tipo_error,
     body (success_response Sample.item_valid (PInt 200)) =
     json_dumps
       (PDict [(lit "error",
                PDict [(lit "mensaje", PStr mensaje);
                       (lit "tipo_error", PStr tipo_error)])])).
Proof.
  apply (response_shape Sample.w_ok Sample.ev_valid PNone).
  vm_compute. reflexivity.
Defined.

(** X17 on a table handle that cannot be built. *)
Lemma table_failure_writes_nothing_witness :
  snd (lambda_handler Sample.w_no_region Sample.ev_valid PNone) =
    Ok (mkresponse
          (if is_expected Sample.no_region
           then if is_validation Sample.no_region then 400%Z else 500%Z
           else 500%Z)
          (json_dumps
             (PDict [(lit "error",
                      PDict [(lit "mensaje",
                              PStr (if is_expected Sample.no_region
                                    then exc_str Sample.no_region
                                    else lit "Error interno inesperado."));
                             (lit "tipo_error",
                              PStr (exc_name Sample.no_region))])]))) /\
  no_write (fst (lambda_handler Sample.w_no_region Sample.ev_valid PNone))
  = true /\
  List.length (fst (lambda_handler Sample.w_no_region Sample.ev_valid PNone))
  = 2%nat.
Proof.
  apply (table_failure_writes_nothing Sample.w_no_region Sample.ev_valid PNone
           (lit "peliculas")
           [(lit "tenant_id", PStr (lit "t1"));
            (lit "pelicula_datos", Sample.titulo_x)]
           (PStr (lit "t1")) Sample.titulo_x Sample.no_region); reflexivity.
Defined.

(** X18 on the second example: the tenant is kept, and that the payload
    is missing. *)
Lemma error_line_request_summary_witness :
  exists line datos,
    fst (lambda_handler Sample.w_ok Sample.ev_only_tenant PNone) =
      [entry_log Sample.ev_only_tenant] ++ [line] /\
    log_of line = Some (lit "ERROR", datos) /\
    dict_get datos (lit "entrada_relevante") =
      (if is_expected missing_datos_error
       then Some (PDict
              [(lit "tenant_id",
                match dict_get [(lit "tenant_id", PStr (lit "t1"))]
                        (lit "tenant_id") with
                | Some x => x
                | None => PNone
                end);
               (lit "tiene_pelicula_datos",
                PBool (match dict_get [(lit "tenant_id", PStr (lit "t1"))]
                               (lit "pelicula_datos") with
                       | Some _ => true
                       | None => false
                       end))])
       else None).
Proof.
  apply (error_line_request_summary Sample.w_ok Sample.ev_only_tenant PNone
           [entry_log Sample.ev_only_tenant] missing_datos_error
           [(lit "tenant_id", PStr (lit "t1"))]).
  - reflexivity.
  - vm_compute. reflexivity.
  - reflexivity.
  - reflexivity.
Defined.
